(** * The credits ledger and payment reconciliation core of gostudy

    A shallow embedding of the credits system of [backend/server.js]
    (section 4, "PRODUCTION-SAFE CREDITS SYSTEM", the [checkCredits]
    middleware, the pre-check of [/api/generate-plan] and the PayPal webhook
    handler), followed by the properties the specification states about it.

    The Firestore database is modelled as an explicit store that every
    operation threads through a small state-and-exception monad.  A JavaScript
    exception is a [Throw]; a [try]/[catch] is [try_catch]. *)

From Stdlib Require Import ZArith String Ascii Bool Lia DecimalString DecimalPos DecimalN.
From stdpp Require Import base option list gmap strings.

Local Open Scope string_scope.
Local Open Scope Z_scope.

(** ** Data model *)

(** [plan] is one of the strings ['free'] and ['pro']. *)
Inductive Plan := free | pro.

(** The [type] field of a ledger entry. *)
Inductive EntryType := grant | deduction | purchase | refund.

#[global] Instance Plan_eq_dec : EqDecision Plan.
Proof. solve_decision. Defined.

#[global] Instance EntryType_eq_dec : EqDecision EntryType.
Proof. solve_decision. Defined.

(** [const PLAN_CREDITS = { free: 3, pro: 40 }] *)
Definition PLAN_CREDITS (p : Plan) : Z :=
  match p with
  | free => 3
  | pro => 40
  end.

(** A document of the [users] collection.  A field the document does not
    carry ([undefined] in JavaScript) is [None]: [PUT /api/preferences]
    creates a user document with a [preferences] field only, so [plan] and
    [credits_balance] can be missing, which is what the [|| 0] and
    [|| 'free'] defaults of the source are for.  [paypalSubscriptionId] is
    [None] for both [null] and a missing field; a missing
    [manualProCreditsGranted] is [false].  Timestamps and the fields the
    credits system never reads are left out. *)
Record Account := mkAccount {
  plan : option Plan;
  credits_balance : option Z;
  paypalSubscriptionId : option string;
  manualProCreditsGranted : bool
}.

(** A document of the [credits_ledger] collection.  The entry written by the
    lazy initialisation of [getCreditsBalance] has no [balanceAfter]. *)
Record LedgerEntry := mkLedgerEntry {
  userId : string;
  amount : Z;
  type : EntryType;
  description : string;
  idempotencyKey : option string;
  paypalEventId : option string;
  balanceAfter : option Z
}.

(** A document of the [processed_webhooks] collection, keyed by event id. *)
Record WebhookRecord := mkWebhookRecord {
  eventId : string;
  eventType : string
}.

(** The three collections.  The ledger only ever grows by documents with
    fresh automatic ids, so it is a list in creation order. *)
Record Store := mkStore {
  users : gmap string Account;
  credits_ledger : list LedgerEntry;
  processed_webhooks : gmap string WebhookRecord
}.

#[global] Instance Account_eq_dec : EqDecision Account.
Proof. solve_decision. Defined.

#[global] Instance LedgerEntry_eq_dec : EqDecision LedgerEntry.
Proof. solve_decision. Defined.

(** ** JavaScript truthiness *)

(** [x || d] on a number field: [undefined] and [0] are both falsy. *)
Definition num_or (x : option Z) (d : Z) : Z :=
  match x with
  | Some v => if v =? 0 then d else v
  | None => d
  end.

(** [x || d] on the plan field. *)
Definition plan_or (x : option Plan) (d : Plan) : Plan :=
  match x with
  | Some p => p
  | None => d
  end.

(** Truthiness of a string-or-null value: [null], [undefined] and the empty
    string are falsy. *)
Definition truthy (x : option string) : bool :=
  match x with
  | Some s => negb (String.eqb s "")
  | None => false
  end.

(** [x <= 0] on a number field: the comparison with [undefined] is [false]. *)
Definition num_le0 (x : option Z) : bool :=
  match x with
  | Some v => v <=? 0
  | None => false
  end.

(** ** The environment of a call *)

(** The places where the source awaits the database.  Each of them can
    reject; at most one call of each kind happens in one request. *)
Inductive Site :=
  | UsersGet | UsersSet | UsersUpdate | UsersQuery
  | LedgerAdd | LedgerQuery
  | TxnGet | TxnCommit
  | WebhooksGet | WebhooksSet.

#[global] Instance Site_eq_dec : EqDecision Site.
Proof. solve_decision. Defined.

(** [db] is the module-level handle ([null] when Firebase Admin could not be
    initialised); [fails] says which database calls of this request reject;
    [verifyIdToken] is [admin.auth().verifyIdToken], [None] when it throws,
    otherwise the [uid] of the decoded token; [signatureValid] is the result
    of [verifyPayPalWebhook], which catches its own errors. *)
Record Env := mkEnv {
  db : bool;
  fails : Site -> bool;
  verifyIdToken : string -> option string;
  signatureValid : bool
}.

(** ** Exceptions and state *)

Inductive Res (A : Type) :=
  | Ok (a : A)
  | Throw (msg : string).
Arguments Ok {A} a.
Arguments Throw {A} msg.

Definition M (A : Type) : Type := Store -> Res A * Store.

Definition ret {A} (a : A) : M A := fun s => (Ok a, s).

Definition throw {A} (msg : string) : M A := fun s => (Throw msg, s).

(** [bind] chains the awaited steps of one call with nothing in between:
    it describes a call during which the server takes no other request.
    What two calls do when they overlap is said with [overlap] below. *)
Definition bind {A B} (m : M A) (k : A -> M B) : M B :=
  fun s =>
    match m s with
    | (Ok a, s') => k a s'
    | (Throw e, s') => (Throw e, s')
    end.

(** [try { m } catch (error) { h error.message }] *)
Definition try_catch {A} (m : M A) (h : string -> M A) : M A :=
  fun s =>
    match m s with
    | (Ok a, s') => (Ok a, s')
    | (Throw e, s') => h e s'
    end.

Notation "'let!' x ':=' m 'in' k" := (bind m (fun x => k))
  (at level 10, x name, m at level 100, k at level 200).
Notation "'do!' m 'in' k" := (bind m (fun _ => k))
  (at level 10, m at level 100, k at level 200).

(** ** The database client *)

(** The message of a rejected database call. *)
Definition UNAVAILABLE : string := "UNAVAILABLE".

(** The message of [update] on a document that does not exist. *)
Definition NOT_FOUND : string := "NOT_FOUND".

(** Every awaited database call first consults the environment. *)
Definition await {A} (E : Env) (site : Site) (m : M A) : M A :=
  if fails E site then throw UNAVAILABLE else m.

Definition with_users (f : gmap string Account -> gmap string Account) (s : Store) : Store :=
  mkStore (f (users s)) (credits_ledger s) (processed_webhooks s).

Definition with_ledger (f : list LedgerEntry -> list LedgerEntry) (s : Store) : Store :=
  mkStore (users s) (f (credits_ledger s)) (processed_webhooks s).

Definition with_webhooks (f : gmap string WebhookRecord -> gmap string WebhookRecord) (s : Store) : Store :=
  mkStore (users s) (credits_ledger s) (f (processed_webhooks s)).

(** [db.collection('users').doc(uid).get()] *)
Definition users_get (E : Env) (uid : string) : M (option Account) :=
  await E UsersGet (fun s => (Ok (users s !! uid), s)).

(** [db.collection('users').doc(uid).set(a)] *)
Definition users_set (E : Env) (uid : string) (a : Account) : M unit :=
  await E UsersSet (fun s => (Ok tt, with_users (insert uid a) s)).

(** [db.collection('users').doc(uid).update(fields)]: rejects when the
    document does not exist. *)
Definition users_update (E : Env) (uid : string) (f : Account -> Account) : M unit :=
  await E UsersUpdate (fun s =>
    match users s !! uid with
    | Some a => (Ok tt, with_users (insert uid (f a)) s)
    | None => (Throw NOT_FOUND, s)
    end).

(** The first of a list of document ids in the order of a query without
    [orderBy]: ascending by id, ids compared byte by byte. *)
Definition first_id (ids : list string) : option string :=
  foldr (fun u first =>
           match first with
           | Some v => Some (if String.leb u v then u else v)
           | None => Some u
           end) None ids.

(** The id of [snapshot.docs[0]] of the query for the users with the
    subscription id [sub], [None] when the snapshot is empty. *)
Definition first_holder (us : gmap string Account) (sub : string) : option string :=
  first_id (fst <$> filter (fun ua => paypalSubscriptionId (snd ua) = Some sub)
                           (map_to_list us)).

(** [db.collection('users').where('paypalSubscriptionId', '==', sub).limit(1).get()],
    reduced to the id of [snapshot.docs[0]] when the snapshot is not empty. *)
Definition users_where_subscription (E : Env) (sub : string) : M (option string) :=
  await E UsersQuery (fun s => (Ok (first_holder (users s) sub), s)).

(** [db.collection('credits_ledger').add(e)] *)
Definition ledger_add (E : Env) (e : LedgerEntry) : M unit :=
  await E LedgerAdd (fun s => (Ok tt, with_ledger (fun l => (l ++ [e])%list) s)).

(** Whether some ledger entry carries the key. *)
Definition key_used (key : option string) (l : list LedgerEntry) : bool :=
  existsb (fun e => bool_decide (idempotencyKey e = key)) l.

(** [db.collection('credits_ledger').where('idempotencyKey', '==', key).limit(1).get()],
    reduced to [!existingLedger.empty]. *)
Definition ledger_where_key (E : Env) (key : option string) : M bool :=
  await E LedgerQuery (fun s => (Ok (key_used key (credits_ledger s)), s)).

(** [db.collection('processed_webhooks').doc(id).get()] *)
Definition webhooks_get (E : Env) (id : string) : M (option WebhookRecord) :=
  await E WebhooksGet (fun s => (Ok (processed_webhooks s !! id), s)).

(** [db.collection('processed_webhooks').doc(id).set(r)] *)
Definition webhooks_set (E : Env) (id : string) (r : WebhookRecord) : M unit :=
  await E WebhooksSet (fun s => (Ok tt, with_webhooks (insert id r) s)).

(** ** Transactions *)

(** A write buffered by [transaction.update] or [transaction.set]. *)
Inductive Write :=
  | WUpdateUser (uid : string) (f : Account -> Account)
  | WSetUser (uid : string) (a : Account)
  | WSetLedger (e : LedgerEntry).

Definition apply_write (w : Write) (s : Store) : option Store :=
  match w with
  | WUpdateUser uid f =>
      match users s !! uid with
      | Some a => Some (with_users (insert uid (f a)) s)
      | None => None
      end
  | WSetUser uid a => Some (with_users (insert uid a) s)
  | WSetLedger e => Some (with_ledger (fun l => (l ++ [e])%list) s)
  end.

Fixpoint apply_writes (ws : list Write) (s : Store) : option Store :=
  match ws with
  | [] => Some s
  | w :: ws' =>
      match apply_write w s with
      | Some s' => apply_writes ws' s'
      | None => None
      end
  end.

(** [db.runTransaction(body)].  The body reads a snapshot of the store and
    either throws or returns its result with the writes it buffered; the
    buffered writes reach the store together when the commit succeeds and not
    at all otherwise.  The read and the commit are the two awaited calls.
    The client re-runs the body of a transaction that meets a concurrent
    write on the documents it has read, so that committed transactions take
    effect one after another; a transaction is therefore one step. *)
Definition runTransaction {A} (E : Env) (body : Store -> Res A * list Write) : M A :=
  fun s =>
    if fails E TxnGet then (Throw UNAVAILABLE, s)
    else
      match body s with
      | (Throw e, _) => (Throw e, s)
      | (Ok a, ws) =>
          if fails E TxnCommit then (Throw UNAVAILABLE, s)
          else
            match apply_writes ws s with
            | Some s' => (Ok a, s')
            | None => (Throw NOT_FOUND, s)
            end
      end.

(** ** Balance Manager *)

(** The object [deductCredits] and [addCredits] resolve to.  A missing
    [duplicate] is [false]; a missing [newBalance] or [error] is [None]. *)
Record OpResult := mkOpResult {
  success : bool;
  duplicate : bool;
  newBalance : option Z;
  error : option string
}.

Definition set_credits_balance (b : Z) (a : Account) : Account :=
  mkAccount (plan a) (Some b) (paypalSubscriptionId a) (manualProCreditsGranted a).

(** [getCreditsBalance(userId)]; the result is [null] or the user data (its
    [id] field is the argument). *)
Definition getCreditsBalance (E : Env) (userId : string) : M (option Account) :=
  if negb (db E) then ret None
  else
    let! userDoc := users_get E userId in
    match userDoc with
    | None =>
        let newUserData := mkAccount (Some free) (Some (PLAN_CREDITS free)) None false in
        do! users_set E userId newUserData in
        do! ledger_add E
              (mkLedgerEntry userId (PLAN_CREDITS free) grant "Initial free plan credits"
                             (Some ("init_" +:+ userId)) None None) in
        ret (Some newUserData)
    | Some userData =>
        if bool_decide (plan userData = Some pro)
           && negb (truthy (paypalSubscriptionId userData))
           && negb (manualProCreditsGranted userData)
        then
          let newBalance := PLAN_CREDITS pro in
          do! users_update E userId
                (fun a => mkAccount (plan a) (Some newBalance) (paypalSubscriptionId a) true) in
          ret (Some (mkAccount (plan userData) (Some newBalance)
                               (paypalSubscriptionId userData) true))
        else ret (Some userData)
    end.

(** The body of the transaction of [deductCredits]. *)
Definition deduct_body (userId : string) (amount : Z) (description : string)
    (idempotencyKey : option string) (s : Store) : Res Z * list Write :=
  match users s !! userId with
  | None => (Throw "User not found", [])
  | Some userDoc =>
      let currentBalance := num_or (credits_balance userDoc) 0 in
      if currentBalance <? amount then (Throw "Insufficient credits", [])
      else
        let newBalance := currentBalance - amount in
        (Ok newBalance,
         [WUpdateUser userId (set_credits_balance newBalance);
          WSetLedger (mkLedgerEntry userId (- amount) deduction description
                                    idempotencyKey None (Some newBalance))])
  end.

(** The [try]/[catch] block of [deductCredits]. *)
Definition deduct_transaction (E : Env) (userId : string) (amount : Z) (description : string)
    (idempotencyKey : option string) : M OpResult :=
  try_catch
    (let! result := runTransaction E (deduct_body userId amount description idempotencyKey) in
     ret (mkOpResult true false (Some result) None))
    (fun message => ret (mkOpResult false false None (Some message))).

(** [deductCredits(userId, amount, description, idempotencyKey = null)] *)
Definition deductCredits (E : Env) (userId : string) (amount : Z) (description : string)
    (idempotencyKey : option string) : M OpResult :=
  if negb (db E) then ret (mkOpResult false false None (Some "Database not initialized"))
  else
    let! existing :=
      (if truthy idempotencyKey then ledger_where_key E idempotencyKey else ret false) in
    if (existing : bool) then ret (mkOpResult true true None None)
    else deduct_transaction E userId amount description idempotencyKey.

(** The body of the transaction of [addCredits]. *)
Definition add_body (userId : string) (amount : Z) (type : EntryType) (description : string)
    (idempotencyKey paypalEventId : option string) (s : Store) : Res Z * list Write :=
  let userDoc := users s !! userId in
  let currentBalance :=
    match userDoc with
    | Some d => num_or (credits_balance d) 0
    | None => 0
    end in
  let currentPlan :=
    match userDoc with
    | Some d => plan_or (plan d) free
    | None => free
    end in
  let newBalance := Z.max 0 (currentBalance + amount) in
  (Ok newBalance,
   [match userDoc with
    | Some _ =>
        WUpdateUser userId (fun a =>
          mkAccount (Some (if bool_decide (type = purchase) then pro else currentPlan))
                    (Some newBalance) (paypalSubscriptionId a) (manualProCreditsGranted a))
    | None =>
        WSetUser userId
          (mkAccount (Some (if bool_decide (type = purchase) then pro else free))
                     (Some newBalance) None false)
    end;
    WSetLedger (mkLedgerEntry userId amount type description idempotencyKey paypalEventId
                              (Some newBalance))]).

(** The [try]/[catch] block of [addCredits]. *)
Definition add_transaction (E : Env) (userId : string) (amount : Z) (type : EntryType)
    (description : string) (idempotencyKey paypalEventId : option string) : M OpResult :=
  try_catch
    (let! result :=
       runTransaction E (add_body userId amount type description idempotencyKey paypalEventId) in
     ret (mkOpResult true false (Some result) None))
    (fun message => ret (mkOpResult false false None (Some message))).

(** [addCredits(userId, amount, type, description, idempotencyKey, paypalEventId = null)] *)
Definition addCredits (E : Env) (userId : string) (amount : Z) (type : EntryType)
    (description : string) (idempotencyKey paypalEventId : option string) : M OpResult :=
  if negb (db E) then ret (mkOpResult false false None (Some "Database not initialized"))
  else
    let! existing := ledger_where_key E idempotencyKey in
    if (existing : bool) then ret (mkOpResult true true None None)
    else add_transaction E userId amount type description idempotencyKey paypalEventId.

(** ** Usage Gate *)

(** What the gate reads of a request: the [Authorization] header and whether
    [req.file] is set. *)
Record Request := mkRequest {
  authorization : option string;
  file : bool
}.

(** The JSON bodies and plain texts the modelled handlers send. *)
Inductive Body :=
  | Text (text : string)
  | ErrorBody (err : string)
  | Insufficient (err message : string) (balance : option Z) (its_plan : option Plan).

(** A middleware either answers the request or hands it on; [Next] carries
    what was attached to the request ([req.creditsData] and the [uid] of
    [req.user]), if anything. *)
Inductive Outcome :=
  | Respond (status : Z) (body : Body)
  | Next (attached : option (Account * string)).

Definition MSG_FREE : string :=
  "You have used all 3 free lifetime uploads. Upgrade to Pro for 40 uploads/month!".

Definition MSG_PRO : string :=
  "You have no credits remaining. Your credits will renew with your next billing cycle.".

(** [plan === 'free' ? MSG_FREE : MSG_PRO] *)
Definition upgrade_message (p : option Plan) : string :=
  if bool_decide (p = Some free) then MSG_FREE else MSG_PRO.

(** The text of [s] before the first occurrence of [sep]. *)
Fixpoint before (sep s : string) : string :=
  match s with
  | EmptyString => EmptyString
  | String c s' => if String.prefix sep s then EmptyString else String c (before sep s')
  end.

(** [authHeader.split('Bearer ')[1]] for a header that starts with
    ['Bearer ']. *)
Definition bearer_token (authHeader : string) : string :=
  before "Bearer " (String.substring 7 (String.length authHeader - 7) authHeader).

(** The [checkCredits] middleware. *)
Definition checkCredits (E : Env) (req : Request) : M Outcome :=
  match authorization req with
  | Some authHeader =>
      if negb (String.prefix "Bearer " authHeader) || negb (db E) then ret (Next None)
      else
        try_catch
          (match verifyIdToken E (bearer_token authHeader) with
           | None => throw "verifyIdToken"
           | Some userId =>
               let! userData := getCreditsBalance E userId in
               match userData with
               | None => ret (Next None)
               | Some d =>
                   if num_le0 (credits_balance d)
                   then ret (Respond 403
                               (Insufficient "Insufficient credits" (upgrade_message (plan d))
                                             (credits_balance d) (plan d)))
                   else ret (Next (Some (d, userId)))
               end
           end)
          (fun _ => ret (Next None))
  | None => ret (Next None)
  end.

(** [POST /api/generate-plan] up to the end of its credit pre-check: the
    [authenticate] middleware, the upload validation and the inline gate.
    [Next] means the handler goes on to the extraction and the AI call. *)
Definition generate_plan_precheck (E : Env) (req : Request) : M Outcome :=
  match authorization req with
  | Some authHeader =>
      if negb (String.prefix "Bearer " authHeader)
      then ret (Respond 401 (ErrorBody "Unauthorized: No token provided"))
      else
        match verifyIdToken E (bearer_token authHeader) with
        | None => ret (Respond 401 (ErrorBody "Unauthorized: Invalid token"))
        | Some userId =>
            if negb (file req)
            then ret (Respond 400 (ErrorBody "No file uploaded or file too large (>5MB)."))
            else if db E then
              let! userData := getCreditsBalance E userId in
              match userData with
              | None =>
                  ret (Respond 403
                         (Insufficient "Insufficient credits" MSG_PRO (Some 0) (Some free)))
              | Some d =>
                  if num_le0 (credits_balance d)
                  then ret (Respond 403
                              (Insufficient "Insufficient credits" (upgrade_message (plan d))
                                            (Some (num_or (credits_balance d) 0))
                                            (Some (plan_or (plan d) free))))
                  else ret (Next (Some (d, userId)))
              end
            else ret (Next None)
        end
  | None => ret (Respond 401 (ErrorBody "Unauthorized: No token provided"))
  end.

(** ** Webhook Processor *)

(** The parsed webhook body: [event.id], [event.event_type],
    [event.resource?.id] and [event.resource?.custom_id]. *)
Record Event := mkEvent {
  id : string;
  event_type : string;
  resource_id : option string;
  custom_id : option string
}.

(** [isWebhookProcessed(eventId)] *)
Definition isWebhookProcessed (E : Env) (eventId : string) : M bool :=
  if negb (db E) then ret false
  else
    let! doc := webhooks_get E eventId in
    ret (bool_decide (is_Some doc)).

(** [markWebhookProcessed(eventId, eventType)] *)
Definition markWebhookProcessed (E : Env) (eventId eventType : string) : M unit :=
  if negb (db E) then ret tt
  else webhooks_set E eventId (mkWebhookRecord eventId eventType).

Definition one_of (t a b : string) : bool := String.eqb t a || String.eqb t b.

(** The [switch (event.event_type)] of the webhook handler. *)
Definition apply_event (E : Env) (event : Event) : M unit :=
  let eventId := id event in
  let subscriptionId := resource_id event in
  let customId := custom_id event in
  let t := event_type event in
  if one_of t "BILLING.SUBSCRIPTION.ACTIVATED" "PAYMENT.SALE.COMPLETED" then
    match subscriptionId with
    | Some sub =>
        if truthy subscriptionId then
          let! userId :=
            (if truthy customId then ret customId
             else
               let! found := users_where_subscription E sub in
               ret (match found with
                    | Some u => Some u
                    | None => customId
                    end)) in
          match userId with
          | Some uid =>
              if truthy userId then
                let! result :=
                  addCredits E uid (PLAN_CREDITS pro) purchase
                             ("Pro subscription payment (" +:+ t +:+ ")")
                             (Some ("paypal_" +:+ eventId)) (Some eventId) in
                users_update E uid (fun a =>
                  mkAccount (Some pro) (credits_balance a) (Some sub)
                            (manualProCreditsGranted a))
              else ret tt
          | None => ret tt
          end
        else ret tt
    | None => ret tt
    end
  else if one_of t "PAYMENT.SALE.REFUNDED" "PAYMENT.SALE.REVERSED" then
    match subscriptionId with
    | Some sub =>
        if truthy subscriptionId then
          let! found := users_where_subscription E sub in
          match found with
          | Some uid =>
              do! addCredits E uid (- PLAN_CREDITS pro) refund
                             ("Payment refunded/reversed (" +:+ t +:+ ")")
                             (Some ("paypal_refund_" +:+ eventId)) (Some eventId) in
              ret tt
          | None => ret tt
          end
        else ret tt
    | None => ret tt
    end
  else if String.eqb t "BILLING.SUBSCRIPTION.CANCELLED"
          || String.eqb t "BILLING.SUBSCRIPTION.SUSPENDED"
          || String.eqb t "BILLING.SUBSCRIPTION.EXPIRED" then
    match subscriptionId with
    | Some sub =>
        if truthy subscriptionId then
          let! found := users_where_subscription E sub in
          match found with
          | Some uid =>
              users_update E uid (fun a =>
                mkAccount (Some free) (credits_balance a) (paypalSubscriptionId a)
                          (manualProCreditsGranted a))
          | None => ret tt
          end
        else ret tt
    | None => ret tt
    end
  else ret tt.

Definition OK200 : Outcome := Respond 200 (Text "OK").

(** The body of [app.post('/api/paypal/webhook', ...)] on a parsed event,
    with the [switch] statement as the parameter [dispatch], so that a
    statement can say that the switch is not reached. *)
Definition webhook_handler (dispatch : Env -> Event -> M unit) (E : Env) (event : Event)
    : M Outcome :=
  try_catch
    (if negb (db E) then ret OK200
     else if negb (signatureValid E) then ret (Respond 401 (Text "Invalid signature"))
     else
       let! processed := isWebhookProcessed E (id event) in
       if (processed : bool) then ret OK200
       else
         do! dispatch E event in
         do! markWebhookProcessed E (id event) (event_type event) in
         ret OK200)
    (fun _ => ret OK200).

(** [app.post('/api/paypal/webhook', ...)] *)
Definition paypal_webhook : Env -> Event -> M Outcome := webhook_handler apply_event.

(** ** Authentication and the credit endpoints *)

(** The [authenticate] middleware either answers 401 with an error text or
    attaches the decoded token to the request ([req.user]; its [uid] here)
    and hands the request on. *)
Inductive Auth :=
  | Unauthorized (err : string)
  | Authenticated (uid : string).

Definition authenticate (E : Env) (req : Request) : Auth :=
  match authorization req with
  | Some authHeader =>
      if negb (String.prefix "Bearer " authHeader)
      then Unauthorized "Unauthorized: No token provided"
      else
        match verifyIdToken E (bearer_token authHeader) with
        | Some uid => Authenticated uid
        | None => Unauthorized "Unauthorized: Invalid token"
        end
  | None => Unauthorized "Unauthorized: No token provided"
  end.

(** What a JSON handler sends: [res.json(payload)] or
    [res.status(code).json({ error })]. *)
Inductive Reply (A : Type) :=
  | Json (payload : A)
  | Failure (status : Z) (err : string).
Arguments Json {A} payload.
Arguments Failure {A} status err.

(** The payload of [GET /api/credits/balance]. *)
Record BalanceInfo := mkBalanceInfo {
  info_plan : option Plan;
  info_credits_balance : option Z;
  plan_credits : Z
}.

(** [GET /api/credits/balance] *)
Definition credits_balance_route (E : Env) (req : Request) : M (Reply BalanceInfo) :=
  match authenticate E req with
  | Unauthorized err => ret (Failure 401 err)
  | Authenticated uid =>
      if negb (db E) then ret (Failure 500 "Firestore not initialized")
      else
        try_catch
          (let! userData := getCreditsBalance E uid in
           match userData with
           | None => ret (Failure 500 "Could not fetch credits data")
           | Some d =>
               ret (Json (mkBalanceInfo (plan d) (credits_balance d)
                                        (PLAN_CREDITS (plan_or (plan d) free))))
           end)
          (fun message => ret (Failure 500 message))
  end.

(** The payload of the legacy [GET /api/usage].  A number computed from a
    missing balance is [NaN], sent as [null]: [None] here. *)
Record UsageInfo := mkUsageInfo {
  usage_plan : option Plan;
  uploadsThisMonth : option Z;
  limit : Z;
  remaining : option Z;
  usage_credits_balance : option Z
}.

(** [GET /api/usage] *)
Definition usage_route (E : Env) (req : Request) : M (Reply UsageInfo) :=
  match authenticate E req with
  | Unauthorized err => ret (Failure 401 err)
  | Authenticated uid =>
      if negb (db E) then ret (Failure 500 "Firestore not initialized")
      else
        try_catch
          (let! userData := getCreditsBalance E uid in
           match userData with
           | None => ret (Failure 500 "Could not fetch usage data")
           | Some d =>
               let limit := PLAN_CREDITS (plan_or (plan d) free) in
               ret (Json (mkUsageInfo (plan d)
                                      ((fun b => limit - b) <$> credits_balance d)
                                      limit (credits_balance d) (credits_balance d)))
           end)
          (fun message => ret (Failure 500 message))
  end.

(** [db.collection('users').doc(uid).set(fields, { merge: true })]: the
    fields are merged into the document when it exists (the merge [f]) and
    make up the whole document otherwise ([fresh]). *)
Definition users_set_merge (E : Env) (uid : string) (f : Account -> Account)
    (fresh : Account) : M unit :=
  await E UsersSet (fun s =>
    (Ok tt,
     with_users (insert uid (match users s !! uid with
                             | Some a => f a
                             | None => fresh
                             end)) s)).

(** [PUT /api/preferences].  The [preferences] field it writes is one of
    the fields the credits system never reads: merged into an existing
    document it leaves the modelled fields as they are, and a document it
    creates has none of them. *)
Definition put_preferences (E : Env) (req : Request) : M (Reply unit) :=
  match authenticate E req with
  | Unauthorized err => ret (Failure 401 err)
  | Authenticated uid =>
      if negb (db E) then ret (Failure 500 "Firestore not initialized")
      else
        try_catch
          (do! users_set_merge E uid (fun a => a) (mkAccount None None None false) in
           ret (Json tt))
          (fun message => ret (Failure 500 message))
  end.

(** Step 6 of [POST /api/generate-plan], after the plan was generated and
    stored under the fresh document id [generationId]: the deduction keyed by
    the generation.  [Failure 402] is the answer after which the stored
    generation is deleted again; [Json tt] stands for the plan being sent; an
    exception reaches the [catch] of the handler, which answers 500. *)
Definition generate_plan_charge (E : Env) (userId originalname generationId : string)
    : M (Reply unit) :=
  try_catch
    (if db E then
       let! deductResult :=
         deductCredits E userId 1 ("Study plan generation: " +:+ originalname)
                       (Some ("gen_" +:+ generationId)) in
       if negb (success deductResult) && negb (duplicate deductResult)
       then ret (Failure 402 "Credit deduction failed")
       else ret (Json tt)
     else ret (Json tt))
    (fun message => ret (Failure 500 message)).

(** ** The chat endpoint *)

(** An element of [req.body.messages]: its [role] and [content], [None]
    when missing. *)
Record ChatMessage := mkChatMessage {
  role : option string;
  content : option string
}.

(** What the call to the AI provider comes to: a message, a response
    without choices, an HTTP error response, or no response at all. *)
Inductive AiOutcome :=
  | AiMessage (text : string)
  | AiNoChoices
  | AiHttpError (status : Z)
  | AiUnreachable.

(** What [POST /api/chat] sends: the message with [creditsRemaining], or a
    status with an error text. *)
Inductive ChatReply :=
  | ChatOk (text : string) (creditsRemaining : option Z)
  | ChatError (status : Z) (err : string).

(** [m.role && m.content] *)
Definition valid_message (m : ChatMessage) : bool :=
  truthy (role m) && truthy (content m).

Definition CHAT_DESCRIPTION : string := "AI Chat Interaction".

(** The chat deductions of a user among the ledger entries written within
    the last hour.  Ledger entries carry the server time of their creation,
    so the entries of the last hour are the ledger without its first
    [older] entries, [older] being the number of entries written before
    that. *)
Definition recent_chats (u : string) (older : nat) (l : list LedgerEntry) : nat :=
  length (filter (fun e => userId e = u /\ type e = deduction
                           /\ description e = CHAT_DESCRIPTION)
                 (drop older l)).

(** [db.collection('credits_ledger').where('userId', '==', u)
      .where('type', '==', 'deduction').get()], reduced to the count the
    handler takes from it.  On a [null] handle the call throws. *)
Definition count_recent_chats (E : Env) (u : string) (older : nat) : M nat :=
  if negb (db E) then throw "TypeError"
  else await E LedgerQuery (fun s => (Ok (recent_chats u older (credits_ledger s)), s)).

(** [POST /api/chat].  [ai] is the AI provider, asked with the validated
    messages. *)
Definition chat_route (E : Env) (ai : list ChatMessage -> AiOutcome) (older : nat)
    (req : Request) (messages : option (list ChatMessage)) : M ChatReply :=
  match authenticate E req with
  | Unauthorized err => ret (ChatError 401 err)
  | Authenticated userId =>
      match messages with
      | None => ret (ChatError 400 "Messages array is required.")
      | Some msgs =>
          if negb (truthy (Some userId))
          then ret (ChatError 401 "User ID missing from token.")
          else
            try_catch
              (let! recentMsgCount := count_recent_chats E userId older in
               if (20 <=? recentMsgCount)%nat then ret (ChatError 429 "Rate limit exceeded")
               else
                 let! deductResult := deductCredits E userId 1 CHAT_DESCRIPTION None in
                 if negb (success deductResult)
                 then ret (ChatError 403 "Insufficient credits")
                 else
                   let validatedMessages := List.filter valid_message msgs in
                   if (length validatedMessages =? 0)%nat
                   then ret (ChatError 400 "No valid messages provided.")
                   else
                     match ai validatedMessages with
                     | AiMessage text => ret (ChatOk text (newBalance deductResult))
                     | AiHttpError status => ret (ChatError status "AI Provider Error")
                     | AiNoChoices | AiUnreachable =>
                         ret (ChatError 500 "Failed to process chat request")
                     end)
              (fun _ => ret (ChatError 500 "Failed to process chat request"))
      end
  end.

(** ** Webhook signature verification *)

(** [PAYPAL_CONFIG]: the credentials read from the environment. *)
Record PayPalConfig := mkPayPalConfig {
  clientId : option string;
  clientSecret : option string;
  webhookId : option string
}.

(** [verifyPayPalWebhook(headers, body)].  [api] is what the two calls to
    PayPal come to: the [verification_status] of the response, or an
    exception from either call. *)
Definition verifyPayPalWebhook (cfg : PayPalConfig) (api : Res string) : bool :=
  if negb (truthy (clientId cfg)) || negb (truthy (webhookId cfg)) then false
  else
    match api with
    | Ok verification_status => String.eqb verification_status "SUCCESS"
    | Throw _ => false
    end.

(** ** Progress tracking helpers *)

(** Whether a character is one of [0] to [9] (the class [\d]). *)
Definition is_digit (c : ascii) : bool :=
  ((48 <=? nat_of_ascii c) && (nat_of_ascii c <=? 57))%nat.

(** The digits at the start of a string. *)
Fixpoint digit_run (s : string) : string :=
  match s with
  | EmptyString => EmptyString
  | String c s' => if is_digit c then String c (digit_run s') else EmptyString
  end.

(** [dayString.match(/\d+/)]: the first run of digits, if any. *)
Fixpoint first_digit_run (s : string) : option string :=
  match s with
  | EmptyString => None
  | String c s' => if is_digit c then Some (String c (digit_run s')) else first_digit_run s'
  end.

(** [parseInt(digits, 10)] on a string of digits, continued from the value
    [acc] of the digits read so far. *)
Fixpoint parse_digits (acc : N) (s : string) : N :=
  match s with
  | EmptyString => acc
  | String c s' => parse_digits (10 * acc + N.of_nat (nat_of_ascii c - 48)) s'
  end.

(** [parseDayNumber(dayString)].  The result is the JavaScript number as
    long as the run has no more than 15 digits (numbers are doubles). *)
Definition parseDayNumber (dayString : string) : N :=
  match first_digit_run dayString with
  | Some digits => parse_digits 0 digits
  | None => 1%N
  end.

(** A document of the [study_progress] collection, reduced to the fields
    the statistics and the mark endpoint read. *)
Record ProgressItem := mkProgressItem {
  topic : string;
  day : string;
  progress_status : string
}.

(** [validStatuses] of [POST /api/progress/mark], and
    [validStatuses.includes(status)]. *)
Definition validStatuses : list string := ["completed"; "missed"; "rescheduled"; "pending"].

Definition valid_status (st : string) : bool :=
  existsb (String.eqb st) validStatuses.

(** [progressItems.filter(p => p.status === st).length] *)
Definition count_status (st : string) (progressItems : list ProgressItem) : nat :=
  length (List.filter (fun p => String.eqb (progress_status p) st) progressItems).

(** The result of [computeProgressStats]; [R] is the type of the
    completion rate. *)
Record ProgressStats (R : Type) := mkProgressStats {
  totalItems : nat;
  completed : nat;
  missed : nat;
  rescheduled : nat;
  pending : nat;
  completionRate : R
}.
Arguments mkProgressStats {R}.
Arguments totalItems {R}.
Arguments completed {R}.
Arguments missed {R}.
Arguments rescheduled {R}.
Arguments pending {R}.
Arguments completionRate {R}.

(** [computeProgressStats(progressItems)].  The completion rate is computed
    in floating point: [round_ratio c t] stands for
    [Math.round((c / t) * 100) / 100] and [zero] for the number [0]. *)
Definition computeProgressStats {R} (zero : R) (round_ratio : nat -> nat -> R)
    (progressItems : list ProgressItem) : ProgressStats R :=
  let total := length progressItems in
  let completed := count_status "completed" progressItems in
  let missed := count_status "missed" progressItems in
  let rescheduled := count_status "rescheduled" progressItems in
  let pending := count_status "pending" progressItems in
  mkProgressStats total completed missed rescheduled pending
                  (if (0 <? total)%nat then round_ratio completed total else zero).

(** ** Mastery scores *)

(** An element of the [history] of a mastery document. *)
Record HistoryItem := mkHistoryItem {
  isCorrect : bool;
  generationId : string
}.

(** A document of the [mastery] subcollection of a user.  [unstable] and
    [consecutive_failures] are missing ([None]) until the first answer. *)
Record Mastery := mkMastery {
  score : Z;
  level : Z;
  history : list HistoryItem;
  unstable : option bool;
  consecutive_failures : option Z
}.

(** The mastery data of a concept that has no document yet. *)
Definition default_mastery : Mastery := mkMastery 50 1 [] None None.

(** The mastery update of [POST /api/quiz/submit] (step 2 of the handler).
    The new score is computed in floating point: [weighted s c] stands for
    [Math.round(s * (1 - 0.3) + (c ? 100 : 0) * 0.3)]. *)
Definition update_mastery (weighted : Z -> bool -> Z) (correct : bool) (gen : string)
    (masteryData : Mastery) : Mastery :=
  let score1 := weighted (score masteryData) correct in
  let failures1 :=
    if negb correct then num_or (consecutive_failures masteryData) 0 + 1 else 0 in
  let level1 :=
    if (85 <? score1) && (level masteryData <? 3) then level masteryData + 1
    else level masteryData in
  let level2 :=
    if (score1 <? 40) && (1 <? level1) then level1 - 1 else level1 in
  let history1 := (history masteryData ++ [mkHistoryItem correct gen])%list in
  let history2 := if (20 <? length history1)%nat then tail history1 else history1 in
  mkMastery score1 level2 history2 (Some (negb correct)) (Some failures1).

(** [masteryData.consecutive_failures >= 3]: whether the handler answers
    with an escalation. *)
Definition escalates (masteryData : Mastery) : bool :=
  match consecutive_failures masteryData with
  | Some n => 3 <=? n
  | None => false
  end.

(** ** Stored study plans *)

(** A document of the [generations] collection: the user it belongs to,
    the name of the uploaded file and the study plan (its JSON text). *)
Record Generation := mkGeneration {
  owner : string;
  fileName : string;
  studyPlan : option string
}.

(** The awaited calls on the [generations] collection. *)
Inductive GenSite := GenGet | GenQuery | GenUpdate | GenDelete.

(** [!doc.exists || doc.data().userId !== req.user.uid], negated: the
    document when it exists and belongs to the user. *)
Definition own_generation (gens : gmap string Generation) (genId uid : string)
    : option Generation :=
  match gens !! genId with
  | Some g => if String.eqb (owner g) uid then Some g else None
  | None => None
  end.

(** [DELETE /api/generations/:id].  [rejects] says which calls on the
    collection reject. *)
Definition delete_generation (E : Env) (rejects : GenSite -> bool) (req : Request)
    (genId : string) (gens : gmap string Generation)
    : Reply string * gmap string Generation :=
  match authenticate E req with
  | Unauthorized err => (Failure 401 err, gens)
  | Authenticated uid =>
      if negb (db E) then (Failure 500 "Firestore not initialized", gens)
      else if rejects GenGet then (Failure 500 UNAVAILABLE, gens)
      else
        match own_generation gens genId uid with
        | None => (Failure 404 "Generation not found", gens)
        | Some _ =>
            if rejects GenDelete then (Failure 500 UNAVAILABLE, gens)
            else (Json "Generation deleted successfully", delete genId gens)
        end
  end.

(** [PUT /api/generations/:id].  [body] is [req.body.studyPlan];
    [safeParse] stands for [StudyPlanSchema.safeParse], [None] when the
    plan does not fit the schema, otherwise the validated plan. *)
Definition put_generation (E : Env) (rejects : GenSite -> bool)
    (safeParse : string -> option string) (req : Request) (genId : string)
    (body : option string) (gens : gmap string Generation)
    : Reply string * gmap string Generation :=
  match authenticate E req with
  | Unauthorized err => (Failure 401 err, gens)
  | Authenticated uid =>
      if negb (db E) then (Failure 500 "Firestore not initialized", gens)
      else if rejects GenGet then (Failure 500 UNAVAILABLE, gens)
      else
        match own_generation gens genId uid with
        | None => (Failure 404 "Generation not found", gens)
        | Some g =>
            if negb (truthy body) then (Failure 400 "Study plan data required", gens)
            else
              match body ≫= safeParse with
              | None => (Failure 400 "Invalid study plan structure", gens)
              | Some validatedPlan =>
                  if rejects GenUpdate then (Failure 500 UNAVAILABLE, gens)
                  else (Json "Plan updated successfully",
                        <[genId := mkGeneration (owner g) (fileName g) (Some validatedPlan)]>
                          gens)
              end
        end
  end.

(** [DELETE /api/account].  [deleteUser] is whether
    [admin.auth().deleteUser] succeeds.  The batch deletes the generations
    of the user; the user document and the ledger are not touched. *)
Definition delete_account (E : Env) (rejects : GenSite -> bool) (deleteUser : bool)
    (req : Request) (gens : gmap string Generation)
    : Reply string * gmap string Generation :=
  match authenticate E req with
  | Unauthorized err => (Failure 401 err, gens)
  | Authenticated uid =>
      if negb deleteUser then (Failure 500 "auth/internal-error", gens)
      else if db E then
        if rejects GenQuery then (Failure 500 UNAVAILABLE, gens)
        else if rejects GenDelete then (Failure 500 UNAVAILABLE, gens)
        else (Json "Account deleted successfully",
              filter (fun ig => owner (snd ig) <> uid) gens)
      else (Json "Account deleted successfully", gens)
  end.

(** ** Overlapping requests *)

(** A call gives up control at every [await], and the server takes other
    requests before the call resumes.  [alone m k] is a call that runs to
    an [await] as [m] and goes on with the outcome as [k], with nothing in
    between.  [overlap m1 k1 m2 k2] is the schedule of two such calls in
    which both run to their [await] before either goes on; it gives the
    results of both and the store they leave. *)
Definition alone {X A} (m : M X) (k : Res X -> M A) : M A :=
  fun s => let (x, s1) := m s in k x s1.

Definition overlap {X Y A B} (m1 : M X) (k1 : Res X -> M A) (m2 : M Y) (k2 : Res Y -> M B)
    : Store -> (Res A * Res B) * Store :=
  fun s =>
    let (x, s1) := m1 s in
    let (y, s2) := m2 s1 in
    let (a, s3) := k1 x s2 in
    let (b, s4) := k2 y s3 in
    ((a, b), s4).

(** [deductCredits] on a server with a database, up to the answer of its
    idempotency query, and from there on. *)
Definition deductCredits_query (E : Env) (idempotencyKey : option string) : M bool :=
  if truthy idempotencyKey then ledger_where_key E idempotencyKey else ret false.

Definition deductCredits_resume (E : Env) (userId : string) (amount : Z)
    (description : string) (idempotencyKey : option string) (existing : Res bool)
    : M OpResult :=
  match existing with
  | Ok true => ret (mkOpResult true true None None)
  | Ok false => deduct_transaction E userId amount description idempotencyKey
  | Throw message => throw message
  end.

(** [POST /api/chat] of an authenticated user from the answer of the query
    for the recent chat deductions on. *)
Definition chat_resume (E : Env) (ai : list ChatMessage -> AiOutcome) (userId : string)
    (msgs : list ChatMessage) (counted : Res nat) : M ChatReply :=
  try_catch
    (match counted with
     | Throw message => throw message
     | Ok recentMsgCount =>
         if (20 <=? recentMsgCount)%nat then ret (ChatError 429 "Rate limit exceeded")
         else
           let! deductResult := deductCredits E userId 1 CHAT_DESCRIPTION None in
           if negb (success deductResult)
           then ret (ChatError 403 "Insufficient credits")
           else
             let validatedMessages := List.filter valid_message msgs in
             if (length validatedMessages =? 0)%nat
             then ret (ChatError 400 "No valid messages provided.")
             else
               match ai validatedMessages with
               | AiMessage text => ret (ChatOk text (newBalance deductResult))
               | AiHttpError status => ret (ChatError status "AI Provider Error")
               | AiNoChoices | AiUnreachable =>
                   ret (ChatError 500 "Failed to process chat request")
               end
     end)
    (fun _ => ret (ChatError 500 "Failed to process chat request")).

(** ** Notions used by the statements *)

(** An environment in which the database handle exists and no database call
    of the request rejects. *)
Definition healthy (E : Env) : Prop :=
  db E = true /\ forall site, fails E site = false.


(** The spendable credits of a user as the Balance Manager reads them:
    [credits_balance || 0], and [0] for a user without a document. *)
Definition balance_of (s : Store) (u : string) : Z :=
  match users s !! u with
  | Some a => num_or (credits_balance a) 0
  | None => 0
  end.


(** No stored balance is negative. *)
Definition balances_nonneg (s : Store) : Prop :=
  forall u a b, users s !! u = Some a -> credits_balance a = Some b -> 0 <= b.

(** The ledger entries that refer to a webhook event. *)
Definition entries_of_event (ev : string) (l : list LedgerEntry) : list LedgerEntry :=
  filter (fun e => paypalEventId e = Some ev) l.

(** The amount the webhook handler grants for an event type. *)
Definition event_amount (t : string) : Z :=
  if one_of t "BILLING.SUBSCRIPTION.ACTIVATED" "PAYMENT.SALE.COMPLETED" then PLAN_CREDITS pro
  else if one_of t "PAYMENT.SALE.REFUNDED" "PAYMENT.SALE.REVERSED" then - PLAN_CREDITS pro
  else 0.

(** The type of the ledger entry the handler writes for an event type, and
    the idempotency key it writes it under. *)
Definition event_entry_type (t : string) : EntryType :=
  if one_of t "BILLING.SUBSCRIPTION.ACTIVATED" "PAYMENT.SALE.COMPLETED" then purchase
  else refund.

Definition event_key (ev : Event) : string :=
  if one_of (event_type ev) "BILLING.SUBSCRIPTION.ACTIVATED" "PAYMENT.SALE.COMPLETED"
  then "paypal_" +:+ id ev
  else "paypal_refund_" +:+ id ev.

(** The user whose credits an event changes when the database answers: for
    an activation or payment the user the event names, else the first
    holder of its subscription; for a refund or reversal the first holder
    of its subscription; nobody for any other event, and nobody when the
    event carries no subscription id. *)
Definition event_user (s : Store) (ev : Event) : option string :=
  match resource_id ev with
  | Some sub =>
      if truthy (Some sub) then
        if one_of (event_type ev) "BILLING.SUBSCRIPTION.ACTIVATED" "PAYMENT.SALE.COMPLETED"
        then
          let userId :=
            if truthy (custom_id ev) then custom_id ev
            else match first_holder (users s) sub with
                 | Some u => Some u
                 | None => custom_id ev
                 end in
          if truthy userId then userId else None
        else if one_of (event_type ev) "PAYMENT.SALE.REFUNDED" "PAYMENT.SALE.REVERSED"
        then first_holder (users s) sub
        else None
      else None
  | None => None
  end.

(** The condition under which [getCreditsBalance] overwrites the balance of
    an account whose plan was set to ['pro'] by hand. *)
Definition manual_pro_pending (a : Account) : bool :=
  bool_decide (plan a = Some pro)
  && negb (truthy (paypalSubscriptionId a))
  && negb (manualProCreditsGranted a).

(** A computation that never writes to the store. *)
Definition read_only {A} (m : M A) : Prop := forall s, snd (m s) = s.

(** ** Stores reached by a committed transaction *)

(** The store after a committed deduction from the account [acct] of
    [userId]. *)
Definition deducted (userId : string) (amount : Z) (description : string)
    (idempotencyKey : option string) (acct : Account) (s : Store) : Store :=
  let newBalance := num_or (credits_balance acct) 0 - amount in
  mkStore (<[userId := set_credits_balance newBalance acct]> (users s))
          (credits_ledger s ++
           [mkLedgerEntry userId (- amount) deduction description idempotencyKey None
                          (Some newBalance)])
          (processed_webhooks s).

(** The document that the transaction of [addCredits] writes for a user. *)
Definition granted_account (type : EntryType) (newBalance : Z) (userDoc : option Account)
    : Account :=
  match userDoc with
  | Some a =>
      mkAccount (Some (if bool_decide (type = purchase) then pro else plan_or (plan a) free))
                (Some newBalance) (paypalSubscriptionId a) (manualProCreditsGranted a)
  | None =>
      mkAccount (Some (if bool_decide (type = purchase) then pro else free))
                (Some newBalance) None false
  end.

(** The store after a committed grant. *)
Definition granted (userId : string) (amount : Z) (type : EntryType) (description : string)
    (idempotencyKey paypalEventId : option string) (s : Store) : Store :=
  let newBalance := Z.max 0 (balance_of s userId + amount) in
  mkStore (<[userId := granted_account type newBalance (users s !! userId)]> (users s))
          (credits_ledger s ++
           [mkLedgerEntry userId amount type description idempotencyKey paypalEventId
                          (Some newBalance)])
          (processed_webhooks s).

(** ** Concrete environments and stores *)

(** A healthy environment whose token verifier accepts every token and
    reads the user id off it. *)
Definition env_ok : Env := mkEnv true (fun _ => false) (fun token => Some token) true.

(** The same environment with one database call rejecting. *)
Definition env_failing (site : Site) : Env :=
  mkEnv true (fun x => bool_decide (x = site)) (fun token => Some token) true.

(** An environment without a database handle, and one whose token verifier
    throws on every token. *)
Definition env_no_db : Env := mkEnv false (fun _ => false) (fun token => Some token) true.

Definition env_bad_token : Env := mkEnv true (fun _ => false) (fun _ => None) true.

Definition empty_store : Store := mkStore ∅ [] ∅.

(** The store after the first balance query of user ["alice"]. *)
Definition alice_store : Store :=
  mkStore {[ "alice" := mkAccount (Some free) (Some 3) None false ]}
          [mkLedgerEntry "alice" 3 grant "Initial free plan credits" (Some "init_alice")
                         None None]
          ∅.

(** [alice_store] after one keyed deduction. *)
Definition alice_spent : Store :=
  deducted "alice" 1 "Study plan generation: notes.pdf" (Some "gen_1")
           (mkAccount (Some free) (Some 3) None false) alice_store.

(** A store in which the plan of user ["bob"] was set to ['pro'] by hand in
    the console, after his first balance query. *)
Definition bob_store : Store :=
  mkStore {[ "bob" := mkAccount (Some pro) (Some 3) None false ]}
          [mkLedgerEntry "bob" 3 grant "Initial free plan credits" (Some "init_bob")
                         None None]
          ∅.

(** A subscription activation for ["alice"], and the refund of a payment of
    the subscription ["I-SUB1"]. *)
Definition activation_event : Event :=
  mkEvent "WH-1" "BILLING.SUBSCRIPTION.ACTIVATED" (Some "I-SUB1") (Some "alice").

Definition refund_event : Event :=
  mkEvent "WH-2" "PAYMENT.SALE.REFUNDED" (Some "I-SUB1") None.

(** ** Further notions *)

(** No two ledger entries carry the same non-empty idempotency key. *)
Definition keys_unique (s : Store) : Prop :=
  forall k, k <> "" ->
    (length (filter (fun e => idempotencyKey e = Some k) (credits_ledger s)) <= 1)%nat.

(** Every webhook record of [s] is in [s'], unchanged. *)
Definition records_kept (s s' : Store) : Prop :=
  forall ev r, processed_webhooks s !! ev = Some r -> processed_webhooks s' !! ev = Some r.

(** The record the handler writes for an event. *)
Definition record_of (ev : Event) : WebhookRecord :=
  mkWebhookRecord (id ev) (event_type ev).

(** The latest ledger entry of a user. *)
Definition last_entry (u : string) (l : list LedgerEntry) : option LedgerEntry :=
  last (filter (fun e => userId e = u) l).

(** The [balanceAfter] snapshot of every user's latest ledger entry, when
    the entry has one, is the user's balance. *)
Definition snapshots_current (s : Store) : Prop :=
  forall u e b,
    last_entry u (credits_ledger s) = Some e -> balanceAfter e = Some b ->
    balance_of s u = b.

(** The event types the [switch] of the webhook handler has a case for. *)
Definition handled_type (t : string) : bool :=
  one_of t "BILLING.SUBSCRIPTION.ACTIVATED" "PAYMENT.SALE.COMPLETED"
  || one_of t "PAYMENT.SALE.REFUNDED" "PAYMENT.SALE.REVERSED"
  || (String.eqb t "BILLING.SUBSCRIPTION.CANCELLED"
      || String.eqb t "BILLING.SUBSCRIPTION.SUSPENDED"
      || String.eqb t "BILLING.SUBSCRIPTION.EXPIRED").

(** [alice_store] after the activation of the subscription ["I-SUB1"]. *)
Definition alice_subscribed : Store :=
  snd (paypal_webhook env_ok activation_event alice_store).

Definition cancellation_event : Event :=
  mkEvent "WH-3" "BILLING.SUBSCRIPTION.CANCELLED" (Some "I-SUB1") None.

Definition dispute_event : Event :=
  mkEvent "WH-4" "CUSTOMER.DISPUTE.CREATED" (Some "I-SUB1") None.

(** Whether every character of a string satisfies [f]. *)
Fixpoint all_chars (f : ascii -> bool) (s : string) : bool :=
  match s with
  | EmptyString => true
  | String c s' => f c && all_chars f s'
  end.

(** The decimal numeral of a number, as [String(n)] writes it. *)
Definition decimal (n : N) : string := NilZero.string_of_uint (N.to_uint n).

(** The value of a decimal numeral read after the digits of value [acc]. *)
Fixpoint uint_value (d : Decimal.uint) (acc : N) : N :=
  match d with
  | Decimal.Nil => acc
  | Decimal.D0 d => uint_value d (10 * acc)
  | Decimal.D1 d => uint_value d (10 * acc + 1)
  | Decimal.D2 d => uint_value d (10 * acc + 2)
  | Decimal.D3 d => uint_value d (10 * acc + 3)
  | Decimal.D4 d => uint_value d (10 * acc + 4)
  | Decimal.D5 d => uint_value d (10 * acc + 5)
  | Decimal.D6 d => uint_value d (10 * acc + 6)
  | Decimal.D7 d => uint_value d (10 * acc + 7)
  | Decimal.D8 d => uint_value d (10 * acc + 8)
  | Decimal.D9 d => uint_value d (10 * acc + 9)
  end%N.

(** A collection with one plan of ["alice"] and one of ["bob"], and a
    collection call that never rejects. *)
Definition two_generations : gmap string Generation :=
  {[ "g1" := mkGeneration "alice" "notes.pdf" (Some "{days:[1]}");
     "g2" := mkGeneration "bob" "bio.pdf" None ]}.

Definition never_rejects : GenSite -> bool := fun _ => false.

(** ** Basic facts *)

Arguments num_or : simpl never.

Lemma num_or_0 (x : option Z) : num_or x 0 = default 0 x.
Proof.
  unfold num_or. destruct x as [v|]; simpl; [|reflexivity].
  destruct (Z.eqb_spec v 0); congruence.
Qed.

Lemma num_or_Some_0 (b : Z) : num_or (Some b) 0 = b.
Proof. rewrite num_or_0. reflexivity. Qed.



Lemma key_used_snoc key l e :
  key_used key (l ++ [e]) = key_used key l || bool_decide (idempotencyKey e = key).
Proof. unfold key_used. rewrite existsb_app. simpl. rewrite orb_false_r. reflexivity. Qed.

Lemma truthy_Some k : k <> "" -> truthy (Some k) = true.
Proof.
  intros Hk. simpl. destruct (String.eqb_spec k ""); [contradiction|reflexivity].
Qed.

(** Unfolds the monad and the database client in the goal. *)
Ltac run :=
  unfold users_get, users_set, users_update, users_where_subscription, ledger_add,
    ledger_where_key, webhooks_get, webhooks_set, runTransaction,
    await, try_catch, bind, ret, throw; simpl.

(** ** Balance Manager: lazy initialisation *)

(** C6. On a healthy database, the first [getCreditsBalance] of a user
    without a document stores the account [{plan: 'free', credits_balance: 3}],
    appends exactly one ledger entry, of type [grant], amount 3 and key
    ["init_" + userId], and returns that account. *)
Theorem getCreditsBalance_first_call (E : Env) (userId : string) (s : Store) :
  db E = true ->
  fails E UsersGet = false -> fails E UsersSet = false -> fails E LedgerAdd = false ->
  users s !! userId = None ->
  let account := mkAccount (Some free) (Some 3) None false in
  let entry := mkLedgerEntry userId 3 grant "Initial free plan credits"
                             (Some ("init_" +:+ userId)) None None in
  getCreditsBalance E userId s =
    (Ok (Some account),
     mkStore (<[userId := account]> (users s)) (credits_ledger s ++ [entry])
             (processed_webhooks s))
  /\ plan account = Some free /\ credits_balance account = Some (PLAN_CREDITS free)
  /\ type entry = grant /\ idempotencyKey entry = Some ("init_" +:+ userId).
Proof.
  intros Hdb Hget Hset Hadd Hnone account entry.
  split; [|repeat split].
  unfold getCreditsBalance. rewrite Hdb. run.
  rewrite Hget, Hnone, Hset, Hadd. reflexivity.
Qed.

Lemma getCreditsBalance_first_call_witness :
  getCreditsBalance env_ok "alice" empty_store =
    (Ok (Some (mkAccount (Some free) (Some 3) None false)), alice_store).
Proof.
  exact (proj1 (getCreditsBalance_first_call env_ok "alice" empty_store
                  eq_refl eq_refl eq_refl eq_refl eq_refl)).
Defined.

(** ** Balance Manager: deduction *)

(** Whatever the environment does, the transaction of [deductCredits] either
    leaves the store as it was and reports no new balance, or commits the
    balance write together with the ledger entry. *)
Lemma deduct_transaction_cases (E : Env) (userId : string) (amount : Z) (description : string)
    (idempotencyKey : option string) (s : Store) :
  (exists r, deduct_transaction E userId amount description idempotencyKey s = (Ok r, s)
             /\ success r = false /\ newBalance r = None)
  \/ (exists acct,
        users s !! userId = Some acct
        /\ amount <= num_or (credits_balance acct) 0
        /\ deduct_transaction E userId amount description idempotencyKey s =
             (Ok (mkOpResult true false (Some (num_or (credits_balance acct) 0 - amount)) None),
              deducted userId amount description idempotencyKey acct s)).
Proof.
  unfold deduct_transaction, deduct_body. run.
  destruct (fails E TxnGet); simpl; [left; eauto|].
  destruct (users s !! userId) as [acct|] eqn:Hu; simpl; [|left; eauto].
  destruct (Z.ltb_spec (num_or (credits_balance acct) 0) amount); simpl; [left; eauto|].
  destruct (fails E TxnCommit); simpl; [left; eauto|].
  rewrite Hu. simpl. right. exists acct.
  split; [reflexivity|]. split; [lia|reflexivity].
Qed.

(** The same for the whole of [deductCredits], where the idempotency query
    can also throw or report a duplicate. *)
Lemma deductCredits_cases (E : Env) (userId : string) (amount : Z) (description : string)
    (idempotencyKey : option string) (s : Store) :
  (snd (deductCredits E userId amount description idempotencyKey s) = s
   /\ forall r, fst (deductCredits E userId amount description idempotencyKey s) = Ok r ->
                newBalance r = None)
  \/ (exists acct,
        users s !! userId = Some acct
        /\ amount <= num_or (credits_balance acct) 0
        /\ deductCredits E userId amount description idempotencyKey s =
             (Ok (mkOpResult true false (Some (num_or (credits_balance acct) 0 - amount)) None),
              deducted userId amount description idempotencyKey acct s)).
Proof.
  pose proof (deduct_transaction_cases E userId amount description idempotencyKey s) as Htxn.
  assert (Htxn' :
    (snd (deduct_transaction E userId amount description idempotencyKey s) = s
     /\ forall r, fst (deduct_transaction E userId amount description idempotencyKey s) = Ok r ->
                  newBalance r = None)
    \/ (exists acct,
          users s !! userId = Some acct
          /\ amount <= num_or (credits_balance acct) 0
          /\ deduct_transaction E userId amount description idempotencyKey s =
               (Ok (mkOpResult true false (Some (num_or (credits_balance acct) 0 - amount)) None),
                deducted userId amount description idempotencyKey acct s))).
  { destruct Htxn as [(r & Hr & _ & Hnb)|Hc]; [left|right; exact Hc].
    rewrite Hr. simpl. split; [reflexivity|]. intros r' [= <-]. exact Hnb. }
  clear Htxn. unfold deductCredits.
  destruct (db E); simpl; [|left; split; [reflexivity|intros r [= <-]; reflexivity]].
  unfold ledger_where_key, await, bind, ret, throw.
  destruct (truthy idempotencyKey); simpl; [|exact Htxn'].
  destruct (fails E LedgerQuery); simpl; [left; split; [reflexivity|intros r [=]]|].
  destruct (key_used idempotencyKey (credits_ledger s)); simpl;
    [left; split; [reflexivity|intros r [= <-]; reflexivity]|].
  exact Htxn'.
Qed.

(** The transaction of a deduction that the balance covers commits when
    its read and its commit are answered. *)
Lemma deduct_transaction_commits (E : Env) (u : string) (a : Z) (d : string)
    (k : option string) (s : Store) (acct : Account) :
  fails E TxnGet = false -> fails E TxnCommit = false ->
  users s !! u = Some acct ->
  a <= num_or (credits_balance acct) 0 ->
  deduct_transaction E u a d k s =
    (Ok (mkOpResult true false (Some (num_or (credits_balance acct) 0 - a)) None),
     deducted u a d k acct s).
Proof.
  intros Hget Hcommit Hu Hle. unfold deduct_transaction, deduct_body. run.
  rewrite Hget, Hu. simpl.
  destruct (Z.ltb_spec (num_or (credits_balance acct) 0) a); [lia|]. simpl.
  rewrite Hcommit, Hu. reflexivity.
Qed.

(** The idempotency check of [deductCredits] lets a call through when the
    key is falsy or no ledger entry carries it. *)
Lemma deductCredits_fresh (E : Env) (u : string) (a : Z) (d : string) (k : option string)
    (s : Store) :
  db E = true ->
  (truthy k = true -> fails E LedgerQuery = false /\ key_used k (credits_ledger s) = false) ->
  deductCredits E u a d k s = deduct_transaction E u a d k s.
Proof.
  intros Hdb Hk. unfold deductCredits. rewrite Hdb. simpl.
  unfold ledger_where_key, await, bind, ret.
  destruct (truthy k); [|reflexivity].
  destruct Hk as [-> ->]; reflexivity.
Qed.

(** The results of [deductCredits] that come without a write: a failure
    or a replay. *)
Lemma deductCredits_unchanged_or_committed (E : Env) (u : string) (a : Z) (d : string)
    (k : option string) (s : Store) :
  (snd (deductCredits E u a d k s) = s
   /\ forall r, fst (deductCredits E u a d k s) = Ok r ->
                newBalance r = None /\ (success r = false \/ duplicate r = true))
  \/ (exists acct,
        users s !! u = Some acct
        /\ a <= num_or (credits_balance acct) 0
        /\ deductCredits E u a d k s =
             (Ok (mkOpResult true false (Some (num_or (credits_balance acct) 0 - a)) None),
              deducted u a d k acct s)).
Proof.
  assert (Htxn :
    (snd (deduct_transaction E u a d k s) = s
     /\ forall r, fst (deduct_transaction E u a d k s) = Ok r ->
                  newBalance r = None /\ (success r = false \/ duplicate r = true))
    \/ (exists acct,
          users s !! u = Some acct
          /\ a <= num_or (credits_balance acct) 0
          /\ deduct_transaction E u a d k s =
               (Ok (mkOpResult true false (Some (num_or (credits_balance acct) 0 - a)) None),
                deducted u a d k acct s))).
  { destruct (deduct_transaction_cases E u a d k s) as [(r & Hr & Hfail & Hnb)|Hc];
      [left|right; exact Hc].
    rewrite Hr. simpl. split; [reflexivity|]. intros r' [= <-].
    split; [exact Hnb|left; exact Hfail]. }
  unfold deductCredits.
  destruct (db E); simpl;
    [|left; split; [reflexivity|intros r [= <-]; split; [reflexivity|left; reflexivity]]].
  unfold ledger_where_key, await, bind, ret, throw.
  destruct (truthy k); simpl; [|exact Htxn].
  destruct (fails E LedgerQuery); simpl; [left; split; [reflexivity|intros r [=]]|].
  destruct (key_used k (credits_ledger s)); simpl;
    [left; split; [reflexivity|intros r [= <-]; split; [reflexivity|right; reflexivity]]|].
  exact Htxn.
Qed.

(** C4. A deduction of more than the balance fails with the error
    ['Insufficient credits'] and leaves the store untouched (for a call that
    is not a replay, on a database whose transaction read answers).  And
    whatever the arguments and whichever database calls fail, the call
    either leaves the store as it was, and then its result is a failure or a
    replay, or it has written both: the user document now carries the
    balance [b - a], its other fields unchanged, and the ledger ends with the
    [deduction] entry of amount [- a] with [balanceAfter = b - a]; nothing
    else has changed.  The balance is never written without the entry, nor
    the entry without the balance. *)
Theorem deductCredits_insufficient_or_atomic (E : Env) (u : string) (a : Z) (d : string)
    (k : option string) (s : Store) :
  (forall acct b,
     db E = true -> fails E TxnGet = false ->
     (truthy k = true -> fails E LedgerQuery = false /\ key_used k (credits_ledger s) = false) ->
     users s !! u = Some acct -> credits_balance acct = Some b ->
     0 < a -> b < a ->
     deductCredits E u a d k s =
       (Ok (mkOpResult false false None (Some "Insufficient credits")), s))
  /\ ((snd (deductCredits E u a d k s) = s
       /\ forall r, fst (deductCredits E u a d k s) = Ok r ->
                    newBalance r = None /\ (success r = false \/ duplicate r = true))
      \/ exists acct b,
           users s !! u = Some acct /\ num_or (credits_balance acct) 0 = b /\ a <= b
           /\ fst (deductCredits E u a d k s) = Ok (mkOpResult true false (Some (b - a)) None)
           /\ users (snd (deductCredits E u a d k s)) =
                <[u := mkAccount (plan acct) (Some (b - a)) (paypalSubscriptionId acct)
                                 (manualProCreditsGranted acct)]> (users s)
           /\ balance_of (snd (deductCredits E u a d k s)) u = b - a
           /\ credits_ledger (snd (deductCredits E u a d k s)) =
                (credits_ledger s ++
                 [mkLedgerEntry u (- a) deduction d k None (Some (b - a))])%list
           /\ processed_webhooks (snd (deductCredits E u a d k s)) = processed_webhooks s).
Proof.
  split.
  - intros acct b Hdb Hget Hk Hu Hb _ Hlt.
    rewrite deductCredits_fresh by assumption.
    unfold deduct_transaction, deduct_body. run.
    rewrite Hget, Hu, Hb. simpl. rewrite num_or_Some_0.
    destruct (Z.ltb_spec b a); [reflexivity|lia].
  - destruct (deductCredits_unchanged_or_committed E u a d k s)
      as [Hsame|(acct & Hu & Hle & Heq)].
    + left. exact Hsame.
    + right. exists acct, (num_or (credits_balance acct) 0).
      rewrite Heq. unfold deducted, set_credits_balance, balance_of. simpl.
      rewrite lookup_insert_eq. simpl. rewrite num_or_Some_0.
      repeat split; assumption.
Qed.

(** On the store of ["alice"], who holds 3 credits: a deduction of 5 is
    refused and changes nothing; a deduction of 1 writes the balance 2 and
    the entry together. *)
Lemma deductCredits_insufficient_or_atomic_witness :
  deductCredits env_ok "alice" 5 "Study plan generation: notes.pdf" (Some "gen_2") alice_store
    = (Ok (mkOpResult false false None (Some "Insufficient credits")), alice_store)
  /\ let after :=
       deductCredits env_ok "alice" 1 "Study plan generation: notes.pdf" (Some "gen_2")
                     alice_store in
     fst after = Ok (mkOpResult true false (Some 2) None)
     /\ users (snd after) !! "alice" = Some (mkAccount (Some free) (Some 2) None false)
     /\ balance_of (snd after) "alice" = 2
     /\ credits_ledger (snd after) =
          (credits_ledger alice_store ++
           [mkLedgerEntry "alice" (-1) deduction "Study plan generation: notes.pdf"
                          (Some "gen_2") None (Some 2)])%list.
Proof.
  split.
  - apply (proj1 (deductCredits_insufficient_or_atomic env_ok "alice" 5
                    "Study plan generation: notes.pdf" (Some "gen_2") alice_store)
                 (mkAccount (Some free) (Some 3) None false) 3);
      [reflexivity|reflexivity|intros _; split; reflexivity|reflexivity|reflexivity|lia|lia].
  - intros after.
    destruct (proj2 (deductCredits_insufficient_or_atomic env_ok "alice" 1
                       "Study plan generation: notes.pdf" (Some "gen_2") alice_store))
      as [[_ Hnone]|(acct & b & Hu & Hb & _ & Hres & Husers & Hbal & Hledger & _)].
    + destruct (Hnone _ eq_refl) as [Hnb _]. discriminate Hnb.
    + vm_compute in Hu. injection Hu as <-. vm_compute in Hb. subst b.
      split; [exact Hres|]. split; [|split; [exact Hbal|exact Hledger]].
      unfold after. rewrite Husers. reflexivity.
Defined.

(** C9. A negative amount passes the balance check of [deductCredits]: on an
    account with a balance [b >= 0] (as every balance the core writes is, see
    [balances_nonneg_preserved] below) the call succeeds, writes the balance
    [b - a > b] and appends an entry of type [deduction] whose amount [- a]
    is positive. *)
Theorem deductCredits_negative_amount (E : Env) (u : string) (a : Z) (d : string)
    (s : Store) (acct : Account) (b : Z) :
  db E = true -> fails E TxnGet = false -> fails E TxnCommit = false ->
  users s !! u = Some acct -> credits_balance acct = Some b ->
  0 <= b -> a < 0 ->
  exists s' e,
    deductCredits E u a d None s = (Ok (mkOpResult true false (Some (b - a)) None), s')
    /\ users s' !! u = Some (set_credits_balance (b - a) acct)
    /\ balance_of s' u = b - a
    /\ b < b - a
    /\ credits_ledger s' = (credits_ledger s ++ [e])%list
    /\ userId e = u /\ type e = deduction /\ amount e = - a /\ 0 < amount e.
Proof.
  intros Hdb Hget Hcommit Hu Hb Hb0 Ha.
  exists (deducted u a d None acct s),
         (mkLedgerEntry u (- a) deduction d None None (Some (b - a))).
  rewrite deductCredits_fresh by (assumption || discriminate).
  unfold deduct_transaction, deduct_body. run.
  rewrite Hget, Hu, Hb. simpl. rewrite num_or_Some_0.
  destruct (Z.ltb_spec b a); [lia|]. simpl.
  rewrite Hcommit, Hu. simpl.
  unfold deducted, balance_of. rewrite Hb, num_or_Some_0. simpl.
  rewrite lookup_insert_eq. simpl. rewrite num_or_Some_0.
  repeat split; lia.
Qed.

Lemma deductCredits_negative_amount_witness :
  exists s' e,
    deductCredits env_ok "alice" (-5) "AI Chat Interaction" None alice_store =
      (Ok (mkOpResult true false (Some (3 - -5)) None), s')
    /\ users s' !! "alice" = Some (set_credits_balance (3 - -5)
                                     (mkAccount (Some free) (Some 3) None false))
    /\ balance_of s' "alice" = 3 - -5
    /\ 3 < 3 - -5
    /\ credits_ledger s' = (credits_ledger alice_store ++ [e])%list
    /\ userId e = "alice" /\ type e = deduction /\ amount e = - -5 /\ 0 < amount e.
Proof.
  apply (deductCredits_negative_amount env_ok "alice" (-5) "AI Chat Interaction" alice_store
           (mkAccount (Some free) (Some 3) None false) 3);
    [reflexivity|reflexivity|reflexivity|reflexivity|reflexivity|lia|lia].
Defined.

(** ** Balance Manager: replayed deductions *)

(** C2, as the code has it.  A replayed deduction (a non-empty key that some
    ledger entry already carries) changes nothing and resolves to
    [{success: true, duplicate: true}], which carries no balance.  Two
    successive calls with one fresh non-empty key on a balance [N >= a]
    decrement the balance once: the first resolves to [newBalance = N - a],
    the second to the duplicate result without a [newBalance]. *)
Theorem deductCredits_replay (E : Env) (u : string) (a : Z) (d k : string) (s : Store) :
  db E = true -> fails E LedgerQuery = false -> k <> "" ->
  (key_used (Some k) (credits_ledger s) = true ->
   deductCredits E u a d (Some k) s = (Ok (mkOpResult true true None None), s))
  /\ (forall acct N,
        fails E TxnGet = false -> fails E TxnCommit = false ->
        key_used (Some k) (credits_ledger s) = false ->
        users s !! u = Some acct -> credits_balance acct = Some N -> a <= N ->
        exists s1,
          deductCredits E u a d (Some k) s =
            (Ok (mkOpResult true false (Some (N - a)) None), s1)
          /\ deductCredits E u a d (Some k) s1 = (Ok (mkOpResult true true None None), s1)
          /\ balance_of s1 u = N - a).
Proof.
  intros Hdb Hq Hk. split.
  - intros Hused. unfold deductCredits. rewrite Hdb, (truthy_Some k Hk). run.
    rewrite Hq, Hused. reflexivity.
  - intros acct N Hget Hcommit Hfresh Hu HN Hle.
    exists (deducted u a d (Some k) acct s).
    assert (Hrun : deductCredits E u a d (Some k) s =
              (Ok (mkOpResult true false (Some (N - a)) None),
               deducted u a d (Some k) acct s)).
    { rewrite deductCredits_fresh by (intros _; split; assumption) || assumption.
      unfold deduct_transaction, deduct_body. run.
      rewrite Hget, Hu, HN, num_or_Some_0.
      destruct (Z.ltb_spec N a); [lia|]. simpl.
      rewrite Hcommit, Hu. unfold deducted. rewrite HN, num_or_Some_0. reflexivity. }
    split; [exact Hrun|]. split.
    + unfold deductCredits. rewrite Hdb, (truthy_Some k Hk). run.
      rewrite Hq. unfold deducted. simpl. rewrite key_used_snoc. simpl.
      rewrite bool_decide_eq_true_2 by reflexivity. rewrite orb_true_r. reflexivity.
    + unfold balance_of, deducted. simpl. rewrite lookup_insert_eq. simpl.
      rewrite HN. rewrite !num_or_Some_0. reflexivity.
Qed.

Lemma deductCredits_replay_witness :
  deductCredits env_ok "alice" 1 "Study plan generation: notes.pdf" (Some "gen_1") alice_spent
    = (Ok (mkOpResult true true None None), alice_spent)
  /\ exists s1,
       deductCredits env_ok "alice" 1 "Study plan generation: notes.pdf" (Some "gen_1")
                     alice_store
         = (Ok (mkOpResult true false (Some (3 - 1)) None), s1)
       /\ deductCredits env_ok "alice" 1 "Study plan generation: notes.pdf" (Some "gen_1") s1
         = (Ok (mkOpResult true true None None), s1)
       /\ balance_of s1 "alice" = 3 - 1.
Proof.
  split.
  - apply (deductCredits_replay env_ok "alice" 1 "Study plan generation: notes.pdf" "gen_1"
             alice_spent); [reflexivity|reflexivity|discriminate|reflexivity].
  - apply (deductCredits_replay env_ok "alice" 1 "Study plan generation: notes.pdf" "gen_1"
             alice_store eq_refl eq_refl ltac:(discriminate))
      with (acct := mkAccount (Some free) (Some 3) None false);
      [reflexivity|reflexivity|reflexivity|reflexivity|reflexivity|lia].
Defined.

(** C2 as the specification words it fails: the replay resolves to the
    duplicate flag with no balance in it, so it does not return the current
    balance (2 here), and the two calls do not return the same
    [newBalance]. *)
Lemma deductCredits_replay_has_no_balance :
  let first := deductCredits env_ok "alice" 1 "Study plan generation: notes.pdf"
                             (Some "gen_1") alice_store in
  let second := deductCredits env_ok "alice" 1 "Study plan generation: notes.pdf"
                              (Some "gen_1") (snd first) in
  balance_of (snd first) "alice" = 2
  /\ (exists r1, fst first = Ok r1 /\ newBalance r1 = Some 2)
  /\ (exists r2, fst second = Ok r2 /\ duplicate r2 = true
                 /\ newBalance r2 <> Some 2
                 /\ newBalance r2 <> Some (balance_of (snd second) "alice")).
Proof.
  vm_compute. split; [reflexivity|]. split.
  - eexists. split; reflexivity.
  - eexists. split; [reflexivity|]. repeat split; discriminate.
Qed.

(** ** Balance Manager: grants *)

(** Whatever the environment does, the transaction of [addCredits] either
    fails and leaves the store as it was, or commits the account write
    together with the ledger entry. *)
Lemma add_transaction_cases (E : Env) (u : string) (a : Z) (ty : EntryType) (d : string)
    (k ev : option string) (s : Store) :
  (exists r, add_transaction E u a ty d k ev s = (Ok r, s)
             /\ success r = false /\ newBalance r = None)
  \/ (fails E TxnGet = false /\ fails E TxnCommit = false
      /\ add_transaction E u a ty d k ev s =
           (Ok (mkOpResult true false (Some (Z.max 0 (balance_of s u + a))) None),
            granted u a ty d k ev s)).
Proof.
  unfold add_transaction, add_body, granted, granted_account, balance_of. run.
  destruct (fails E TxnGet); simpl; [left; eauto|].
  destruct (fails E TxnCommit); simpl; [left; eauto|].
  right. split; [reflexivity|]. split; [reflexivity|].
  destruct (users s !! u) as [acct|] eqn:Hu; simpl; [rewrite Hu|]; reflexivity.
Qed.

Lemma addCredits_cases (E : Env) (u : string) (a : Z) (ty : EntryType) (d : string)
    (k ev : option string) (s : Store) :
  snd (addCredits E u a ty d k ev s) = s
  \/ (key_used k (credits_ledger s) = false
      /\ addCredits E u a ty d k ev s =
           (Ok (mkOpResult true false (Some (Z.max 0 (balance_of s u + a))) None),
            granted u a ty d k ev s)).
Proof.
  unfold addCredits. destruct (db E); simpl; [|left; reflexivity].
  unfold ledger_where_key, await, bind, ret, throw.
  destruct (fails E LedgerQuery); simpl; [left; reflexivity|].
  destruct (key_used k (credits_ledger s)); simpl; [left; reflexivity|].
  destruct (add_transaction_cases E u a ty d k ev s) as [(r & -> & _)|(_ & _ & ->)];
    [left|right; split]; reflexivity.
Qed.

(** C5. A grant that is not a replay, of any integer amount [a] (negative
    ones included), to an account with balance [b] resolves to
    [newBalance = max(0, b + a)] and stores that balance: it is never
    negative, and exactly 0 when [b + a < 0]. *)
Theorem addCredits_clamps_at_zero (E : Env) (u : string) (a : Z) (ty : EntryType)
    (d : string) (k ev : option string) (s : Store) (acct : Account) (b : Z) :
  db E = true ->
  fails E LedgerQuery = false -> fails E TxnGet = false -> fails E TxnCommit = false ->
  key_used k (credits_ledger s) = false ->
  users s !! u = Some acct -> credits_balance acct = Some b ->
  exists s' acct',
    addCredits E u a ty d k ev s =
      (Ok (mkOpResult true false (Some (Z.max 0 (b + a))) None), s')
    /\ users s' !! u = Some acct'
    /\ credits_balance acct' = Some (Z.max 0 (b + a))
    /\ 0 <= Z.max 0 (b + a)
    /\ (b + a < 0 -> credits_balance acct' = Some 0).
Proof.
  intros Hdb Hq Hget Hcommit Hfresh Hu Hb.
  assert (Hbal : balance_of s u = b).
  { unfold balance_of. rewrite Hu, Hb. apply num_or_Some_0. }
  exists (granted u a ty d k ev s),
         (granted_account ty (Z.max 0 (b + a)) (Some acct)).
  split.
  - unfold addCredits. rewrite Hdb. simpl.
    unfold ledger_where_key, await, bind, ret. rewrite Hq, Hfresh.
    destruct (add_transaction_cases E u a ty d k ev s) as [(r & Hr & Hs & _)|(_ & _ & Hr)].
    + exfalso. revert Hr Hs. unfold add_transaction, add_body. run.
      rewrite Hget, Hcommit, Hu. simpl. rewrite Hu. simpl.
      intros [= <-]. discriminate.
    + rewrite Hr, Hbal. reflexivity.
  - unfold granted. simpl. rewrite lookup_insert_eq, Hu, Hbal.
    split; [reflexivity|]. split; [reflexivity|]. split; [lia|].
    intros Hneg. simpl. f_equal. lia.
Qed.

Lemma addCredits_clamps_at_zero_witness :
  exists s' acct',
    addCredits env_ok "alice" (-40) refund "Payment refunded/reversed (PAYMENT.SALE.REFUNDED)"
               (Some "paypal_refund_WH-1") (Some "WH-1") alice_store =
      (Ok (mkOpResult true false (Some (Z.max 0 (3 + -40))) None), s')
    /\ users s' !! "alice" = Some acct'
    /\ credits_balance acct' = Some (Z.max 0 (3 + -40))
    /\ 0 <= Z.max 0 (3 + -40)
    /\ (3 + -40 < 0 -> credits_balance acct' = Some 0).
Proof.
  apply (addCredits_clamps_at_zero env_ok "alice" (-40) refund
           "Payment refunded/reversed (PAYMENT.SALE.REFUNDED)"
           (Some "paypal_refund_WH-1") (Some "WH-1") alice_store
           (mkAccount (Some free) (Some 3) None false) 3);
    reflexivity.
Defined.

(** ** Reasoning about sequenced computations *)

Section Sequencing.
Context {A B : Type}.
Variable P : Store -> Prop.

Lemma bind_preserves (m : M A) (k : A -> M B) (s : Store) :
  P (snd (m s)) ->
  (forall a s', m s = (Ok a, s') -> P (snd (k a s'))) ->
  P (snd (bind m k s)).
Proof.
  intros Hm Hk. unfold bind.
  destruct (m s) as [[a|e] s'] eqn:Hms; simpl in *; [apply Hk; reflexivity|exact Hm].
Qed.

Lemma bind_read_only_preserves (m : M A) (k : A -> M B) (s : Store) :
  read_only m ->
  P s ->
  (forall a, m s = (Ok a, s) -> P (snd (k a s))) ->
  P (snd (bind m k s)).
Proof.
  intros Hro Hs Hk. apply bind_preserves.
  - rewrite Hro. exact Hs.
  - intros a s' Hms. pose proof (Hro s) as Hsnd. rewrite Hms in Hsnd. simpl in Hsnd.
    subst s'. apply Hk. exact Hms.
Qed.

End Sequencing.

Lemma ret_read_only {A} (a : A) : read_only (ret a).
Proof. intros s. reflexivity. Qed.

Lemma await_read_only {A} (E : Env) (site : Site) (m : M A) :
  read_only m -> read_only (await E site m).
Proof.
  intros Hm s. unfold await, throw. destruct (fails E site); [reflexivity|apply Hm].
Qed.

Lemma bind_read_only {A B} (m : M A) (k : A -> M B) :
  read_only m -> (forall a, read_only (k a)) -> read_only (bind m k).
Proof.
  intros Hm Hk s. unfold bind. pose proof (Hm s) as Hs.
  destruct (m s) as [[a|e] s']; simpl in *; subst s'; [apply Hk|reflexivity].
Qed.

Lemma try_catch_read_only_handler {A} (m : M A) (h : string -> M A) (s : Store) :
  (forall e, read_only (h e)) -> snd (try_catch m h s) = snd (m s).
Proof.
  intros Hh. unfold try_catch. destruct (m s) as [[a|e] s']; simpl; [reflexivity|apply Hh].
Qed.

Lemma users_where_subscription_read_only (E : Env) (sub : string) :
  read_only (users_where_subscription E sub).
Proof. apply await_read_only. intros s. reflexivity. Qed.

Lemma isWebhookProcessed_read_only (E : Env) (ev : string) :
  read_only (isWebhookProcessed E ev).
Proof.
  intros s. unfold isWebhookProcessed. destruct (db E); simpl; [|reflexivity].
  run. destruct (fails E WebhooksGet); reflexivity.
Qed.

(** ** The ledger invariant *)








(** The user the activation branch of the webhook handler credits. *)
Lemma resolve_user_read_only (E : Env) (sub : string) (customId : option string) :
  read_only
    (if truthy customId then ret customId
     else
       let! found := users_where_subscription E sub in
       ret (match found with
            | Some u => Some u
            | None => customId
            end)).
Proof.
  destruct (truthy customId); [apply ret_read_only|].
  apply bind_read_only; [apply users_where_subscription_read_only|].
  intros a. apply ret_read_only.
Qed.

(** A property of the store survives the [switch] of the webhook handler
    when it survives the grant of the event's amount to the user of the
    event and the updates of the plan and subscription fields. *)
Lemma apply_event_preserves_user (P : Store -> Prop) (E : Env) (ev : Event) (s : Store) :
  (forall u ty d k e,
     event_user s ev = Some u ->
     P (snd (addCredits E u (event_amount (event_type ev)) ty d k e s))) ->
  (forall u f s',
     (forall a, credits_balance (f a) = credits_balance a) ->
     P s' -> P (snd (users_update E u f s'))) ->
  P s -> P (snd (apply_event E ev s)).
Proof.
  intros Hgrant Hupdate Hs. unfold apply_event. cbv zeta.
  unfold event_amount, event_user in Hgrant.
  destruct (one_of (event_type ev) "BILLING.SUBSCRIPTION.ACTIVATED" "PAYMENT.SALE.COMPLETED").
  { destruct (resource_id ev) as [sub|]; [|exact Hs].
    destruct (truthy (Some sub)); [|exact Hs].
    apply bind_read_only_preserves; [apply resolve_user_read_only|exact Hs|].
    intros [uid|] Hres; [|exact Hs].
    destruct (truthy (Some uid)) eqn:Huid; [|exact Hs].
    assert (Huser :
      (let userId :=
         if truthy (custom_id ev) then custom_id ev
         else match first_holder (users s) sub with
              | Some u => Some u
              | None => custom_id ev
              end in
       if truthy userId then userId else None) = Some uid).
    { cbv zeta. destruct (truthy (custom_id ev)).
      - injection Hres as Hres. rewrite Hres, Huid. reflexivity.
      - revert Hres. unfold users_where_subscription, await, bind, ret, throw.
        destruct (fails E UsersQuery); [discriminate|].
        destruct (first_holder (users s) sub) as [h|]; intros [= Hres]; rewrite Hres, Huid;
          reflexivity. }
    apply bind_preserves; [apply Hgrant; exact Huser|].
    intros r s' Hrun. apply Hupdate; [reflexivity|].
    replace s' with (snd (addCredits E uid (PLAN_CREDITS pro) purchase
                            ("Pro subscription payment (" +:+ event_type ev +:+ ")")
                            (Some ("paypal_" +:+ id ev)) (Some (id ev)) s))
      by (rewrite Hrun; reflexivity).
    apply Hgrant. exact Huser. }
  destruct (one_of (event_type ev) "PAYMENT.SALE.REFUNDED" "PAYMENT.SALE.REVERSED").
  { destruct (resource_id ev) as [sub|]; [|exact Hs].
    destruct (truthy (Some sub)); [|exact Hs].
    apply bind_read_only_preserves; [apply users_where_subscription_read_only|exact Hs|].
    intros [uid|] Hres; [|exact Hs].
    assert (Huser : first_holder (users s) sub = Some uid).
    { revert Hres. unfold users_where_subscription, await, throw.
      destruct (fails E UsersQuery); [discriminate|]. intros [= Hres]. exact Hres. }
    apply bind_preserves; [apply Hgrant; exact Huser|].
    intros r s' Hrun.
    replace s' with (snd (addCredits E uid (- PLAN_CREDITS pro) refund
                            ("Payment refunded/reversed (" +:+ event_type ev +:+ ")")
                            (Some ("paypal_refund_" +:+ id ev)) (Some (id ev)) s))
      by (rewrite Hrun; reflexivity).
    apply Hgrant. exact Huser. }
  destruct (String.eqb (event_type ev) "BILLING.SUBSCRIPTION.CANCELLED"
            || String.eqb (event_type ev) "BILLING.SUBSCRIPTION.SUSPENDED"
            || String.eqb (event_type ev) "BILLING.SUBSCRIPTION.EXPIRED"); [|exact Hs].
  destruct (resource_id ev) as [sub|]; [|exact Hs].
  destruct (truthy (Some sub)); [|exact Hs].
  apply bind_read_only_preserves; [apply users_where_subscription_read_only|exact Hs|].
  intros [uid|] _; [|exact Hs].
  apply Hupdate; [reflexivity|exact Hs].
Qed.

Lemma apply_event_preserves (P : Store -> Prop) (E : Env) (ev : Event) (s : Store) :
  (forall u ty d k e,
     P (snd (addCredits E u (event_amount (event_type ev)) ty d k e s))) ->
  (forall u f s',
     (forall a, credits_balance (f a) = credits_balance a) ->
     P s' -> P (snd (users_update E u f s'))) ->
  P s -> P (snd (apply_event E ev s)).
Proof.
  intros Hgrant Hupdate Hs. apply apply_event_preserves_user; [|exact Hupdate|exact Hs].
  intros u ty d k e _. apply Hgrant.
Qed.


(** The [switch] never touches the [processed_webhooks] collection. *)
Lemma apply_event_keeps_webhooks (E : Env) (ev : Event) (s : Store) :
  processed_webhooks (snd (apply_event E ev s)) = processed_webhooks s.
Proof.
  apply (apply_event_preserves (fun s' => processed_webhooks s' = processed_webhooks s));
    [| |reflexivity].
  - intros u ty d k e.
    destruct (addCredits_cases E u (event_amount (event_type ev)) ty d k e s)
      as [->|[_ ->]]; reflexivity.
  - intros u f s' _ Hs'. run. destruct (fails E UsersUpdate); simpl; [exact Hs'|].
    destruct (users s' !! u); simpl; exact Hs'.
Qed.

Lemma webhook_handler_preserves (P : Store -> Prop) (dispatch : Env -> Event -> M unit)
    (E : Env) (ev : Event) (s : Store) :
  (forall f s', P s' -> P (with_webhooks f s')) ->
  P s ->
  P (snd (dispatch E ev s)) ->
  P (snd (webhook_handler dispatch E ev s)).
Proof.
  intros Hwh Hs Hd. unfold webhook_handler.
  rewrite try_catch_read_only_handler by (intros e; apply ret_read_only).
  destruct (db E) eqn:Hdb; simpl; [|exact Hs].
  destruct (signatureValid E); simpl; [|exact Hs].
  apply bind_read_only_preserves; [apply isWebhookProcessed_read_only|exact Hs|].
  intros [|] _; [exact Hs|].
  apply bind_preserves; [exact Hd|].
  intros [] s' Hrun.
  assert (Hs' : P s') by (replace s' with (snd (dispatch E ev s)); [exact Hd|rewrite Hrun; reflexivity]).
  apply bind_preserves.
  - unfold markWebhookProcessed. rewrite Hdb. simpl. run.
    destruct (fails E WebhooksSet); simpl; [exact Hs'|apply Hwh; exact Hs'].
  - intros [] s'' Hmark. simpl.
    replace s'' with (snd (markWebhookProcessed E (id ev) (event_type ev) s'))
      by (rewrite Hmark; reflexivity).
    unfold markWebhookProcessed. rewrite Hdb. simpl. run.
    destruct (fails E WebhooksSet); simpl; [exact Hs'|apply Hwh; exact Hs'].
Qed.









(** ** Non-negative balances *)

Lemma nonneg_insert (s : Store) (u : string) (a' : Account) (l : list LedgerEntry)
    (wh : gmap string WebhookRecord) :
  balances_nonneg s ->
  (forall b, credits_balance a' = Some b -> 0 <= b) ->
  balances_nonneg (mkStore (<[u := a']> (users s)) l wh).
Proof.
  intros Hs Ha v a b. simpl. destruct (decide (u = v)) as [->|Hne].
  - rewrite lookup_insert_eq. intros [= <-]. apply Ha.
  - rewrite lookup_insert_ne by assumption. apply Hs.
Qed.

Lemma users_update_nonneg (E : Env) (u : string) (f : Account -> Account) (s : Store) :
  (forall a, credits_balance (f a) = credits_balance a) ->
  balances_nonneg s -> balances_nonneg (snd (users_update E u f s)).
Proof.
  intros Hf Hs. run. destruct (fails E UsersUpdate); simpl; [exact Hs|].
  destruct (users s !! u) as [a|] eqn:Hu; simpl; [|exact Hs].
  apply nonneg_insert; [exact Hs|]. intros b. rewrite Hf. apply (Hs u a b Hu).
Qed.

Lemma addCredits_nonneg (E : Env) (u : string) (a : Z) (ty : EntryType) (d : string)
    (k ev : option string) (s : Store) :
  balances_nonneg s -> balances_nonneg (snd (addCredits E u a ty d k ev s)).
Proof.
  intros Hs. destruct (addCredits_cases E u a ty d k ev s) as [->|[_ ->]]; [exact Hs|].
  simpl. apply nonneg_insert; [exact Hs|]. unfold granted_account.
  destruct (users s !! u); simpl; intros b [= <-]; lia.
Qed.

(** X25. Every balance the Balance Manager and the webhook handler write is
    non-negative: a store without negative balances stays so, whatever is
    called with whatever arguments and whichever database calls fail. *)
Lemma balances_nonneg_preserved (s : Store) :
  balances_nonneg s ->
  (forall E u, balances_nonneg (snd (getCreditsBalance E u s)))
  /\ (forall E u a d k, balances_nonneg (snd (deductCredits E u a d k s)))
  /\ (forall E u a ty d k ev, balances_nonneg (snd (addCredits E u a ty d k ev s)))
  /\ (forall E ev, balances_nonneg (snd (paypal_webhook E ev s))).
Proof.
  intros Hs. repeat split.
  - intros E u. unfold getCreditsBalance. destruct (db E); simpl; [|exact Hs]. run.
    destruct (fails E UsersGet); simpl; [exact Hs|].
    destruct (users s !! u) as [acct|] eqn:Hu; simpl.
    + destruct (bool_decide (plan acct = Some pro)
                && negb (truthy (paypalSubscriptionId acct))
                && negb (manualProCreditsGranted acct)); simpl; [|exact Hs].
      destruct (fails E UsersUpdate); simpl; [exact Hs|]. rewrite Hu. simpl.
      apply nonneg_insert; [exact Hs|]. intros b [= <-]. lia.
    + destruct (fails E UsersSet); simpl; [exact Hs|].
      destruct (fails E LedgerAdd); simpl;
        (apply nonneg_insert; [exact Hs|]; intros b [= <-]; lia).
  - intros E u a d k.
    destruct (deductCredits_cases E u a d k s) as [[-> _]|(acct & Hu & Hle & ->)];
      [exact Hs|].
    simpl. apply nonneg_insert; [exact Hs|]. simpl. intros b [= <-]. lia.
  - intros E u a ty d k ev. apply addCredits_nonneg. exact Hs.
  - intros E ev. unfold paypal_webhook. apply webhook_handler_preserves.
    + intros f s' Hs'. exact Hs'.
    + exact Hs.
    + apply apply_event_preserves; [| |exact Hs].
      * intros u ty d k e. apply addCredits_nonneg. exact Hs.
      * intros u f s' Hf. apply users_update_nonneg. exact Hf.
Qed.

(** ** Webhook Processor: replays and failures *)

(** Once the record of an event exists, the handler returns before its
    [switch], whatever the [switch] would do and whatever the database does. *)
Lemma webhook_handler_processed (dispatch : Env -> Event -> M unit) (E : Env) (ev : Event)
    (s : Store) :
  is_Some (processed_webhooks s !! id ev) ->
  snd (webhook_handler dispatch E ev s) = s
  /\ (signatureValid E = true -> webhook_handler dispatch E ev s = (Ok OK200, s)).
Proof.
  intros Hrec. unfold webhook_handler, isWebhookProcessed.
  destruct (db E); simpl; [|split; reflexivity].
  destruct (signatureValid E); simpl; [|split; [reflexivity|discriminate]].
  run. destruct (fails E WebhooksGet); simpl; [split; reflexivity|].
  rewrite bool_decide_eq_true_2 by exact Hrec. split; reflexivity.
Qed.

(** X26. When the handler reaches its [switch] (the database handle
    exists and the signature verifies) for an event without a record and the
    [switch] throws (a rejected query or user update), the exception reaches
    the [catch] of the handler before the record is written: the event is
    answered 200, it has no record afterwards, and what the [switch] wrote
    before it threw stays. *)
Lemma webhook_handler_throw_no_record (E : Env) (ev : Event) (s : Store) (e : string) :
  db E = true -> signatureValid E = true ->
  processed_webhooks s !! id ev = None ->
  fst (apply_event E ev s) = Throw e ->
  fst (paypal_webhook E ev s) = Ok OK200
  /\ processed_webhooks (snd (paypal_webhook E ev s)) !! id ev = None
  /\ (fails E WebhooksGet = false ->
      snd (paypal_webhook E ev s) = snd (apply_event E ev s)).
Proof.
  intros Hdb Hsig Hnone Hthrow.
  unfold paypal_webhook, webhook_handler, isWebhookProcessed.
  rewrite Hdb, Hsig. simpl. run.
  destruct (fails E WebhooksGet); simpl; [repeat split; [exact Hnone|discriminate]|].
  rewrite Hnone. rewrite bool_decide_eq_false_2 by (intros [x Hx]; discriminate).
  pose proof (apply_event_keeps_webhooks E ev s) as Hkeep.
  destruct (apply_event E ev s) as [[[]|e'] s'] eqn:Hrun; simpl in *; [discriminate|].
  rewrite Hkeep. repeat split. exact Hnone.
Qed.

(** The first processing of an activation event that names its user, on a
    healthy database. *)
Lemma paypal_webhook_activation (E : Env) (ev : Event) (sub u : string) (s : Store) :
  healthy E -> signatureValid E = true ->
  one_of (event_type ev) "BILLING.SUBSCRIPTION.ACTIVATED" "PAYMENT.SALE.COMPLETED" = true ->
  resource_id ev = Some sub -> sub <> "" ->
  custom_id ev = Some u -> u <> "" ->
  processed_webhooks s !! id ev = None ->
  key_used (Some ("paypal_" +:+ id ev)) (credits_ledger s) = false ->
  exists acct,
    paypal_webhook E ev s =
      (Ok OK200,
       mkStore (<[u := acct]> (users s))
               (credits_ledger s ++
                [mkLedgerEntry u (PLAN_CREDITS pro) purchase
                               ("Pro subscription payment (" +:+ event_type ev +:+ ")")
                               (Some ("paypal_" +:+ id ev)) (Some (id ev))
                               (Some (Z.max 0 (balance_of s u + PLAN_CREDITS pro)))])
               (<[id ev := mkWebhookRecord (id ev) (event_type ev)]> (processed_webhooks s)))
    /\ plan acct = Some pro
    /\ credits_balance acct = Some (Z.max 0 (balance_of s u + PLAN_CREDITS pro))
    /\ paypalSubscriptionId acct = Some sub.
Proof.
  intros [Hdb Hok] Hsig Hact Hsub Hsub_ne Hcustom Hu_ne Hnone Hfresh.
  exists (mkAccount (Some pro) (Some (Z.max 0 (balance_of s u + PLAN_CREDITS pro))) (Some sub)
                    (manualProCreditsGranted
                       (granted_account purchase
                          (Z.max 0 (balance_of s u + PLAN_CREDITS pro)) (users s !! u)))).
  split; [|repeat split].
  unfold paypal_webhook, webhook_handler, isWebhookProcessed, markWebhookProcessed.
  rewrite Hdb, Hsig. simpl.
  unfold apply_event. cbv zeta. rewrite Hact, Hsub, Hcustom.
  rewrite (truthy_Some sub Hsub_ne), (truthy_Some u Hu_ne).
  unfold addCredits. rewrite Hdb. simpl.
  destruct (add_transaction_cases E u (PLAN_CREDITS pro) purchase
              ("Pro subscription payment (" +:+ event_type ev +:+ ")")
              (Some ("paypal_" +:+ id ev)) (Some (id ev)) s)
    as [(r & Hr & Hs & _)|(_ & _ & Hr)].
  { exfalso. revert Hr Hs. unfold add_transaction, add_body. run. rewrite !Hok. simpl.
    destruct (users s !! u) as [a|] eqn:Hlook; simpl; [rewrite Hlook; simpl|];
      intros [= <-]; discriminate. }
  unfold webhooks_get, webhooks_set, users_update, ledger_where_key, await, try_catch, bind,
    ret, throw.
  rewrite !Hok, Hnone.
  rewrite bool_decide_eq_false_2 by (intros [x Hx]; discriminate).
  cbn beta iota. rewrite (truthy_Some u Hu_ne). cbn beta iota.
  rewrite Hfresh. cbn beta iota. simpl in Hr. rewrite Hr.
  unfold granted. simpl. rewrite lookup_insert_eq.
  unfold with_users, with_webhooks. simpl. rewrite insert_insert_eq.
  unfold granted_account. destruct (users s !! u); reflexivity.
Qed.

(** C3, at an input where the code departs from it.  The activation event
    ["WH-1"] for ["alice"] arrives while the commit of the transaction of
    [addCredits] is rejected: [addCredits] resolves to [{success: false}],
    the handler does not look at that result, updates the user and writes the
    record.  The record exists, no credit was granted and no ledger entry was
    written; a later delivery of the same event on a healthy database is
    skipped as already processed. *)
Theorem webhook_records_failed_grant :
  let outcome := paypal_webhook (env_failing TxnCommit) activation_event alice_store in
  addCredits (env_failing TxnCommit) "alice" (PLAN_CREDITS pro) purchase
             "Pro subscription payment (BILLING.SUBSCRIPTION.ACTIVATED)"
             (Some "paypal_WH-1") (Some "WH-1") alice_store
    = (Ok (mkOpResult false false None (Some UNAVAILABLE)), alice_store)
  /\ fst outcome = Ok OK200
  /\ processed_webhooks (snd outcome) !! "WH-1"
     = Some (mkWebhookRecord "WH-1" "BILLING.SUBSCRIPTION.ACTIVATED")
  /\ credits_ledger (snd outcome) = credits_ledger alice_store
  /\ balance_of (snd outcome) "alice" = 3
  /\ snd (paypal_webhook env_ok activation_event (snd outcome)) = snd outcome.
Proof.
  repeat split; vm_compute; reflexivity.
Qed.

(** ** Usage Gate: decisions *)

(** On a database that answers, [getCreditsBalance] returns the account as
    it is stored when the call returns. *)
Lemma getCreditsBalance_returns_stored (E : Env) (u : string) (s : Store) :
  db E = true ->
  fails E UsersGet = false -> fails E UsersSet = false ->
  fails E LedgerAdd = false -> fails E UsersUpdate = false ->
  exists d s', getCreditsBalance E u s = (Ok (Some d), s') /\ users s' !! u = Some d.
Proof.
  intros Hdb Hget Hset Hadd Hupd. unfold getCreditsBalance. rewrite Hdb. run.
  rewrite Hget. destruct (users s !! u) as [acct|] eqn:Hu.
  - destruct (bool_decide (plan acct = Some pro)
              && negb (truthy (paypalSubscriptionId acct))
              && negb (manualProCreditsGranted acct)).
    + rewrite Hupd, Hu. eexists _, _. split; [reflexivity|]. simpl. apply lookup_insert_eq.
    + eexists _, _. split; [reflexivity|exact Hu].
  - rewrite Hset, Hadd. eexists _, _. split; [reflexivity|]. simpl. apply lookup_insert_eq.
Qed.



(** C10. The [checkCredits] middleware lets the request through without
    consulting or touching the store when the database handle is [null],
    when the request has no [Bearer] authorization header, and when the token
    verification throws; the inline pre-check of [/api/generate-plan] is
    likewise skipped when the database handle is [null]. *)
Theorem usage_gate_fails_open (E : Env) (req : Request) (s : Store) :
  (db E = false -> checkCredits E req s = (Ok (Next None), s))
  /\ (authorization req = None -> checkCredits E req s = (Ok (Next None), s))
  /\ (forall h, authorization req = Some h -> String.prefix "Bearer " h = false ->
        checkCredits E req s = (Ok (Next None), s))
  /\ (forall h, authorization req = Some h -> verifyIdToken E (bearer_token h) = None ->
        checkCredits E req s = (Ok (Next None), s))
  /\ (forall h uid,
        db E = false -> authorization req = Some h -> String.prefix "Bearer " h = true ->
        verifyIdToken E (bearer_token h) = Some uid -> file req = true ->
        generate_plan_precheck E req s = (Ok (Next None), s)).
Proof.
  unfold checkCredits, generate_plan_precheck. repeat split.
  - intros Hdb. rewrite Hdb. destruct (authorization req) as [h|]; [|reflexivity].
    rewrite orb_true_r. reflexivity.
  - intros ->. reflexivity.
  - intros h -> ->. reflexivity.
  - intros h -> Htoken. rewrite Htoken.
    destruct (negb (String.prefix "Bearer " h) || negb (db E)); reflexivity.
  - intros h uid Hdb -> -> Htoken ->. rewrite Htoken, Hdb. reflexivity.
Qed.

Lemma usage_gate_fails_open_witness :
  checkCredits env_no_db (mkRequest (Some "Bearer alice") true) alice_store
    = (Ok (Next None), alice_store)
  /\ checkCredits env_ok (mkRequest None true) empty_store = (Ok (Next None), empty_store)
  /\ checkCredits env_ok (mkRequest (Some "Basic YWxpY2U6cHc=") true) empty_store
     = (Ok (Next None), empty_store)
  /\ checkCredits env_bad_token (mkRequest (Some "Bearer expired") true) empty_store
     = (Ok (Next None), empty_store)
  /\ generate_plan_precheck env_no_db (mkRequest (Some "Bearer alice") true) alice_store
     = (Ok (Next None), alice_store).
Proof.
  split; [|split; [|split; [|split]]].
  - destruct (usage_gate_fails_open env_no_db (mkRequest (Some "Bearer alice") true)
                alice_store) as (Hdb & _).
    apply Hdb. reflexivity.
  - destruct (usage_gate_fails_open env_ok (mkRequest None true) empty_store)
      as (_ & Hnone & _).
    apply Hnone. reflexivity.
  - destruct (usage_gate_fails_open env_ok (mkRequest (Some "Basic YWxpY2U6cHc=") true)
                empty_store) as (_ & _ & Hscheme & _).
    apply (Hscheme "Basic YWxpY2U6cHc="); reflexivity.
  - destruct (usage_gate_fails_open env_bad_token (mkRequest (Some "Bearer expired") true)
                empty_store) as (_ & _ & _ & Hthrows & _).
    apply (Hthrows "Bearer expired"); reflexivity.
  - destruct (usage_gate_fails_open env_no_db (mkRequest (Some "Bearer alice") true)
                alice_store) as (_ & _ & _ & _ & Hinline).
    apply (Hinline "Bearer alice" "alice"); reflexivity.
Defined.

(** ** The stores an operation can leave behind *)

(** The four outcomes of [getCreditsBalance] on the store: nothing written;
    the new account written but not its ledger entry (the second write was
    rejected); both written; or the balance of a hand-made pro account
    overwritten. *)
Lemma getCreditsBalance_cases (E : Env) (u : string) (s : Store) :
  snd (getCreditsBalance E u s) = s
  \/ (users s !! u = None
      /\ fails E LedgerAdd = true
      /\ snd (getCreditsBalance E u s) =
           with_users (insert u (mkAccount (Some free) (Some 3) None false)) s)
  \/ (users s !! u = None
      /\ snd (getCreditsBalance E u s) =
           mkStore (<[u := mkAccount (Some free) (Some 3) None false]> (users s))
                   (credits_ledger s ++
                    [mkLedgerEntry u 3 grant "Initial free plan credits"
                                   (Some ("init_" +:+ u)) None None])
                   (processed_webhooks s))
  \/ (exists a,
        users s !! u = Some a /\ manual_pro_pending a = true
        /\ snd (getCreditsBalance E u s) =
             with_users (insert u (mkAccount (plan a) (Some 40) (paypalSubscriptionId a) true))
                        s).
Proof.
  unfold getCreditsBalance. destruct (db E); simpl; [|left; reflexivity]. run.
  destruct (fails E UsersGet); simpl; [left; reflexivity|].
  destruct (users s !! u) as [a|] eqn:Hu; simpl.
  - destruct (bool_decide (plan a = Some pro)
              && negb (truthy (paypalSubscriptionId a))
              && negb (manualProCreditsGranted a)) eqn:Hpending; simpl;
      [|left; reflexivity].
    destruct (fails E UsersUpdate); simpl; [left; reflexivity|].
    rewrite Hu. simpl. right. right. right. exists a. repeat split. exact Hpending.
  - destruct (fails E UsersSet); simpl; [left; reflexivity|].
    destruct (fails E LedgerAdd); simpl.
    + right. left. repeat split.
    + right. right. left. repeat split.
Qed.

(** The gates write to the store only through [getCreditsBalance]. *)
Lemma checkCredits_store (E : Env) (req : Request) (s : Store) :
  snd (checkCredits E req s) = s
  \/ exists u, snd (checkCredits E req s) = snd (getCreditsBalance E u s).
Proof.
  unfold checkCredits. destruct (authorization req) as [h|]; [|left; reflexivity].
  destruct (negb (String.prefix "Bearer " h) || negb (db E)); [left; reflexivity|].
  unfold try_catch, throw, bind, ret.
  destruct (verifyIdToken E (bearer_token h)) as [u|]; [|left; reflexivity].
  right. exists u.
  destruct (getCreditsBalance E u s) as [[[d|]|e] s']; simpl; try reflexivity.
  destruct (num_le0 (credits_balance d)); reflexivity.
Qed.

Lemma generate_plan_precheck_store (E : Env) (req : Request) (s : Store) :
  snd (generate_plan_precheck E req s) = s
  \/ exists u, snd (generate_plan_precheck E req s) = snd (getCreditsBalance E u s).
Proof.
  unfold generate_plan_precheck. destruct (authorization req) as [h|]; [|left; reflexivity].
  destruct (negb (String.prefix "Bearer " h)); [left; reflexivity|].
  destruct (verifyIdToken E (bearer_token h)) as [u|]; [|left; reflexivity].
  destruct (negb (file req)); [left; reflexivity|].
  destruct (db E); [|left; reflexivity].
  right. exists u. unfold bind, ret.
  destruct (getCreditsBalance E u s) as [[[d|]|e] s']; simpl; try reflexivity.
  destruct (num_le0 (credits_balance d)); reflexivity.
Qed.

(** The two outcomes of the webhook handler on the store: whatever the
    [switch] left, with or without the record of the event added; the record
    is only ever added for an event id that had none. *)
Lemma paypal_webhook_cases (E : Env) (ev : Event) (s : Store) :
  snd (paypal_webhook E ev s) = s
  \/ snd (paypal_webhook E ev s) = snd (apply_event E ev s)
  \/ (processed_webhooks s !! id ev = None
      /\ snd (paypal_webhook E ev s) =
           with_webhooks (insert (id ev) (record_of ev)) (snd (apply_event E ev s))).
Proof.
  unfold paypal_webhook, webhook_handler, isWebhookProcessed, markWebhookProcessed.
  rewrite try_catch_read_only_handler by (intros e; apply ret_read_only).
  destruct (db E); simpl; [|left; reflexivity].
  destruct (signatureValid E); simpl; [|left; reflexivity].
  run. destruct (fails E WebhooksGet); simpl; [left; reflexivity|].
  destruct (processed_webhooks s !! id ev) as [r|] eqn:Hrec.
  - rewrite bool_decide_eq_true_2 by eauto. left. reflexivity.
  - rewrite bool_decide_eq_false_2 by (intros [x Hx]; discriminate).
    destruct (apply_event E ev s) as [[[]|e] s']; simpl; [|right; left; reflexivity].
    destruct (fails E WebhooksSet); simpl; [right; left; reflexivity|].
    right. right. split; reflexivity.
Qed.

(** ** What no operation ever does *)

Lemma users_update_keeps_ledger (E : Env) (u : string) (f : Account -> Account) (s : Store) :
  credits_ledger (snd (users_update E u f s)) = credits_ledger s
  /\ processed_webhooks (snd (users_update E u f s)) = processed_webhooks s.
Proof.
  run. destruct (fails E UsersUpdate); simpl; [split; reflexivity|].
  destruct (users s !! u); simpl; split; reflexivity.
Qed.

Lemma getCreditsBalance_append_only (E : Env) (u : string) (s : Store) :
  credits_ledger s `prefix_of` credits_ledger (snd (getCreditsBalance E u s)).
Proof.
  destruct (getCreditsBalance_cases E u s)
    as [->|[(_ & _ & ->)|[(_ & ->)|(a & _ & _ & ->)]]]; simpl;
    try reflexivity.
  apply prefix_app_r. reflexivity.
Qed.

Lemma addCredits_append_only (E : Env) (u : string) (a : Z) (ty : EntryType) (d : string)
    (k ev : option string) (s : Store) :
  credits_ledger s `prefix_of` credits_ledger (snd (addCredits E u a ty d k ev s)).
Proof.
  destruct (addCredits_cases E u a ty d k ev s) as [->|[_ ->]]; simpl; [reflexivity|].
  apply prefix_app_r. reflexivity.
Qed.

Lemma apply_event_append_only (E : Env) (ev : Event) (s : Store) :
  credits_ledger s `prefix_of` credits_ledger (snd (apply_event E ev s)).
Proof.
  apply (apply_event_preserves
           (fun s' => credits_ledger s `prefix_of` credits_ledger s')); [| |reflexivity].
  - intros u ty d k e. apply addCredits_append_only.
  - intros u f s' _ Hs'. rewrite (proj1 (users_update_keeps_ledger E u f s')). exact Hs'.
Qed.

(** X1. The ledger is append-only: whatever is called, with whatever
    arguments and whichever database calls fail, the ledger afterwards
    starts with the whole ledger before; no entry is ever removed, changed
    or reordered. *)
Theorem ledger_append_only (s : Store) :
  (forall E u, credits_ledger s `prefix_of` credits_ledger (snd (getCreditsBalance E u s)))
  /\ (forall E u a d k,
        credits_ledger s `prefix_of` credits_ledger (snd (deductCredits E u a d k s)))
  /\ (forall E u a ty d k ev,
        credits_ledger s `prefix_of` credits_ledger (snd (addCredits E u a ty d k ev s)))
  /\ (forall E ev, credits_ledger s `prefix_of` credits_ledger (snd (paypal_webhook E ev s)))
  /\ (forall E req, credits_ledger s `prefix_of` credits_ledger (snd (checkCredits E req s)))
  /\ (forall E req,
        credits_ledger s `prefix_of` credits_ledger (snd (generate_plan_precheck E req s))).
Proof.
  repeat split.
  - intros E u. apply getCreditsBalance_append_only.
  - intros E u a d k.
    destruct (deductCredits_cases E u a d k s) as [[-> _]|(acct & _ & _ & ->)]; simpl;
      [reflexivity|].
    apply prefix_app_r. reflexivity.
  - intros E u a ty d k ev. apply addCredits_append_only.
  - intros E ev.
    destruct (paypal_webhook_cases E ev s) as [->|[->|[_ ->]]]; simpl;
      [reflexivity|apply apply_event_append_only|apply apply_event_append_only].
  - intros E req. destruct (checkCredits_store E req s) as [->|[u ->]];
      [reflexivity|apply getCreditsBalance_append_only].
  - intros E req. destruct (generate_plan_precheck_store E req s) as [->|[u ->]];
      [reflexivity|apply getCreditsBalance_append_only].
Qed.

(** X2. A webhook record, once written, stays: the webhook handler keeps
    every record of the store as it is (it adds at most the record of its own
    event, and only when the event id had none), and the Balance Manager and
    the gates leave the collection of records untouched. *)
Theorem webhook_records_kept (s : Store) :
  (forall E ev, records_kept s (snd (paypal_webhook E ev s)))
  /\ (forall E u, processed_webhooks (snd (getCreditsBalance E u s)) = processed_webhooks s)
  /\ (forall E u a d k,
        processed_webhooks (snd (deductCredits E u a d k s)) = processed_webhooks s)
  /\ (forall E u a ty d k ev,
        processed_webhooks (snd (addCredits E u a ty d k ev s)) = processed_webhooks s)
  /\ (forall E req, processed_webhooks (snd (checkCredits E req s)) = processed_webhooks s).
Proof.
  assert (Hget : forall E u,
            processed_webhooks (snd (getCreditsBalance E u s)) = processed_webhooks s).
  { intros E u.
    destruct (getCreditsBalance_cases E u s)
      as [->|[(_ & _ & ->)|[(_ & ->)|(a & _ & _ & ->)]]]; reflexivity. }
  repeat split.
  - intros E ev ev' r Hr.
    destruct (paypal_webhook_cases E ev s) as [->|[->|[Hnone ->]]]; simpl.
    + exact Hr.
    + rewrite apply_event_keeps_webhooks. exact Hr.
    + rewrite apply_event_keeps_webhooks.
      rewrite lookup_insert_ne by (intros <-; congruence). exact Hr.
  - exact Hget.
  - intros E u a d k.
    destruct (deductCredits_cases E u a d k s) as [[-> _]|(acct & _ & _ & ->)]; reflexivity.
  - intros E u a ty d k ev.
    destruct (addCredits_cases E u a ty d k ev s) as [->|[_ ->]]; reflexivity.
  - intros E req. destruct (checkCredits_store E req s) as [->|[u ->]];
      [reflexivity|apply Hget].
Qed.

(** X3. The webhook handler never lets an exception out and answers 200
    ["OK"] in every case but one: with a database handle and a signature that
    does not verify it answers 401 ["Invalid signature"] and writes
    nothing. *)
Theorem paypal_webhook_response (E : Env) (ev : Event) (s : Store) :
  (db E = true /\ signatureValid E = false
   /\ paypal_webhook E ev s = (Ok (Respond 401 (Text "Invalid signature")), s))
  \/ ((db E = false \/ signatureValid E = true)
      /\ fst (paypal_webhook E ev s) = Ok OK200).
Proof.
  unfold paypal_webhook, webhook_handler, isWebhookProcessed, markWebhookProcessed.
  destruct (db E); simpl; [|right; split; [left|]; reflexivity].
  destruct (signatureValid E); simpl; [|left; repeat split].
  right. split; [right; reflexivity|].
  run. destruct (fails E WebhooksGet); simpl; [reflexivity|].
  destruct (bool_decide (is_Some (processed_webhooks s !! id ev))); simpl; [reflexivity|].
  destruct (apply_event E ev s) as [[[]|e] s']; simpl; [|reflexivity].
  destruct (fails E WebhooksSet); reflexivity.
Qed.

(** ** Idempotency keys *)

Lemma key_unused_filter (k : string) (l : list LedgerEntry) :
  key_used (Some k) l = false ->
  filter (fun e => idempotencyKey e = Some k) l = [].
Proof.
  unfold key_used. induction l as [|e l IH]; simpl; [reflexivity|].
  intros Hused. apply orb_false_elim in Hused as [He Hl].
  apply bool_decide_eq_false in He.
  rewrite filter_cons_False by exact He. apply IH. exact Hl.
Qed.

Lemma keys_unique_snoc (s : Store) (e : LedgerEntry) (us : gmap string Account)
    (wh : gmap string WebhookRecord) :
  keys_unique s ->
  (truthy (idempotencyKey e) = true -> key_used (idempotencyKey e) (credits_ledger s) = false) ->
  keys_unique (mkStore us (credits_ledger s ++ [e]) wh).
Proof.
  intros Huniq Hfresh k Hk. simpl. rewrite filter_app, length_app.
  destruct (decide (idempotencyKey e = Some k)) as [Hek|Hek].
  - rewrite (filter_cons_True _ e [] Hek). rewrite Hek in Hfresh.
    rewrite (key_unused_filter k _ (Hfresh (truthy_Some k Hk))). simpl. lia.
  - rewrite (filter_cons_False _ e [] Hek). simpl. specialize (Huniq k Hk). lia.
Qed.

(** A committed deduction carried a key that was falsy or unused. *)
Lemma deductCredits_cases_key (E : Env) (u : string) (a : Z) (d : string) (k : option string)
    (s : Store) :
  snd (deductCredits E u a d k s) = s
  \/ (exists acct,
        users s !! u = Some acct
        /\ (truthy k = true -> key_used k (credits_ledger s) = false)
        /\ snd (deductCredits E u a d k s) = deducted u a d k acct s).
Proof.
  assert (Htxn : snd (deduct_transaction E u a d k s) = s
                 \/ exists acct, users s !! u = Some acct
                      /\ snd (deduct_transaction E u a d k s) = deducted u a d k acct s).
  { destruct (deduct_transaction_cases E u a d k s) as [(r & -> & _)|(acct & Hu & _ & ->)];
      [left; reflexivity|right; exists acct; split; [exact Hu|reflexivity]]. }
  unfold deductCredits. destruct (db E); simpl; [|left; reflexivity].
  unfold ledger_where_key, await, bind, ret, throw.
  destruct (truthy k); simpl.
  - destruct (fails E LedgerQuery); simpl; [left; reflexivity|].
    destruct (key_used k (credits_ledger s)) eqn:Hused; simpl; [left; reflexivity|].
    destruct Htxn as [Hs|(acct & Hu & Hs)]; [left; exact Hs|].
    right. exists acct. split; [exact Hu|]. split; [intros _; reflexivity|exact Hs].
  - destruct Htxn as [Hs|(acct & Hu & Hs)]; [left; exact Hs|].
    right. exists acct. split; [exact Hu|]. split; [discriminate|exact Hs].
Qed.

Lemma addCredits_keys_unique (E : Env) (u : string) (a : Z) (ty : EntryType) (d : string)
    (k ev : option string) (s : Store) :
  keys_unique s -> keys_unique (snd (addCredits E u a ty d k ev s)).
Proof.
  intros Huniq. destruct (addCredits_cases E u a ty d k ev s) as [->|[Hfresh ->]];
    [exact Huniq|].
  apply keys_unique_snoc; [exact Huniq|]. intros _. exact Hfresh.
Qed.

Lemma keys_unique_same_ledger (s s' : Store) :
  credits_ledger s' = credits_ledger s -> keys_unique s -> keys_unique s'.
Proof. intros Heq Huniq k Hk. rewrite Heq. apply Huniq. exact Hk. Qed.

Lemma alice_store_keys_unique : keys_unique alice_store.
Proof.
  intros k _.
  exact (length_filter (fun e => idempotencyKey e = Some k) (credits_ledger alice_store)).
Qed.

(** [deductCredits] is its idempotency query followed by the rest. *)
Lemma deductCredits_alone (E : Env) (u : string) (a : Z) (d : string) (k : option string)
    (s : Store) :
  db E = true ->
  deductCredits E u a d k s
    = alone (deductCredits_query E k) (deductCredits_resume E u a d k) s.
Proof.
  intros Hdb. unfold deductCredits, alone, deductCredits_query, deductCredits_resume, bind.
  rewrite Hdb. simpl.
  destruct ((if truthy k then ledger_where_key E k else ret false) s) as [[[|]|e] s1];
    reflexivity.
Qed.

(** X4. Idempotency keys stay unique under calls that do not overlap, and
    only under those.  A store in which no two ledger entries share a
    non-empty idempotency key stays so under a call of [deductCredits], of
    [addCredits] or of the webhook handler that runs with no other request
    in between, whatever its arguments and whichever database calls fail,
    and under [getCreditsBalance] when the key ["init_" + userId] of a user
    without a document is unused.  The idempotency query of [deductCredits]
    is awaited before its transaction and is not part of it: when two calls
    with the same unused key both get the answer of the query before either
    runs its transaction, both transactions commit, the user is charged
    twice and the ledger ends with two entries under the one key. *)
Theorem keys_unique_without_overlap (s : Store) :
  (keys_unique s ->
   (forall E u a d k, keys_unique (snd (deductCredits E u a d k s)))
   /\ (forall E u a ty d k ev, keys_unique (snd (addCredits E u a ty d k ev s)))
   /\ (forall E ev, keys_unique (snd (paypal_webhook E ev s)))
   /\ (forall E u,
         (users s !! u = None -> key_used (Some ("init_" +:+ u)) (credits_ledger s) = false) ->
         keys_unique (snd (getCreditsBalance E u s))))
  /\ (forall E u a d k acct,
        healthy E -> k <> "" -> key_used (Some k) (credits_ledger s) = false ->
        users s !! u = Some acct ->
        0 <= a -> a + a <= num_or (credits_balance acct) 0 ->
        let b := num_or (credits_balance acct) 0 in
        let both :=
          overlap (deductCredits_query E (Some k)) (deductCredits_resume E u a d (Some k))
                  (deductCredits_query E (Some k)) (deductCredits_resume E u a d (Some k)) s in
        fst both = (Ok (mkOpResult true false (Some (b - a)) None),
                    Ok (mkOpResult true false (Some (b - a - a)) None))
        /\ credits_ledger (snd both) =
             (credits_ledger s ++
              [mkLedgerEntry u (- a) deduction d (Some k) None (Some (b - a));
               mkLedgerEntry u (- a) deduction d (Some k) None (Some (b - a - a))])%list
        /\ balance_of (snd both) u = b - a - a
        /\ ~ keys_unique (snd both)).
Proof.
  split.
  - intros Huniq. repeat split.
    + intros E u a d k.
      destruct (deductCredits_cases_key E u a d k s) as [->|(acct & _ & Hfresh & ->)];
        [exact Huniq|].
      apply keys_unique_snoc; assumption.
    + intros E u a ty d k ev. apply addCredits_keys_unique. exact Huniq.
    + intros E ev.
      assert (Hswitch : keys_unique (snd (apply_event E ev s))).
      { apply apply_event_preserves; [| |exact Huniq].
        - intros u ty d k e. apply addCredits_keys_unique. exact Huniq.
        - intros u f s' _. apply keys_unique_same_ledger.
          apply (users_update_keeps_ledger E u f s'). }
      destruct (paypal_webhook_cases E ev s) as [->|[->|[_ ->]]];
        [exact Huniq|exact Hswitch|exact Hswitch].
    + intros E u Hinit.
      destruct (getCreditsBalance_cases E u s)
        as [->|[(_ & _ & ->)|[(Hnone & ->)|(a & _ & _ & ->)]]];
        try exact Huniq.
      apply keys_unique_snoc; [exact Huniq|]. intros _. apply Hinit. exact Hnone.
  - intros E u a d k acct [Hdb Hok] Hk Hfresh Hu Ha Hle b both.
    assert (Hboth : both =
      ((Ok (mkOpResult true false (Some (b - a)) None),
        Ok (mkOpResult true false (Some (b - a - a)) None)),
       deducted u a d (Some k) (set_credits_balance (b - a) acct)
                (deducted u a d (Some k) acct s))).
    { unfold both, overlap, deductCredits_query, deductCredits_resume.
      rewrite (truthy_Some k Hk). unfold ledger_where_key, await.
      rewrite (Hok LedgerQuery), Hfresh.
      rewrite (deduct_transaction_commits E u a d (Some k) s acct
                 (Hok TxnGet) (Hok TxnCommit) Hu) by (fold b; lia).
      fold b.
      rewrite (deduct_transaction_commits E u a d (Some k) (deducted u a d (Some k) acct s)
                 (set_credits_balance (b - a) acct) (Hok TxnGet) (Hok TxnCommit)).
      - unfold set_credits_balance. simpl. rewrite num_or_Some_0. reflexivity.
      - unfold deducted. cbn [users]. fold b. apply lookup_insert_eq.
      - unfold set_credits_balance. simpl. rewrite num_or_Some_0. lia. }
    rewrite Hboth. unfold deducted, set_credits_balance, balance_of. simpl.
    rewrite !num_or_Some_0. fold b. rewrite lookup_insert_eq. simpl. rewrite num_or_Some_0.
    split; [reflexivity|]. split; [rewrite <- app_assoc; reflexivity|].
    split; [reflexivity|].
    intros Huniq. specialize (Huniq k Hk). simpl in Huniq.
    rewrite !filter_app, !length_app in Huniq.
    rewrite !filter_cons_True in Huniq by reflexivity.
    simpl in Huniq. lia.
Qed.

(** On the store of ["alice"], who holds 3 credits: single calls keep the
    keys unique; two overlapping deductions of 1 credit under the key
    ["gen_7"] both commit. *)
Lemma keys_unique_without_overlap_witness :
  (keys_unique (snd (deductCredits env_ok "alice" 1 "AI Chat Interaction" (Some "gen_1")
                                   alice_store))
   /\ keys_unique (snd (paypal_webhook env_ok activation_event alice_store))
   /\ keys_unique (snd (getCreditsBalance env_ok "bob" alice_store)))
  /\ (let both :=
        overlap (deductCredits_query env_ok (Some "gen_7"))
                (deductCredits_resume env_ok "alice" 1 "Study plan generation: a.pdf"
                                      (Some "gen_7"))
                (deductCredits_query env_ok (Some "gen_7"))
                (deductCredits_resume env_ok "alice" 1 "Study plan generation: a.pdf"
                                      (Some "gen_7")) alice_store in
      fst both = (Ok (mkOpResult true false (Some 2) None),
                  Ok (mkOpResult true false (Some 1) None))
      /\ balance_of (snd both) "alice" = 1
      /\ ~ keys_unique (snd both)).
Proof.
  destruct (keys_unique_without_overlap alice_store) as [Hseq Hrace].
  split.
  - destruct (Hseq alice_store_keys_unique) as (Hdeduct & _ & Hwebhook & Hget).
    split; [apply Hdeduct|]. split; [apply Hwebhook|].
    apply Hget. intros _. reflexivity.
  - intros both.
    destruct (Hrace env_ok "alice" 1 "Study plan generation: a.pdf" "gen_7"
                    (mkAccount (Some free) (Some 3) None false))
      as (Hres & _ & Hbal & Hdup);
      [split; reflexivity|discriminate|reflexivity|reflexivity|lia|vm_compute; discriminate|].
    split; [exact Hres|]. split; [exact Hbal|exact Hdup].
Defined.

(** ** Balance snapshots *)

Lemma last_entry_snoc (u : string) (l : list LedgerEntry) (e : LedgerEntry) :
  last_entry u (l ++ [e]) = if decide (userId e = u) then Some e else last_entry u l.
Proof.
  unfold last_entry. rewrite filter_app. destruct (decide (userId e = u)) as [He|He].
  - rewrite (filter_cons_True _ e [] He). apply last_snoc.
  - rewrite (filter_cons_False _ e [] He). rewrite app_nil_r. reflexivity.
Qed.

Lemma snapshots_commit (s : Store) (u : string) (acct' : Account) (e : LedgerEntry)
    (wh : gmap string WebhookRecord) :
  snapshots_current s ->
  userId e = u ->
  (forall b, balanceAfter e = Some b -> num_or (credits_balance acct') 0 = b) ->
  snapshots_current (mkStore (<[u := acct']> (users s)) (credits_ledger s ++ [e]) wh).
Proof.
  intros Hs He Hnew v e0 b. simpl. rewrite last_entry_snoc. unfold balance_of. simpl.
  destruct (decide (userId e = v)) as [Hv|Hv].
  - intros [= <-] Hb. rewrite <- Hv, He, lookup_insert_eq. apply Hnew. exact Hb.
  - intros Hlast Hb. rewrite lookup_insert_ne by congruence. apply (Hs v e0 b Hlast Hb).
Qed.

Lemma users_update_keeps_balance (E : Env) (u : string) (f : Account -> Account) (s : Store)
    (v : string) :
  (forall a, credits_balance (f a) = credits_balance a) ->
  balance_of (snd (users_update E u f s)) v = balance_of s v.
Proof.
  intros Hf. run. destruct (fails E UsersUpdate); simpl; [reflexivity|].
  destruct (users s !! u) as [a|] eqn:Hu; simpl; [|reflexivity].
  unfold balance_of. simpl. destruct (decide (u = v)) as [->|Hne].
  - rewrite lookup_insert_eq, Hu, Hf. reflexivity.
  - rewrite lookup_insert_ne by assumption. reflexivity.
Qed.

Lemma addCredits_snapshots (E : Env) (u : string) (a : Z) (ty : EntryType) (d : string)
    (k ev : option string) (s : Store) :
  snapshots_current s -> snapshots_current (snd (addCredits E u a ty d k ev s)).
Proof.
  intros Hs. destruct (addCredits_cases E u a ty d k ev s) as [->|[_ ->]]; [exact Hs|].
  apply snapshots_commit; [exact Hs|reflexivity|].
  simpl. intros b [= <-]. unfold granted_account.
  destruct (users s !! u); simpl; apply num_or_Some_0.
Qed.

Lemma alice_store_snapshots : snapshots_current alice_store.
Proof.
  intros u e b Hlast Hb. unfold last_entry in Hlast.
  apply last_Some_elem_of, list_elem_of_filter in Hlast as [_ Hin].
  apply list_elem_of_singleton in Hin. subst e. discriminate.
Qed.

(** X5. The [balanceAfter] snapshot of a user's latest ledger entry stays
    equal to the stored balance, clamped grants included: the property
    survives [deductCredits], [addCredits] and the webhook handler with any
    arguments and any failing database calls, and [getCreditsBalance] on an
    account that is not due the manual-pro correction when the ledger write
    of the lazy initialisation succeeds. *)
Theorem snapshots_current_preserved (s : Store) :
  snapshots_current s ->
  (forall E u a d k, snapshots_current (snd (deductCredits E u a d k s)))
  /\ (forall E u a ty d k ev, snapshots_current (snd (addCredits E u a ty d k ev s)))
  /\ (forall E ev, snapshots_current (snd (paypal_webhook E ev s)))
  /\ (forall E u,
        fails E LedgerAdd = false ->
        (forall acct, users s !! u = Some acct -> manual_pro_pending acct = false) ->
        snapshots_current (snd (getCreditsBalance E u s))).
Proof.
  intros Hs. repeat split.
  - intros E u a d k.
    destruct (deductCredits_cases E u a d k s) as [[-> _]|(acct & Hu & _ & ->)]; [exact Hs|].
    simpl. apply snapshots_commit; [exact Hs|reflexivity|].
    simpl. intros b [= <-]. apply num_or_Some_0.
  - intros E u a ty d k ev. apply addCredits_snapshots. exact Hs.
  - intros E ev.
    assert (Hswitch : snapshots_current (snd (apply_event E ev s))).
    { apply apply_event_preserves; [| |exact Hs].
      - intros u ty d k e. apply addCredits_snapshots. exact Hs.
      - intros u f s' Hf Hs' v e b.
        rewrite (proj1 (users_update_keeps_ledger E u f s')).
        rewrite (users_update_keeps_balance E u f s' v Hf). apply Hs'. }
    destruct (paypal_webhook_cases E ev s) as [->|[->|[_ ->]]];
      [exact Hs|exact Hswitch|exact Hswitch].
  - intros E u Hadd Hmanual.
    destruct (getCreditsBalance_cases E u s)
      as [->|[(_ & Hfail & _)|[(Hnone & ->)|(a & Hu & Hpending & _)]]].
    + exact Hs.
    + congruence.
    + apply snapshots_commit; [exact Hs|reflexivity|]. simpl. discriminate.
    + rewrite (Hmanual a Hu) in Hpending. discriminate.
Qed.

Lemma snapshots_current_preserved_witness :
  snapshots_current
    (snd (addCredits env_ok "alice" (- PLAN_CREDITS pro) refund
                     "Payment refunded/reversed (PAYMENT.SALE.REFUNDED)"
                     (Some "paypal_refund_WH-2") (Some "WH-2") alice_store))
  /\ snapshots_current (snd (getCreditsBalance env_ok "alice" alice_store)).
Proof.
  destruct (snapshots_current_preserved alice_store alice_store_snapshots)
    as (_ & Hgrant & _ & Hget).
  split; [apply Hgrant|]. apply Hget; [reflexivity|].
  intros acct Hacct. vm_compute in Hacct. injection Hacct as <-. reflexivity.
Defined.

(** ** Accounts that do and do not come into being *)

(** X6. [deductCredits] never creates an account: for a user without a
    document it leaves the store exactly as it was, whatever the arguments
    and the database do, and on a database that answers it resolves to the
    error ['User not found']. *)
Theorem deductCredits_never_creates_account (E : Env) (u : string) (a : Z) (d : string)
    (k : option string) (s : Store) :
  users s !! u = None ->
  snd (deductCredits E u a d k s) = s
  /\ (db E = true -> fails E TxnGet = false ->
      (truthy k = true ->
       fails E LedgerQuery = false /\ key_used k (credits_ledger s) = false) ->
      deductCredits E u a d k s = (Ok (mkOpResult false false None (Some "User not found")), s)).
Proof.
  intros Hnone. split.
  - destruct (deductCredits_cases E u a d k s) as [[Hs _]|(acct & Hu & _)];
      [exact Hs|congruence].
  - intros Hdb Hget Hk. rewrite deductCredits_fresh by assumption.
    unfold deduct_transaction, deduct_body. run. rewrite Hget, Hnone. reflexivity.
Qed.

Lemma deductCredits_never_creates_account_witness :
  snd (deductCredits env_ok "bob" 1 "AI Chat Interaction" None alice_store) = alice_store
  /\ deductCredits env_ok "bob" 1 "AI Chat Interaction" None alice_store
     = (Ok (mkOpResult false false None (Some "User not found")), alice_store).
Proof.
  destruct (deductCredits_never_creates_account env_ok "bob" 1 "AI Chat Interaction" None
              alice_store eq_refl) as [Hsame Herror].
  split; [exact Hsame|]. apply Herror; [reflexivity|reflexivity|discriminate].
Defined.

(** X7. [addCredits] does create the account of a user without a document:
    with balance [max(0, amount)], plan ['pro'] for a purchase and ['free']
    for every other type, no subscription id; for an existing account a
    purchase sets the plan to ['pro'], any other type keeps the plan (or
    writes ['free'] when the document had none), and the subscription id and
    the manual-correction flag stay as they were. *)
Theorem addCredits_account (E : Env) (u : string) (a : Z) (ty : EntryType) (d : string)
    (k ev : option string) (s : Store) :
  db E = true ->
  fails E LedgerQuery = false -> fails E TxnGet = false -> fails E TxnCommit = false ->
  key_used k (credits_ledger s) = false ->
  exists s',
    addCredits E u a ty d k ev s =
      (Ok (mkOpResult true false (Some (Z.max 0 (balance_of s u + a))) None), s')
    /\ match users s !! u with
       | None =>
           users s' !! u =
             Some (mkAccount (Some (if bool_decide (ty = purchase) then pro else free))
                             (Some (Z.max 0 a)) None false)
       | Some old =>
           users s' !! u =
             Some (mkAccount
                     (Some (if bool_decide (ty = purchase) then pro
                            else plan_or (plan old) free))
                     (Some (Z.max 0 (num_or (credits_balance old) 0 + a)))
                     (paypalSubscriptionId old) (manualProCreditsGranted old))
       end
    /\ forall v, v <> u -> users s' !! v = users s !! v.
Proof.
  intros Hdb Hq Hget Hcommit Hfresh.
  exists (granted u a ty d k ev s). split; [|split].
  - unfold addCredits. rewrite Hdb. simpl.
    unfold ledger_where_key, await, bind, ret. rewrite Hq, Hfresh.
    destruct (add_transaction_cases E u a ty d k ev s) as [(r & Hr & Hs & _)|(_ & _ & Hr)];
      [|exact Hr].
    exfalso. revert Hr Hs. unfold add_transaction, add_body. run.
    rewrite Hget, Hcommit. simpl.
    destruct (users s !! u) as [old|] eqn:Hu; simpl; [rewrite Hu; simpl|];
      intros [= <-]; discriminate.
  - unfold granted, granted_account, balance_of. simpl. rewrite lookup_insert_eq.
    destruct (users s !! u); reflexivity.
  - intros v Hv. unfold granted. simpl. apply lookup_insert_ne. congruence.
Qed.

Lemma addCredits_account_witness :
  exists s',
    addCredits env_ok "bob" 40 purchase "Pro subscription payment" (Some "paypal_WH-9")
               (Some "WH-9") alice_store =
      (Ok (mkOpResult true false (Some (Z.max 0 (balance_of alice_store "bob" + 40))) None), s')
    /\ match users alice_store !! "bob" with
       | None =>
           users s' !! "bob" =
             Some (mkAccount (Some (if bool_decide (purchase = purchase) then pro else free))
                             (Some (Z.max 0 40)) None false)
       | Some old =>
           users s' !! "bob" =
             Some (mkAccount
                     (Some (if bool_decide (purchase = purchase) then pro
                            else plan_or (plan old) free))
                     (Some (Z.max 0 (num_or (credits_balance old) 0 + 40)))
                     (paypalSubscriptionId old) (manualProCreditsGranted old))
       end
    /\ forall v, v <> "bob" -> users s' !! v = users alice_store !! v.
Proof.
  apply (addCredits_account env_ok "bob" 40 purchase "Pro subscription payment"
           (Some "paypal_WH-9") (Some "WH-9") alice_store); reflexivity.
Defined.

(** ** Repeated balance queries *)

(** X8. A balance query that returned an account changes nothing when it
    is repeated: the second [getCreditsBalance] returns the same account and
    leaves the store as the first one left it.  In particular the free
    allotment is granted once and the manual-pro correction is applied
    once. *)
Theorem getCreditsBalance_idempotent (E : Env) (u : string) (s s' : Store) (d : Account) :
  getCreditsBalance E u s = (Ok (Some d), s') ->
  getCreditsBalance E u s' = (Ok (Some d), s').
Proof.
  unfold getCreditsBalance. destruct (db E); simpl; [|discriminate]. run.
  destruct (fails E UsersGet); simpl; [discriminate|].
  destruct (users s !! u) as [a|] eqn:Hu; simpl.
  - destruct (bool_decide (plan a = Some pro)
              && negb (truthy (paypalSubscriptionId a))
              && negb (manualProCreditsGranted a)) eqn:Hpending; simpl.
    + destruct (fails E UsersUpdate); simpl; [discriminate|]. rewrite Hu. simpl.
      intros [= <- <-]. simpl. rewrite lookup_insert_eq. simpl.
      rewrite andb_false_r. reflexivity.
    + intros [= <- <-]. rewrite Hu, Hpending. reflexivity.
  - destruct (fails E UsersSet); simpl; [discriminate|].
    destruct (fails E LedgerAdd); simpl; [discriminate|].
    intros [= <- <-]. simpl. rewrite lookup_insert_eq. reflexivity.
Qed.

Lemma getCreditsBalance_idempotent_witness :
  getCreditsBalance env_ok "bob" (snd (getCreditsBalance env_ok "bob" bob_store))
  = (Ok (Some (mkAccount (Some pro) (Some 40) None true)),
     snd (getCreditsBalance env_ok "bob" bob_store)).
Proof.
  apply (getCreditsBalance_idempotent env_ok "bob" bob_store). reflexivity.
Defined.

(** X9. After a completed activation the balance query does not overwrite
    the granted credits: the handler stored the subscription id, so the
    manual-pro correction does not apply, and [getCreditsBalance] returns the
    account with plan ['pro'] and the balance the grant left, without writing
    anything. *)
Theorem balance_after_activation (E : Env) (ev : Event) (sub u : string) (s : Store) :
  healthy E -> signatureValid E = true ->
  one_of (event_type ev) "BILLING.SUBSCRIPTION.ACTIVATED" "PAYMENT.SALE.COMPLETED" = true ->
  resource_id ev = Some sub -> sub <> "" ->
  custom_id ev = Some u -> u <> "" ->
  processed_webhooks s !! id ev = None ->
  key_used (Some ("paypal_" +:+ id ev)) (credits_ledger s) = false ->
  exists acct,
    getCreditsBalance E u (snd (paypal_webhook E ev s))
      = (Ok (Some acct), snd (paypal_webhook E ev s))
    /\ plan acct = Some pro
    /\ credits_balance acct = Some (Z.max 0 (balance_of s u + PLAN_CREDITS pro))
    /\ paypalSubscriptionId acct = Some sub.
Proof.
  intros Hhealthy Hsig Hact Hsub Hsub_ne Hcustom Hu_ne Hnone Hfresh.
  destruct (paypal_webhook_activation E ev sub u s Hhealthy Hsig Hact Hsub Hsub_ne
              Hcustom Hu_ne Hnone Hfresh) as (acct & -> & Hplan & Hbal & Hsubid).
  exists acct. split; [|repeat split; assumption].
  destruct Hhealthy as [Hdb Hok].
  unfold getCreditsBalance. rewrite Hdb. run. rewrite Hok. cbn [users].
  rewrite lookup_insert_eq.
  rewrite Hsubid, (truthy_Some sub Hsub_ne). simpl. rewrite andb_false_r. reflexivity.
Qed.

Lemma balance_after_activation_witness :
  exists acct,
    getCreditsBalance env_ok "alice" (snd (paypal_webhook env_ok activation_event alice_store))
      = (Ok (Some acct), snd (paypal_webhook env_ok activation_event alice_store))
    /\ plan acct = Some pro
    /\ credits_balance acct = Some (Z.max 0 (balance_of alice_store "alice" + PLAN_CREDITS pro))
    /\ paypalSubscriptionId acct = Some "I-SUB1".
Proof.
  apply (balance_after_activation env_ok activation_event "I-SUB1" "alice" alice_store);
    [split; reflexivity|reflexivity|reflexivity|reflexivity|discriminate|reflexivity
    |discriminate|reflexivity|reflexivity].
Defined.

Lemma alice_store_nonneg : balances_nonneg alice_store.
Proof.
  intros u a b Hu Hb. unfold alice_store in Hu. simpl in Hu.
  apply lookup_singleton_Some in Hu as [_ <-]. injection Hb as <-. lia.
Qed.

Lemma balances_nonneg_preserved_witness :
  balances_nonneg
    (snd (addCredits env_ok "alice" (- PLAN_CREDITS pro) refund
                     "Payment refunded/reversed (PAYMENT.SALE.REFUNDED)"
                     (Some "paypal_refund_WH-2") (Some "WH-2") alice_store))
  /\ balances_nonneg (snd (deductCredits env_ok "alice" (-5) "AI Chat Interaction" None
                                         alice_store)).
Proof.
  destruct (balances_nonneg_preserved alice_store alice_store_nonneg)
    as (_ & Hdeduct & Hgrant & _).
  split; [apply Hgrant|apply Hdeduct].
Defined.

(** The activation of ["alice"] while the update of her user document is
    rejected: her 40 credits were granted before the [switch] threw. *)
Lemma webhook_handler_throw_no_record_witness :
  let outcome := paypal_webhook (env_failing UsersUpdate) activation_event alice_store in
  fst outcome = Ok OK200
  /\ processed_webhooks (snd outcome) !! id activation_event = None
  /\ snd outcome = snd (apply_event (env_failing UsersUpdate) activation_event alice_store)
  /\ balance_of (snd outcome) "alice" = 43.
Proof.
  intros outcome.
  destruct (webhook_handler_throw_no_record (env_failing UsersUpdate) activation_event
              alice_store UNAVAILABLE eq_refl eq_refl eq_refl eq_refl)
    as (Hreply & Hrecord & Hstore).
  split; [exact Hreply|]. split; [exact Hrecord|]. split; [exact (Hstore eq_refl)|].
  reflexivity.
Defined.

(** ** Webhook Processor: the other events *)

(** The subscription query finds a user who holds the subscription id when
    there is one, and nothing otherwise. *)
Lemma first_id_elem (ids : list string) (u : string) :
  first_id ids = Some u -> u ∈ ids.
Proof.
  revert u. induction ids as [|v ids IH]; intros u; simpl; [discriminate|].
  destruct (first_id ids) as [w|].
  - intros [= <-]. destruct (String.leb v w); [left|right; apply IH; reflexivity].
  - intros [= <-]. left.
Qed.

Lemma first_id_least (ids : list string) (u v : string) :
  first_id ids = Some u -> v ∈ ids -> String.leb u v = true.
Proof.
  assert (Hrefl : forall x, String.leb x x = true).
  { intros x. destruct (String.leb_total x x); assumption. }
  assert (Htrans : forall x y z,
            String.leb x y = true -> String.leb y z = true -> String.leb x z = true).
  { unfold String.leb. intros x y z Hxy Hyz.
    destruct (String.compare x y) eqn:Cxy; try discriminate;
      destruct (String.compare y z) eqn:Cyz; try discriminate.
    - apply String.compare_eq_iff in Cxy. subst y. rewrite Cyz. reflexivity.
    - apply String.compare_eq_iff in Cxy. subst y. rewrite Cyz. reflexivity.
    - apply String.compare_eq_iff in Cyz. subst z. rewrite Cxy. reflexivity.
    - assert (Hlt : forall a b c, String.compare a b = Lt -> String.compare b c = Lt ->
                                  String.compare a c = Lt).
      { clear. induction a as [|ca a IH]; intros [|cb b] [|cc c]; simpl; try discriminate;
          try reflexivity.
        destruct (Ascii.compare ca cb) eqn:Cab; try discriminate;
          destruct (Ascii.compare cb cc) eqn:Cbc; try discriminate; intros Hab Hbc.
        - apply Ascii.compare_eq_iff in Cab, Cbc. subst cb cc.
          replace (Ascii.compare ca ca) with Eq
            by (symmetry; unfold Ascii.compare; apply N.compare_refl).
          exact (IH _ _ Hab Hbc).
        - apply Ascii.compare_eq_iff in Cab. subst cb. rewrite Cbc. reflexivity.
        - apply Ascii.compare_eq_iff in Cbc. subst cc. rewrite Cab. reflexivity.
        - unfold Ascii.compare in *. rewrite N.compare_lt_iff in *.
          replace (N_of_ascii ca ?= N_of_ascii cc)%N with Lt; [reflexivity|].
          symmetry. apply N.compare_lt_iff. lia. }
      rewrite (Hlt _ _ _ Cxy Cyz). reflexivity. }
  revert u. induction ids as [|w ids IH]; intros u Hfirst Hv; [inversion Hv|].
  simpl in Hfirst. destruct (first_id ids) as [m|] eqn:Hm.
  - injection Hfirst as <-. apply elem_of_cons in Hv as [->|Hv].
    + destruct (String.leb w m) eqn:Hwm; [apply Hrefl|].
      destruct (String.leb_total w m) as [H|H]; [congruence|exact H].
    + specialize (IH m eq_refl Hv).
      destruct (String.leb w m) eqn:Hwm; [exact (Htrans _ _ _ Hwm IH)|exact IH].
  - injection Hfirst as <-. apply elem_of_cons in Hv as [->|Hv]; [apply Hrefl|].
    destruct ids; [inversion Hv|]. simpl in Hm. destruct (first_id ids); discriminate.
Qed.

(** The query returns the holder of the subscription id with the least
    document id, and nothing when nobody holds it. *)
Lemma first_holder_spec (us : gmap string Account) (sub : string) :
  match first_holder us sub with
  | Some u =>
      (exists a, us !! u = Some a /\ paypalSubscriptionId a = Some sub)
      /\ forall v a, us !! v = Some a -> paypalSubscriptionId a = Some sub ->
                     String.leb u v = true
  | None => forall v a, us !! v = Some a -> paypalSubscriptionId a <> Some sub
  end.
Proof.
  unfold first_holder.
  set (holders := filter (fun ua => paypalSubscriptionId (snd ua) = Some sub) (map_to_list us)).
  assert (Hin : forall v a, us !! v = Some a -> paypalSubscriptionId a = Some sub ->
                            v ∈ fst <$> holders).
  { intros v a Hv Ha. apply list_elem_of_fmap. exists (v, a). split; [reflexivity|].
    apply list_elem_of_filter. split; [exact Ha|]. apply elem_of_map_to_list. exact Hv. }
  destruct (first_id (fst <$> holders)) as [u|] eqn:Hfirst.
  - split.
    + apply first_id_elem in Hfirst. apply list_elem_of_fmap in Hfirst as ([u' a] & -> & Hua).
      apply list_elem_of_filter in Hua as [Ha Hua]. apply elem_of_map_to_list in Hua.
      exists a. split; assumption.
    + intros v a Hv Ha. apply (first_id_least _ u v Hfirst). exact (Hin v a Hv Ha).
  - intros v a Hv Ha. specialize (Hin v a Hv Ha).
    destruct (fst <$> holders) as [|w l]; [inversion Hin|].
    simpl in Hfirst. destruct (first_id l); discriminate.
Qed.

(** Two users hold the subscription ["I-SUB1"]: the query returns the one
    whose document id comes first. *)
Example first_holder_of_two :
  first_holder {[ "carol" := mkAccount (Some pro) (Some 40) (Some "I-SUB1") false;
                  "alice" := mkAccount (Some pro) (Some 43) (Some "I-SUB1") false;
                  "bob" := mkAccount (Some pro) (Some 43) (Some "I-SUB2") false ]} "I-SUB1"
  = Some "alice".
Proof. vm_compute. reflexivity. Qed.

Lemma users_where_subscription_spec (E : Env) (sub : string) (s : Store) :
  fails E UsersQuery = false ->
  (exists u a,
     users_where_subscription E sub s = (Ok (Some u), s)
     /\ users s !! u = Some a /\ paypalSubscriptionId a = Some sub)
  \/ (users_where_subscription E sub s = (Ok None, s)
      /\ forall u a, users s !! u = Some a -> paypalSubscriptionId a <> Some sub).
Proof.
  intros Hq. unfold users_where_subscription, await. rewrite Hq.
  pose proof (first_holder_spec (users s) sub) as Hspec.
  destruct (first_holder (users s) sub) as [u|].
  - destruct Hspec as [(a & Hu & Ha) _]. left. exists u, a. repeat split; assumption.
  - right. split; [reflexivity|exact Hspec].
Qed.

(** The handler on a healthy database, for a verified event without a
    record: the [switch] runs, and the record is written when it returns. *)
Lemma paypal_webhook_fresh (E : Env) (ev : Event) (s : Store) :
  healthy E -> signatureValid E = true ->
  processed_webhooks s !! id ev = None ->
  paypal_webhook E ev s =
    match apply_event E ev s with
    | (Ok _, s') => (Ok OK200, with_webhooks (insert (id ev) (record_of ev)) s')
    | (Throw _, s') => (Ok OK200, s')
    end.
Proof.
  intros [Hdb Hok] Hsig Hnone.
  unfold paypal_webhook, webhook_handler, isWebhookProcessed, markWebhookProcessed.
  rewrite Hdb, Hsig. run. rewrite !Hok, Hnone.
  rewrite bool_decide_eq_false_2 by (intros [x Hx]; discriminate).
  destruct (apply_event E ev s) as [[[]|e] s']; reflexivity.
Qed.

Lemma refund_is_not_activation (t : string) :
  one_of t "PAYMENT.SALE.REFUNDED" "PAYMENT.SALE.REVERSED" = true ->
  one_of t "BILLING.SUBSCRIPTION.ACTIVATED" "PAYMENT.SALE.COMPLETED" = false.
Proof.
  unfold one_of. intros Ht. apply orb_true_iff in Ht as [Ht|Ht];
    apply String.eqb_eq in Ht; subst t; reflexivity.
Qed.

Lemma cancellation_is_neither (t : string) :
  String.eqb t "BILLING.SUBSCRIPTION.CANCELLED"
  || String.eqb t "BILLING.SUBSCRIPTION.SUSPENDED"
  || String.eqb t "BILLING.SUBSCRIPTION.EXPIRED" = true ->
  one_of t "BILLING.SUBSCRIPTION.ACTIVATED" "PAYMENT.SALE.COMPLETED" = false
  /\ one_of t "PAYMENT.SALE.REFUNDED" "PAYMENT.SALE.REVERSED" = false.
Proof.
  intros Ht. apply orb_true_iff in Ht as [Ht|Ht]; [apply orb_true_iff in Ht as [Ht|Ht]|];
    apply String.eqb_eq in Ht; subst t; split; reflexivity.
Qed.

(** On a healthy database a grant under an unused key commits. *)
Lemma addCredits_commits (E : Env) (u : string) (a : Z) (ty : EntryType) (d : string)
    (k ev : option string) (s : Store) :
  healthy E -> key_used k (credits_ledger s) = false ->
  addCredits E u a ty d k ev s =
    (Ok (mkOpResult true false (Some (Z.max 0 (balance_of s u + a))) None),
     granted u a ty d k ev s).
Proof.
  intros [Hdb Hok] Hfresh. unfold addCredits. rewrite Hdb. simpl.
  unfold ledger_where_key, await, bind, ret. rewrite (Hok LedgerQuery), Hfresh.
  destruct (add_transaction_cases E u a ty d k ev s) as [(r & Hr & Hs & _)|(_ & _ & Hr)];
    [|exact Hr].
  exfalso. revert Hr Hs. unfold add_transaction, add_body. run. rewrite !Hok. simpl.
  destruct (users s !! u) as [acct|] eqn:Hlook; simpl; [rewrite Hlook; simpl|];
    intros [= <-]; discriminate.
Qed.

(** The [switch] on a healthy database: it returns, leaves the webhook
    records alone, and appends exactly the one ledger entry of the event
    for the user of the event, or nothing when the event has no user. *)
Lemma apply_event_healthy (E : Env) (ev : Event) (s : Store) :
  healthy E ->
  key_used (Some (event_key ev)) (credits_ledger s) = false ->
  exists s',
    apply_event E ev s = (Ok tt, s')
    /\ processed_webhooks s' = processed_webhooks s
    /\ match event_user s ev with
       | Some u =>
           exists e,
             credits_ledger s' = (credits_ledger s ++ [e])%list
             /\ userId e = u /\ amount e = event_amount (event_type ev)
             /\ type e = event_entry_type (event_type ev)
             /\ idempotencyKey e = Some (event_key ev)
             /\ paypalEventId e = Some (id ev)
       | None => credits_ledger s' = credits_ledger s
       end.
Proof.
  intros Hhealthy. unfold event_key, event_entry_type. intros Hkey.
  pose proof Hhealthy as [Hdb Hok].
  assert (Hgrant :
    key_used (Some ("paypal_" +:+ id ev)) (credits_ledger s) = false ->
    forall u sub,
    exists s',
      (let! result :=
         addCredits E u (PLAN_CREDITS pro) purchase
                    ("Pro subscription payment (" +:+ event_type ev +:+ ")")
                    (Some ("paypal_" +:+ id ev)) (Some (id ev)) in
       users_update E u (fun a =>
         mkAccount (Some pro) (credits_balance a) (Some sub) (manualProCreditsGranted a))) s
      = (Ok tt, s')
      /\ processed_webhooks s' = processed_webhooks s
      /\ exists e, credits_ledger s' = (credits_ledger s ++ [e])%list
                   /\ userId e = u /\ amount e = PLAN_CREDITS pro
                   /\ type e = purchase
                   /\ idempotencyKey e = Some ("paypal_" +:+ id ev)
                   /\ paypalEventId e = Some (id ev)).
  { intros Hkey1 u sub. unfold bind.
    rewrite (addCredits_commits E u _ _ _ _ _ s Hhealthy Hkey1).
    unfold users_update, await. rewrite (Hok UsersUpdate).
    unfold granted. cbn [users]. rewrite lookup_insert_eq.
    eexists. split; [reflexivity|]. split; [reflexivity|].
    eexists. split; [reflexivity|]. repeat split. }
  unfold apply_event, event_user, event_amount. cbv zeta.
  destruct (one_of (event_type ev) "BILLING.SUBSCRIPTION.ACTIVATED" "PAYMENT.SALE.COMPLETED").
  { destruct (resource_id ev) as [sub|]; [|exists s; repeat split].
    destruct (truthy (Some sub)); [|exists s; repeat split].
    destruct (truthy (custom_id ev)) eqn:Hcustom.
    - destruct (custom_id ev) as [uid|]; [|discriminate].
      unfold bind at 1, ret at 1. rewrite Hcustom. apply Hgrant. exact Hkey.
    - unfold bind at 1. unfold users_where_subscription, await. rewrite (Hok UsersQuery).
      unfold bind at 1, ret at 1.
      destruct (first_holder (users s) sub) as [h|].
      + destruct (truthy (Some h)); [apply Hgrant; exact Hkey|exists s; repeat split].
      + destruct (custom_id ev) as [uid|]; [|exists s; repeat split].
        rewrite Hcustom. exists s. repeat split. }
  destruct (one_of (event_type ev) "PAYMENT.SALE.REFUNDED" "PAYMENT.SALE.REVERSED").
  { destruct (resource_id ev) as [sub|]; [|exists s; repeat split].
    destruct (truthy (Some sub)); [|exists s; repeat split].
    unfold bind at 1. unfold users_where_subscription, await. rewrite (Hok UsersQuery).
    destruct (first_holder (users s) sub) as [h|]; [|exists s; repeat split].
    unfold bind, ret. rewrite (addCredits_commits E h _ _ _ _ _ s Hhealthy Hkey).
    eexists. split; [reflexivity|]. split; [reflexivity|].
    eexists. split; [reflexivity|]. repeat split. }
  destruct (String.eqb (event_type ev) "BILLING.SUBSCRIPTION.CANCELLED"
            || String.eqb (event_type ev) "BILLING.SUBSCRIPTION.SUSPENDED"
            || String.eqb (event_type ev) "BILLING.SUBSCRIPTION.EXPIRED").
  - destruct (resource_id ev) as [sub|] eqn:Hsub; [|exists s; repeat split].
    destruct (truthy (Some sub)) eqn:Htruthy; [|exists s; repeat split].
    unfold bind at 1.
    destruct (users_where_subscription_spec E sub s (Hok UsersQuery))
      as [(u & a & -> & Hu & _)|(-> & _)]; [|exists s; repeat split].
    unfold users_update, await. rewrite (Hok UsersUpdate), Hu.
    eexists. split; [reflexivity|]. repeat split.
  - destruct (resource_id ev) as [sub|]; [|exists s; repeat split].
    destruct (truthy (Some sub)); exists s; repeat split.
Qed.

Lemma entries_of_event_snoc (ev : string) (l : list LedgerEntry) (e : LedgerEntry) :
  paypalEventId e = Some ev ->
  entries_of_event ev (l ++ [e]) = (entries_of_event ev l ++ [e])%list.
Proof.
  intros He. unfold entries_of_event. rewrite filter_app.
  rewrite (filter_cons_True _ e [] He). reflexivity.
Qed.

(** C7, as the code has it.  When the first processing of an event has
    written the record of the event id, a second processing of the same
    event returns before the [switch] is reached (so no Balance Manager call
    is made, whatever the switch contains) and writes nothing, in any
    environment; it answers 200 when the signature verifies.  After the
    replay the store holds what the first processing left.  When the first
    processing ran on a healthy database, that is the one record of the
    event id and, for an event that has a user (an activation or payment
    that names one or whose subscription has a holder, a refund or reversal
    whose subscription has a holder), exactly one ledger entry of the
    event, of +40 or -40 for that user; for every other event (a
    cancellation, suspension or expiry, an unhandled type, an event without
    subscription id or without a user) no ledger entry at all. *)
Theorem webhook_replay_idempotent (E1 E2 : Env) (ev : Event) (s : Store) :
  let s1 := snd (paypal_webhook E1 ev s) in
  is_Some (processed_webhooks s1 !! id ev) ->
  (forall dispatch, snd (webhook_handler dispatch E2 ev s1) = s1)
  /\ snd (paypal_webhook E2 ev s1) = s1
  /\ (signatureValid E2 = true -> fst (paypal_webhook E2 ev s1) = Ok OK200)
  /\ (healthy E1 -> signatureValid E1 = true ->
      processed_webhooks s !! id ev = None ->
      key_used (Some (event_key ev)) (credits_ledger s) = false ->
      entries_of_event (id ev) (credits_ledger s) = [] ->
      processed_webhooks (snd (paypal_webhook E2 ev s1)) !! id ev
        = Some (mkWebhookRecord (id ev) (event_type ev))
      /\ match event_user s ev with
         | Some u =>
             exists e,
               entries_of_event (id ev) (credits_ledger (snd (paypal_webhook E2 ev s1))) = [e]
               /\ userId e = u /\ type e = event_entry_type (event_type ev)
               /\ amount e = event_amount (event_type ev)
         | None =>
             entries_of_event (id ev) (credits_ledger (snd (paypal_webhook E2 ev s1))) = []
         end).
Proof.
  intros s1 Hrec.
  assert (Hsame : snd (paypal_webhook E2 ev s1) = s1)
    by apply (webhook_handler_processed apply_event E2 ev s1 Hrec).
  split; [intros dispatch; apply (webhook_handler_processed dispatch E2 ev s1 Hrec)|].
  split; [exact Hsame|]. split.
  - intros Hsig. unfold paypal_webhook.
    rewrite (proj2 (webhook_handler_processed apply_event E2 ev s1 Hrec) Hsig). reflexivity.
  - intros Hhealthy Hsig Hnone Hfresh Hnoentry.
    rewrite Hsame. subst s1.
    rewrite (paypal_webhook_fresh E1 ev s Hhealthy Hsig Hnone).
    destruct (apply_event_healthy E1 ev s Hhealthy Hfresh) as (s' & -> & Hwh & Hledger).
    simpl. split; [apply lookup_insert_eq|].
    destruct (event_user s ev) as [u|].
    + destruct Hledger as (e & -> & Hu & Hamount & Hty & _ & Hev).
      exists e. rewrite entries_of_event_snoc by exact Hev. rewrite Hnoentry.
      repeat split; assumption.
    + rewrite Hledger. exact Hnoentry.
Qed.

(** The activation of ["alice"] and, after it, the refund of her payment,
    each delivered twice. *)
Lemma webhook_replay_idempotent_witness :
  (let s1 := snd (paypal_webhook env_ok activation_event alice_store) in
   (forall dispatch, snd (webhook_handler dispatch env_ok activation_event s1) = s1)
   /\ snd (paypal_webhook env_ok activation_event s1) = s1
   /\ fst (paypal_webhook env_ok activation_event s1) = Ok OK200
   /\ processed_webhooks (snd (paypal_webhook env_ok activation_event s1)) !! "WH-1"
      = Some (mkWebhookRecord "WH-1" "BILLING.SUBSCRIPTION.ACTIVATED")
   /\ exists e,
        entries_of_event "WH-1"
          (credits_ledger (snd (paypal_webhook env_ok activation_event s1))) = [e]
        /\ userId e = "alice" /\ type e = purchase /\ amount e = 40)
  /\ (let s1 := snd (paypal_webhook env_ok refund_event alice_subscribed) in
      snd (paypal_webhook env_ok refund_event s1) = s1
      /\ processed_webhooks (snd (paypal_webhook env_ok refund_event s1)) !! "WH-2"
         = Some (mkWebhookRecord "WH-2" "PAYMENT.SALE.REFUNDED")
      /\ exists e,
           entries_of_event "WH-2"
             (credits_ledger (snd (paypal_webhook env_ok refund_event s1))) = [e]
           /\ userId e = "alice" /\ type e = refund /\ amount e = -40).
Proof.
  split.
  - intros s1.
    assert (Hrec : is_Some (processed_webhooks s1 !! id activation_event))
      by (vm_compute; eexists; reflexivity).
    destruct (webhook_replay_idempotent env_ok env_ok activation_event alice_store Hrec)
      as (Hswitch & Hsame & Hok & Hone).
    split; [exact Hswitch|]. split; [exact Hsame|]. split; [apply Hok; reflexivity|].
    apply Hone; [split; reflexivity|reflexivity|reflexivity|reflexivity|reflexivity].
  - intros s1.
    assert (Hrec : is_Some (processed_webhooks s1 !! id refund_event))
      by (vm_compute; eexists; reflexivity).
    destruct (webhook_replay_idempotent env_ok env_ok refund_event alice_subscribed Hrec)
      as (_ & Hsame & _ & Hone).
    split; [exact Hsame|].
    apply Hone; [split; reflexivity|reflexivity|reflexivity|reflexivity|reflexivity].
Defined.

(** C7 as the specification words it fails for the events that are not
    settled through the ledger.  The cancellation of the subscription of
    ["alice"] is processed on a healthy database: it is answered 200 and
    its record is written.  The second delivery writes nothing, and
    afterwards the record exists while the ledger holds no entry of the
    event, not one. *)
Lemma webhook_replay_without_ledger_entry :
  let first := paypal_webhook env_ok cancellation_event alice_subscribed in
  let second := paypal_webhook env_ok cancellation_event (snd first) in
  fst first = Ok OK200
  /\ processed_webhooks (snd first) !! "WH-3"
     = Some (mkWebhookRecord "WH-3" "BILLING.SUBSCRIPTION.CANCELLED")
  /\ snd second = snd first
  /\ entries_of_event "WH-3" (credits_ledger (snd second)) = []
  /\ ~ (exists e, entries_of_event "WH-3" (credits_ledger (snd second)) = [e]).
Proof.
  repeat split; try (vm_compute; reflexivity).
  intros [e He]. vm_compute in He. discriminate He.
Qed.

(** X10. A refund or reversal event for a subscription that some user
    holds, first processed on a healthy database, takes 40 credits from such
    a user down to no less than 0: the balance becomes [max(0, b - 40)], one
    [refund] entry of amount -40 with key ["paypal_refund_" + event id] is
    appended, the plan and subscription id stay, and the record of the event
    is written. *)
Theorem paypal_webhook_refund (E : Env) (ev : Event) (sub : string) (s : Store) :
  healthy E -> signatureValid E = true ->
  one_of (event_type ev) "PAYMENT.SALE.REFUNDED" "PAYMENT.SALE.REVERSED" = true ->
  resource_id ev = Some sub -> sub <> "" ->
  processed_webhooks s !! id ev = None ->
  key_used (Some ("paypal_refund_" +:+ id ev)) (credits_ledger s) = false ->
  (exists u0 a0, users s !! u0 = Some a0 /\ paypalSubscriptionId a0 = Some sub) ->
  exists u a,
    users s !! u = Some a /\ paypalSubscriptionId a = Some sub
    /\ paypal_webhook E ev s =
         (Ok OK200,
          mkStore
            (<[u := mkAccount (Some (plan_or (plan a) free))
                              (Some (Z.max 0 (num_or (credits_balance a) 0 - 40)))
                              (paypalSubscriptionId a) (manualProCreditsGranted a)]> (users s))
            (credits_ledger s ++
             [mkLedgerEntry u (-40) refund
                            ("Payment refunded/reversed (" +:+ event_type ev +:+ ")")
                            (Some ("paypal_refund_" +:+ id ev)) (Some (id ev))
                            (Some (Z.max 0 (num_or (credits_balance a) 0 - 40)))])
            (<[id ev := record_of ev]> (processed_webhooks s))).
Proof.
  intros Hhealthy Hsig Hrefund Hsub Hsub_ne Hnone Hfresh (u0 & a0 & Hu0 & Ha0).
  rewrite (paypal_webhook_fresh E ev s Hhealthy Hsig Hnone).
  destruct Hhealthy as [Hdb Hok].
  destruct (users_where_subscription_spec E sub s (Hok UsersQuery))
    as [(u & a & Hfind & Hu & Ha)|(_ & Hnobody)]; [|exfalso; exact (Hnobody u0 a0 Hu0 Ha0)].
  exists u, a. split; [exact Hu|]. split; [exact Ha|].
  unfold apply_event. cbv zeta.
  rewrite (refund_is_not_activation _ Hrefund), Hrefund, Hsub, (truthy_Some sub Hsub_ne).
  unfold bind at 1. rewrite Hfind.
  unfold addCredits. rewrite Hdb. simpl.
  unfold ledger_where_key, await, bind, ret. rewrite (Hok LedgerQuery), Hfresh.
  destruct (add_transaction_cases E u (-40) refund
              ("Payment refunded/reversed (" +:+ event_type ev +:+ ")")
              (Some ("paypal_refund_" +:+ id ev)) (Some (id ev)) s)
    as [(r & Hr & Hs & _)|(_ & _ & Hr)].
  { exfalso. revert Hr Hs. unfold add_transaction, add_body. run. rewrite !Hok, Hu. simpl.
    rewrite Hu. simpl. intros [= <-]. discriminate. }
  change (Z.opp 40) with (-40). rewrite Hr.
  unfold granted, granted_account, balance_of, with_webhooks. rewrite Hu. reflexivity.
Qed.

(** X11. A cancellation, suspension or expiry event for a subscription
    that some user holds, first processed on a healthy database, sets the
    plan of such a user to ['free'] and leaves the balance, every other
    field and the ledger as they were; the record of the event is written. *)
Theorem paypal_webhook_cancellation (E : Env) (ev : Event) (sub : string) (s : Store) :
  healthy E -> signatureValid E = true ->
  String.eqb (event_type ev) "BILLING.SUBSCRIPTION.CANCELLED"
  || String.eqb (event_type ev) "BILLING.SUBSCRIPTION.SUSPENDED"
  || String.eqb (event_type ev) "BILLING.SUBSCRIPTION.EXPIRED" = true ->
  resource_id ev = Some sub -> sub <> "" ->
  processed_webhooks s !! id ev = None ->
  (exists u0 a0, users s !! u0 = Some a0 /\ paypalSubscriptionId a0 = Some sub) ->
  exists u a,
    users s !! u = Some a /\ paypalSubscriptionId a = Some sub
    /\ paypal_webhook E ev s =
         (Ok OK200,
          mkStore
            (<[u := mkAccount (Some free) (credits_balance a) (paypalSubscriptionId a)
                              (manualProCreditsGranted a)]> (users s))
            (credits_ledger s)
            (<[id ev := record_of ev]> (processed_webhooks s))).
Proof.
  intros Hhealthy Hsig Hcancel Hsub Hsub_ne Hnone (u0 & a0 & Hu0 & Ha0).
  rewrite (paypal_webhook_fresh E ev s Hhealthy Hsig Hnone).
  destruct Hhealthy as [Hdb Hok].
  destruct (users_where_subscription_spec E sub s (Hok UsersQuery))
    as [(u & a & Hfind & Hu & Ha)|(_ & Hnobody)]; [|exfalso; exact (Hnobody u0 a0 Hu0 Ha0)].
  exists u, a. split; [exact Hu|]. split; [exact Ha|].
  unfold apply_event. cbv zeta.
  destruct (cancellation_is_neither _ Hcancel) as [-> ->].
  rewrite Hcancel, Hsub, (truthy_Some sub Hsub_ne).
  unfold bind. rewrite Hfind. unfold users_update, await. rewrite (Hok UsersUpdate), Hu.
  reflexivity.
Qed.

(** An event without a subscription id, or of a type the [switch] has no
    case for, makes the [switch] do nothing. *)
Lemma apply_event_noop (E : Env) (ev : Event) (s : Store) :
  truthy (resource_id ev) = false \/ handled_type (event_type ev) = false ->
  apply_event E ev s = (Ok tt, s).
Proof.
  unfold apply_event, handled_type. cbv zeta. intros Hnoop.
  destruct (one_of (event_type ev) "BILLING.SUBSCRIPTION.ACTIVATED" "PAYMENT.SALE.COMPLETED");
    [destruct Hnoop as [Hid|]; [|discriminate];
     destruct (resource_id ev); [rewrite Hid|]; reflexivity|].
  destruct (one_of (event_type ev) "PAYMENT.SALE.REFUNDED" "PAYMENT.SALE.REVERSED");
    [destruct Hnoop as [Hid|]; [|discriminate];
     destruct (resource_id ev); [rewrite Hid|]; reflexivity|].
  destruct (String.eqb (event_type ev) "BILLING.SUBSCRIPTION.CANCELLED"
            || String.eqb (event_type ev) "BILLING.SUBSCRIPTION.SUSPENDED"
            || String.eqb (event_type ev) "BILLING.SUBSCRIPTION.EXPIRED");
    [destruct Hnoop as [Hid|]; [|discriminate];
     destruct (resource_id ev); [rewrite Hid|]; reflexivity|].
  reflexivity.
Qed.

(** X12. A verified event that carries no subscription id, or whose type
    the handler has no case for, changes no account and no ledger entry on a
    healthy database, and is still recorded as processed. *)
Theorem paypal_webhook_unhandled (E : Env) (ev : Event) (s : Store) :
  healthy E -> signatureValid E = true ->
  processed_webhooks s !! id ev = None ->
  truthy (resource_id ev) = false \/ handled_type (event_type ev) = false ->
  paypal_webhook E ev s =
    (Ok OK200,
     mkStore (users s) (credits_ledger s) (<[id ev := record_of ev]> (processed_webhooks s))).
Proof.
  intros Hhealthy Hsig Hnone Hnoop.
  rewrite (paypal_webhook_fresh E ev s Hhealthy Hsig Hnone).
  rewrite (apply_event_noop E ev s Hnoop). reflexivity.
Qed.

Lemma paypal_webhook_refund_witness :
  exists u a,
    users alice_subscribed !! u = Some a /\ paypalSubscriptionId a = Some "I-SUB1"
    /\ paypal_webhook env_ok refund_event alice_subscribed =
         (Ok OK200,
          mkStore
            (<[u := mkAccount (Some (plan_or (plan a) free))
                              (Some (Z.max 0 (num_or (credits_balance a) 0 - 40)))
                              (paypalSubscriptionId a) (manualProCreditsGranted a)]>
               (users alice_subscribed))
            (credits_ledger alice_subscribed ++
             [mkLedgerEntry u (-40) refund
                            ("Payment refunded/reversed (" +:+ event_type refund_event +:+ ")")
                            (Some ("paypal_refund_" +:+ id refund_event))
                            (Some (id refund_event))
                            (Some (Z.max 0 (num_or (credits_balance a) 0 - 40)))])
            (<[id refund_event := record_of refund_event]>
               (processed_webhooks alice_subscribed))).
Proof.
  apply (paypal_webhook_refund env_ok refund_event "I-SUB1" alice_subscribed);
    [split; reflexivity|reflexivity|reflexivity|reflexivity|discriminate|reflexivity
    |reflexivity|].
  exists "alice", (mkAccount (Some pro) (Some 43) (Some "I-SUB1") false).
  split; reflexivity.
Defined.

Lemma paypal_webhook_cancellation_witness :
  exists u a,
    users alice_subscribed !! u = Some a /\ paypalSubscriptionId a = Some "I-SUB1"
    /\ paypal_webhook env_ok cancellation_event alice_subscribed =
         (Ok OK200,
          mkStore
            (<[u := mkAccount (Some free) (credits_balance a) (paypalSubscriptionId a)
                              (manualProCreditsGranted a)]> (users alice_subscribed))
            (credits_ledger alice_subscribed)
            (<[id cancellation_event := record_of cancellation_event]>
               (processed_webhooks alice_subscribed))).
Proof.
  apply (paypal_webhook_cancellation env_ok cancellation_event "I-SUB1" alice_subscribed);
    [split; reflexivity|reflexivity|reflexivity|reflexivity|discriminate|reflexivity|].
  exists "alice", (mkAccount (Some pro) (Some 43) (Some "I-SUB1") false).
  split; reflexivity.
Defined.

Lemma paypal_webhook_unhandled_witness :
  paypal_webhook env_ok dispute_event alice_subscribed =
    (Ok OK200,
     mkStore (users alice_subscribed) (credits_ledger alice_subscribed)
             (<[id dispute_event := record_of dispute_event]>
                (processed_webhooks alice_subscribed))).
Proof.
  apply (paypal_webhook_unhandled env_ok dispute_event alice_subscribed);
    [split; reflexivity|reflexivity|reflexivity|right; reflexivity].
Defined.

(** ** Authentication *)

(** X13. A request that [authenticate] turns away (no [Bearer] header, or a
    token that does not verify) is answered 401 with the same error text by
    every authenticated endpoint, before the store is read or written: no
    account is provisioned for it and nothing is charged. *)
Theorem unauthenticated_requests_touch_nothing (E : Env) (req : Request) (s : Store)
    (err : string) :
  authenticate E req = Unauthorized err ->
  generate_plan_precheck E req s = (Ok (Respond 401 (ErrorBody err)), s)
  /\ credits_balance_route E req s = (Ok (Failure 401 err), s)
  /\ usage_route E req s = (Ok (Failure 401 err), s)
  /\ put_preferences E req s = (Ok (Failure 401 err), s)
  /\ (forall ai older messages,
        chat_route E ai older req messages s = (Ok (ChatError 401 err), s)).
Proof.
  intros Hauth.
  unfold credits_balance_route, usage_route, put_preferences, chat_route.
  rewrite Hauth. repeat split.
  revert Hauth. unfold authenticate, generate_plan_precheck.
  destruct (authorization req) as [h|]; [|intros [= <-]; reflexivity].
  destruct (negb (String.prefix "Bearer " h)); [intros [= <-]; reflexivity|].
  destruct (verifyIdToken E (bearer_token h)); [discriminate|intros [= <-]; reflexivity].
Qed.

Lemma unauthenticated_requests_touch_nothing_witness :
  generate_plan_precheck env_bad_token (mkRequest (Some "Bearer expired") true) empty_store
    = (Ok (Respond 401 (ErrorBody "Unauthorized: Invalid token")), empty_store)
  /\ credits_balance_route env_bad_token (mkRequest (Some "Bearer expired") true) empty_store
     = (Ok (Failure 401 "Unauthorized: Invalid token"), empty_store)
  /\ usage_route env_bad_token (mkRequest (Some "Bearer expired") true) empty_store
     = (Ok (Failure 401 "Unauthorized: Invalid token"), empty_store)
  /\ put_preferences env_bad_token (mkRequest (Some "Bearer expired") true) empty_store
     = (Ok (Failure 401 "Unauthorized: Invalid token"), empty_store)
  /\ (forall ai older messages,
        chat_route env_bad_token ai older (mkRequest (Some "Bearer expired") true) messages
                   empty_store
        = (Ok (ChatError 401 "Unauthorized: Invalid token"), empty_store)).
Proof.
  apply (unauthenticated_requests_touch_nothing env_bad_token
           (mkRequest (Some "Bearer expired") true) empty_store).
  reflexivity.
Defined.

(** ** The credit endpoints *)

(** X14. For an authenticated request on a database that answers,
    [GET /api/credits/balance] and [GET /api/usage] both provision the
    account if needed and report the plan and balance that are stored when
    they return, with the allotment of the plan (3, or 40 for ['pro']) as
    [plan_credits] and [limit]; [uploadsThisMonth] is [limit - balance], so
    that [uploadsThisMonth + remaining = limit], and it is negative when the
    balance exceeds the allotment. *)
Theorem credit_endpoints_report_stored (E : Env) (req : Request) (uid : string) (s : Store) :
  authenticate E req = Authenticated uid ->
  db E = true ->
  fails E UsersGet = false -> fails E UsersSet = false ->
  fails E LedgerAdd = false -> fails E UsersUpdate = false ->
  exists d s',
    getCreditsBalance E uid s = (Ok (Some d), s')
    /\ users s' !! uid = Some d
    /\ credits_balance_route E req s =
         (Ok (Json (mkBalanceInfo (plan d) (credits_balance d)
                                  (PLAN_CREDITS (plan_or (plan d) free)))), s')
    /\ (exists usage,
          usage_route E req s = (Ok (Json usage), s')
          /\ usage_plan usage = plan d
          /\ limit usage = PLAN_CREDITS (plan_or (plan d) free)
          /\ remaining usage = credits_balance d
          /\ usage_credits_balance usage = credits_balance d
          /\ forall b, credits_balance d = Some b ->
               exists uploads,
                 uploadsThisMonth usage = Some uploads
                 /\ uploads + b = limit usage
                 /\ (uploads < 0 <-> limit usage < b)).
Proof.
  intros Hauth Hdb Hget Hset Hadd Hupd.
  destruct (getCreditsBalance_returns_stored E uid s Hdb Hget Hset Hadd Hupd)
    as (d & s' & Hrun & Hstored).
  exists d, s'. split; [exact Hrun|]. split; [exact Hstored|].
  unfold credits_balance_route, usage_route. rewrite Hauth, Hdb. simpl.
  unfold try_catch, bind, ret. rewrite Hrun. split; [reflexivity|].
  eexists. split; [reflexivity|]. simpl. repeat split.
  intros b ->. simpl. eexists. split; [reflexivity|]. lia.
Qed.

Lemma credit_endpoints_report_stored_witness :
  exists d s',
    getCreditsBalance env_ok "alice" alice_subscribed = (Ok (Some d), s')
    /\ users s' !! "alice" = Some d
    /\ credits_balance_route env_ok (mkRequest (Some "Bearer alice") false) alice_subscribed =
         (Ok (Json (mkBalanceInfo (plan d) (credits_balance d)
                                  (PLAN_CREDITS (plan_or (plan d) free)))), s')
    /\ (exists usage,
          usage_route env_ok (mkRequest (Some "Bearer alice") false) alice_subscribed
            = (Ok (Json usage), s')
          /\ usage_plan usage = plan d
          /\ limit usage = PLAN_CREDITS (plan_or (plan d) free)
          /\ remaining usage = credits_balance d
          /\ usage_credits_balance usage = credits_balance d
          /\ forall b, credits_balance d = Some b ->
               exists uploads,
                 uploadsThisMonth usage = Some uploads
                 /\ uploads + b = limit usage
                 /\ (uploads < 0 <-> limit usage < b)).
Proof.
  apply (credit_endpoints_report_stored env_ok (mkRequest (Some "Bearer alice") false)
           "alice" alice_subscribed); reflexivity.
Defined.

(** ** Accounts created by the preferences endpoint *)

(** X15. [PUT /api/preferences] never changes the ledger, the webhook
    records or the credit fields of an existing account: it leaves the store
    as it was, or adds a document without plan and balance for an
    authenticated user who had none. *)
Theorem put_preferences_store (E : Env) (req : Request) (s : Store) :
  snd (put_preferences E req s) = s
  \/ exists uid,
       authenticate E req = Authenticated uid /\ users s !! uid = None
       /\ snd (put_preferences E req s) =
            mkStore (<[uid := mkAccount None None None false]> (users s))
                    (credits_ledger s) (processed_webhooks s).
Proof.
  unfold put_preferences. destruct (authenticate E req) as [err|uid]; [left; reflexivity|].
  destruct (db E); simpl; [|left; reflexivity].
  unfold users_set_merge, await, try_catch, bind, ret, throw.
  destruct (fails E UsersSet); simpl; [left; reflexivity|].
  destruct (users s !! uid) as [a|] eqn:Hu.
  - left. unfold with_users. rewrite (insert_id _ _ _ Hu). destruct s; reflexivity.
  - right. exists uid. split; [reflexivity|]. split; [exact Hu|reflexivity].
Qed.

(** X16. A user whose first request is [PUT /api/preferences] never
    receives the free credits: the document the endpoint creates makes
    [getCreditsBalance] skip the lazy initialisation, so the balance query
    returns an account without plan and balance and writes no ledger entry;
    the [checkCredits] gate and the pre-check of [/api/generate-plan] let
    the user through all the same, and the deduction that follows fails with
    ['Insufficient credits'] (402 after the plan was generated). *)
Theorem preferences_first_user (E : Env) (req : Request) (uid : string) (s : Store) :
  healthy E ->
  authenticate E req = Authenticated uid ->
  users s !! uid = None ->
  let bare := mkAccount None None None false in
  let s1 := mkStore (<[uid := bare]> (users s)) (credits_ledger s) (processed_webhooks s) in
  put_preferences E req s = (Ok (Json tt), s1)
  /\ getCreditsBalance E uid s1 = (Ok (Some bare), s1)
  /\ checkCredits E req s1 = (Ok (Next (Some (bare, uid))), s1)
  /\ (file req = true ->
      generate_plan_precheck E req s1 = (Ok (Next (Some (bare, uid))), s1))
  /\ (forall d,
        deductCredits E uid 1 d None s1 =
          (Ok (mkOpResult false false None (Some "Insufficient credits")), s1))
  /\ (forall f g,
        key_used (Some ("gen_" +:+ g)) (credits_ledger s) = false ->
        generate_plan_charge E uid f g s1 = (Ok (Failure 402 "Credit deduction failed"), s1)).
Proof.
  intros [Hdb Hok] Hauth Hnone bare s1.
  assert (Hget : getCreditsBalance E uid s1 = (Ok (Some bare), s1)).
  { unfold getCreditsBalance, s1. rewrite Hdb. run. rewrite Hok. cbn [users].
    rewrite lookup_insert_eq. reflexivity. }
  assert (Hdeduct : forall d k,
            (truthy k = true -> key_used k (credits_ledger s) = false) ->
            deductCredits E uid 1 d k s1 =
              (Ok (mkOpResult false false None (Some "Insufficient credits")), s1)).
  { intros d k Hk. rewrite deductCredits_fresh;
      [|exact Hdb|intros Ht; split; [apply Hok|apply Hk; exact Ht]].
    unfold deduct_transaction, deduct_body, s1. run. rewrite Hok. cbn [users].
    rewrite lookup_insert_eq. reflexivity. }
  split; [|split; [exact Hget|split; [|split; [|split]]]].
  - unfold put_preferences. rewrite Hauth, Hdb. simpl.
    unfold users_set_merge, await, try_catch, bind, ret. rewrite Hok, Hnone. reflexivity.
  - revert Hauth. unfold authenticate, checkCredits.
    destruct (authorization req) as [h|]; [|discriminate].
    destruct (String.prefix "Bearer " h); simpl; [|discriminate].
    destruct (verifyIdToken E (bearer_token h)) as [u|]; [|discriminate].
    intros [= ->]. rewrite Hdb. simpl. unfold try_catch, bind, ret. rewrite Hget. reflexivity.
  - intros Hfile. revert Hauth. unfold authenticate, generate_plan_precheck.
    destruct (authorization req) as [h|]; [|discriminate].
    destruct (String.prefix "Bearer " h); simpl; [|discriminate].
    destruct (verifyIdToken E (bearer_token h)) as [u|]; [|discriminate].
    intros [= ->]. rewrite Hfile, Hdb. simpl. unfold bind, ret. rewrite Hget. reflexivity.
  - intros d. apply Hdeduct. discriminate.
  - intros f g Hfresh. unfold generate_plan_charge. rewrite Hdb.
    unfold try_catch, bind, ret. rewrite Hdeduct by (intros _; exact Hfresh). reflexivity.
Qed.

Lemma preferences_first_user_witness :
  let bare := mkAccount None None None false in
  let s1 := mkStore (<["bob" := bare]> (users alice_store)) (credits_ledger alice_store)
                    (processed_webhooks alice_store) in
  put_preferences env_ok (mkRequest (Some "Bearer bob") true) alice_store = (Ok (Json tt), s1)
  /\ getCreditsBalance env_ok "bob" s1 = (Ok (Some bare), s1)
  /\ checkCredits env_ok (mkRequest (Some "Bearer bob") true) s1
     = (Ok (Next (Some (bare, "bob"))), s1)
  /\ (file (mkRequest (Some "Bearer bob") true) = true ->
      generate_plan_precheck env_ok (mkRequest (Some "Bearer bob") true) s1
      = (Ok (Next (Some (bare, "bob"))), s1))
  /\ (forall d,
        deductCredits env_ok "bob" 1 d None s1 =
          (Ok (mkOpResult false false None (Some "Insufficient credits")), s1))
  /\ (forall f g,
        key_used (Some ("gen_" +:+ g)) (credits_ledger alice_store) = false ->
        generate_plan_charge env_ok "bob" f g s1
        = (Ok (Failure 402 "Credit deduction failed"), s1)).
Proof.
  apply (preferences_first_user env_ok (mkRequest (Some "Bearer bob") true) "bob" alice_store);
    [split; reflexivity|reflexivity|reflexivity].
Defined.

(** ** Charging after the gate *)

(** What the pre-check of [/api/generate-plan] has established when it lets
    a request through with user data attached. *)
Lemma generate_plan_precheck_passed (E : Env) (req : Request) (s s' : Store) (d : Account)
    (uid : string) :
  generate_plan_precheck E req s = (Ok (Next (Some (d, uid))), s') ->
  getCreditsBalance E uid s = (Ok (Some d), s') /\ num_le0 (credits_balance d) = false.
Proof.
  unfold generate_plan_precheck.
  destruct (authorization req) as [h|]; [|discriminate].
  destruct (negb (String.prefix "Bearer " h)); [discriminate|].
  destruct (verifyIdToken E (bearer_token h)) as [u|]; [|discriminate].
  destruct (negb (file req)); [discriminate|].
  destruct (db E); [|discriminate].
  unfold bind, ret.
  destruct (getCreditsBalance E u s) as [[[d0|]|e] s0] eqn:Hrun; try discriminate.
  destruct (num_le0 (credits_balance d0)) eqn:Hle; [discriminate|].
  intros [= <- <- <-]. split; [exact Hrun|exact Hle].
Qed.

(** X17. The gate and the charge of [/api/generate-plan] fit together: when
    the pre-check has let a request through for an account with a balance
    [b], then [b > 0], and (nothing else happening in between, the database
    answering) the deduction keyed by the new generation succeeds, leaves the
    balance [b - 1 >= 0], and the plan is sent; charging the same generation
    again sends the plan without a second deduction. *)
Theorem gate_then_charge (E : Env) (req : Request) (s s' : Store) (d : Account)
    (uid f g : string) (b : Z) :
  healthy E ->
  generate_plan_precheck E req s = (Ok (Next (Some (d, uid))), s') ->
  credits_balance d = Some b ->
  key_used (Some ("gen_" +:+ g)) (credits_ledger s') = false ->
  let charged := deducted uid 1 ("Study plan generation: " +:+ f) (Some ("gen_" +:+ g)) d s' in
  0 < b
  /\ generate_plan_charge E uid f g s' = (Ok (Json tt), charged)
  /\ balance_of charged uid = b - 1
  /\ generate_plan_charge E uid f g charged = (Ok (Json tt), charged).
Proof.
  intros [Hdb Hok] Hpass Hb Hfresh charged.
  destruct (generate_plan_precheck_passed E req s s' d uid Hpass) as [Hrun Hle].
  assert (Hpos : 0 < b).
  { rewrite Hb in Hle. simpl in Hle. apply Z.leb_gt in Hle. exact Hle. }
  assert (Hstored : users s' !! uid = Some d).
  { destruct (getCreditsBalance_returns_stored E uid s Hdb (Hok _) (Hok _) (Hok _) (Hok _))
      as (d0 & s0 & Hrun0 & Hs0).
    rewrite Hrun in Hrun0. injection Hrun0 as <- <-. exact Hs0. }
  split; [exact Hpos|]. split; [|split].
  - unfold generate_plan_charge. rewrite Hdb. unfold try_catch, bind, ret.
    rewrite deductCredits_fresh by (exact Hdb || (intros _; split; [apply Hok|exact Hfresh])).
    rewrite (deduct_transaction_commits E uid 1 _ _ s' d (Hok _) (Hok _) Hstored)
      by (rewrite Hb, num_or_Some_0; lia).
    rewrite Hb, num_or_Some_0. simpl. unfold charged, deducted.
    rewrite Hb, num_or_Some_0. reflexivity.
  - unfold charged, deducted, balance_of. simpl. rewrite lookup_insert_eq. simpl.
    rewrite Hb, !num_or_Some_0. reflexivity.
  - unfold generate_plan_charge, deductCredits. rewrite Hdb.
    unfold try_catch, bind, ret, ledger_where_key, await. simpl.
    rewrite (Hok LedgerQuery). unfold charged, deducted. simpl.
    rewrite key_used_snoc. simpl. rewrite bool_decide_eq_true_2 by reflexivity.
    rewrite orb_true_r. reflexivity.
Qed.

Lemma gate_then_charge_witness :
  let charged := deducted "alice" 1 ("Study plan generation: " +:+ "notes.pdf")
                          (Some ("gen_" +:+ "G1"))
                          (mkAccount (Some free) (Some 3) None false) alice_store in
  0 < 3
  /\ generate_plan_charge env_ok "alice" "notes.pdf" "G1" alice_store = (Ok (Json tt), charged)
  /\ balance_of charged "alice" = 3 - 1
  /\ generate_plan_charge env_ok "alice" "notes.pdf" "G1" charged = (Ok (Json tt), charged).
Proof.
  apply (gate_then_charge env_ok (mkRequest (Some "Bearer alice") true) alice_store
           alice_store (mkAccount (Some free) (Some 3) None false) "alice" "notes.pdf" "G1" 3);
    [split; reflexivity|reflexivity|reflexivity|reflexivity].
Defined.

(** ** The chat endpoint *)

Arguments Nat.leb : simpl never.

Lemma recent_chats_snoc (u : string) (older : nat) (l : list LedgerEntry) (e : LedgerEntry) :
  (older <= length l)%nat ->
  recent_chats u older (l ++ [e]) =
    (recent_chats u older l
     + (if decide (userId e = u /\ type e = deduction /\ description e = CHAT_DESCRIPTION)
        then 1 else 0))%nat.
Proof.
  intros Hle. unfold recent_chats. rewrite drop_app_le by exact Hle.
  rewrite filter_app, length_app. f_equal.
  destruct (decide (userId e = u /\ type e = deduction /\ description e = CHAT_DESCRIPTION))
    as [He|He].
  - rewrite (filter_cons_True _ e [] He). reflexivity.
  - rewrite (filter_cons_False _ e [] He). reflexivity.
Qed.

(** Whatever the request, the provider and the database do, [POST /api/chat]
    either leaves the store as it was, or has charged one credit to the
    authenticated user, who was below the rate limit. *)
Lemma chat_route_cases (E : Env) (ai : list ChatMessage -> AiOutcome) (older : nat)
    (req : Request) (messages : option (list ChatMessage)) (s : Store) :
  snd (chat_route E ai older req messages s) = s
  \/ exists uid acct,
       authenticate E req = Authenticated uid
       /\ users s !! uid = Some acct
       /\ (recent_chats uid older (credits_ledger s) < 20)%nat
       /\ snd (chat_route E ai older req messages s) =
            deducted uid 1 CHAT_DESCRIPTION None acct s.
Proof.
  unfold chat_route. destruct (authenticate E req) as [err|uid]; [left; reflexivity|].
  destruct messages as [msgs|]; [|left; reflexivity].
  destruct (negb (truthy (Some uid))); [left; reflexivity|].
  rewrite try_catch_read_only_handler by (intros e; apply ret_read_only).
  unfold count_recent_chats, await, bind, ret, throw.
  destruct (db E); simpl; [|left; reflexivity].
  destruct (fails E LedgerQuery); simpl; [left; reflexivity|].
  destruct (Nat.leb_spec 20 (recent_chats uid older (credits_ledger s))) as [Hlim|Hlim];
    simpl; [left; reflexivity|].
  destruct (deductCredits_cases E uid 1 CHAT_DESCRIPTION None s)
    as [[Hs _]|(acct & Hu & _ & Hrun)].
  - left. destruct (deductCredits E uid 1 CHAT_DESCRIPTION None s) as [[r|e] s0];
      simpl in *; [|exact Hs].
    destruct (negb (success r)); simpl; [exact Hs|].
    destruct (length (List.filter valid_message msgs) =? 0)%nat; simpl; [exact Hs|].
    destruct (ai (List.filter valid_message msgs)); exact Hs.
  - right. exists uid, acct. split; [reflexivity|]. split; [exact Hu|]. split; [exact Hlim|].
    rewrite Hrun. simpl.
    destruct (length (List.filter valid_message msgs) =? 0)%nat; simpl; [reflexivity|].
    destruct (ai (List.filter valid_message msgs)); reflexivity.
Qed.

(** [POST /api/chat] of an authenticated user is the query for the recent
    chat deductions followed by the rest. *)
Lemma chat_route_alone (E : Env) (ai : list ChatMessage -> AiOutcome) (older : nat)
    (req : Request) (msgs : list ChatMessage) (uid : string) (s : Store) :
  authenticate E req = Authenticated uid -> uid <> "" ->
  chat_route E ai older req (Some msgs) s
    = alone (count_recent_chats E uid older) (chat_resume E ai uid msgs) s.
Proof.
  intros Hauth Huid. unfold chat_route, alone, chat_resume.
  rewrite Hauth, (truthy_Some uid Huid). simpl. unfold try_catch, bind, throw.
  destruct (count_recent_chats E uid older s) as [[n|e] s1]; reflexivity.
Qed.

(** Below the limit, with the balance covering it and the database
    answering, the rest of the request charges one credit. *)
Lemma chat_resume_charges (E : Env) (ai : list ChatMessage -> AiOutcome) (uid : string)
    (msgs : list ChatMessage) (n : nat) (s : Store) (acct : Account) :
  healthy E -> (n < 20)%nat ->
  users s !! uid = Some acct -> 1 <= num_or (credits_balance acct) 0 ->
  snd (chat_resume E ai uid msgs (Ok n) s) = deducted uid 1 CHAT_DESCRIPTION None acct s.
Proof.
  intros [Hdb Hok] Hn Hu Hb. unfold chat_resume.
  rewrite try_catch_read_only_handler by (intros e; apply ret_read_only).
  destruct (Nat.leb_spec 20 n); [lia|]. unfold bind.
  rewrite deductCredits_fresh by (assumption || discriminate).
  rewrite (deduct_transaction_commits E uid 1 CHAT_DESCRIPTION None s acct
             (Hok TxnGet) (Hok TxnCommit) Hu Hb).
  simpl.
  destruct (length (List.filter valid_message msgs) =? 0)%nat; simpl; [reflexivity|].
  destruct (ai (List.filter valid_message msgs)); reflexivity.
Qed.

(** X18. The rate limit of [POST /api/chat] binds requests that do not
    overlap, and only those.  A request of a user with 20 or more chat
    deductions within the last hour is answered 429 and charges nothing.  A
    request that runs with no other request in between, whatever it
    contains and whatever fails, leaves no user's number of chat deductions
    within the window above 20.  The count and the deduction are separate
    awaited calls: when two requests of a user with 19 chat deductions in
    the window both get their count before either deducts, both are charged
    and the user has 21 chat deductions in the window. *)
Theorem chat_rate_limit (E : Env) (ai : list ChatMessage -> AiOutcome) (older : nat)
    (req : Request) (messages : option (list ChatMessage)) (s : Store) :
  (older <= length (credits_ledger s))%nat ->
  (forall uid msgs,
     authenticate E req = Authenticated uid -> uid <> "" -> messages = Some msgs ->
     db E = true -> fails E LedgerQuery = false ->
     (20 <= recent_chats uid older (credits_ledger s))%nat ->
     chat_route E ai older req messages s = (Ok (ChatError 429 "Rate limit exceeded"), s))
  /\ (forall v,
        (recent_chats v older (credits_ledger s) <= 20)%nat ->
        (recent_chats v older (credits_ledger (snd (chat_route E ai older req messages s)))
         <= 20)%nat)
  /\ (forall uid msgs ai' msgs' acct,
        healthy E -> uid <> "" ->
        users s !! uid = Some acct -> 2 <= num_or (credits_balance acct) 0 ->
        recent_chats uid older (credits_ledger s) = 19%nat ->
        let both :=
          overlap (count_recent_chats E uid older) (chat_resume E ai uid msgs)
                  (count_recent_chats E uid older) (chat_resume E ai' uid msgs') s in
        recent_chats uid older (credits_ledger (snd both)) = 21%nat
        /\ balance_of (snd both) uid = num_or (credits_balance acct) 0 - 2).
Proof.
  intros Holder. split; [|split].
  - intros uid msgs Hauth Huid -> Hdb Hq Hlim. unfold chat_route.
    rewrite Hauth, (truthy_Some uid Huid). simpl.
    unfold count_recent_chats, await, try_catch, bind, ret. rewrite Hdb, Hq. simpl.
    destruct (Nat.leb_spec 20 (recent_chats uid older (credits_ledger s))); [reflexivity|lia].
  - intros v Hv.
    destruct (chat_route_cases E ai older req messages s)
      as [->|(uid & acct & _ & _ & Hbelow & ->)]; [exact Hv|].
    unfold deducted. simpl. rewrite recent_chats_snoc by exact Holder. simpl.
    destruct (decide (uid = v /\ deduction = deduction /\ CHAT_DESCRIPTION = CHAT_DESCRIPTION))
      as [[<- _]|_]; lia.
  - intros uid msgs ai' msgs' acct Hhealthy Huid Hu Hb Hcount both.
    pose proof Hhealthy as [Hdb Hok].
    assert (Hsnd : snd both =
      deducted uid 1 CHAT_DESCRIPTION None
               (set_credits_balance (num_or (credits_balance acct) 0 - 1) acct)
               (deducted uid 1 CHAT_DESCRIPTION None acct s)).
    { unfold both, overlap, count_recent_chats, await. rewrite Hdb, (Hok LedgerQuery). simpl.
      rewrite Hcount.
      pose proof (chat_resume_charges E ai uid msgs 19 s acct Hhealthy) as H1.
      destruct (chat_resume E ai uid msgs (Ok 19%nat) s) as [r1 s3]. simpl in H1.
      rewrite H1 by (assumption || lia).
      pose proof (chat_resume_charges E ai' uid msgs' 19
                    (deducted uid 1 CHAT_DESCRIPTION None acct s)
                    (set_credits_balance (num_or (credits_balance acct) 0 - 1) acct)
                    Hhealthy) as H2.
      destruct (chat_resume E ai' uid msgs' (Ok 19%nat)
                  (deducted uid 1 CHAT_DESCRIPTION None acct s)) as [r2 s4].
      simpl in H2. simpl. apply H2.
      - lia.
      - unfold deducted. cbn [users]. apply lookup_insert_eq.
      - unfold set_credits_balance. simpl. rewrite num_or_Some_0. lia. }
    rewrite Hsnd. unfold deducted, set_credits_balance, balance_of. simpl.
    rewrite !num_or_Some_0. rewrite lookup_insert_eq. simpl. rewrite num_or_Some_0.
    split; [|lia].
    rewrite recent_chats_snoc by (rewrite length_app; simpl; lia).
    rewrite recent_chats_snoc by exact Holder. rewrite Hcount. simpl.
    rewrite !decide_True by (repeat split). reflexivity.
Qed.

(** Twenty chat deductions of ["alice"] after her initial grant; and
    nineteen, with 5 credits left, when two of her requests overlap. *)
Lemma chat_rate_limit_witness :
  let chat := mkLedgerEntry "alice" (-1) deduction CHAT_DESCRIPTION None None (Some 0) in
  let busy := mkStore (users alice_store) (credits_ledger alice_store ++ replicate 20 chat) ∅ in
  let near :=
    mkStore {[ "alice" := mkAccount (Some pro) (Some 5) None true ]}
            (credits_ledger alice_store ++ replicate 19 chat) ∅ in
  chat_route env_ok (fun _ => AiUnreachable) 1 (mkRequest (Some "Bearer alice") false)
             (Some [mkChatMessage (Some "user") (Some "hello")]) busy
    = (Ok (ChatError 429 "Rate limit exceeded"), busy)
  /\ (recent_chats "alice" 1
        (credits_ledger
           (snd (chat_route env_ok (fun _ => AiUnreachable) 1
                            (mkRequest (Some "Bearer alice") false)
                            (Some [mkChatMessage (Some "user") (Some "hello")]) busy)))
      <= 20)%nat
  /\ (let both :=
        overlap (count_recent_chats env_ok "alice" 1)
                (chat_resume env_ok (fun _ => AiUnreachable) "alice"
                             [mkChatMessage (Some "user") (Some "hello")])
                (count_recent_chats env_ok "alice" 1)
                (chat_resume env_ok (fun _ => AiMessage "hi") "alice"
                             [mkChatMessage (Some "user") (Some "again")]) near in
      recent_chats "alice" 1 (credits_ledger (snd both)) = 21%nat
      /\ balance_of (snd both) "alice" = 3).
Proof.
  intros chat busy near.
  split; [|split].
  - assert (Holder : (1 <= length (credits_ledger busy))%nat) by (vm_compute; lia).
    destruct (chat_rate_limit env_ok (fun _ => AiUnreachable) 1
                (mkRequest (Some "Bearer alice") false)
                (Some [mkChatMessage (Some "user") (Some "hello")]) busy Holder)
      as [Hreject _].
    apply (Hreject "alice" [mkChatMessage (Some "user") (Some "hello")]);
      [reflexivity|discriminate|reflexivity|reflexivity|reflexivity|vm_compute; lia].
  - assert (Holder : (1 <= length (credits_ledger busy))%nat) by (vm_compute; lia).
    destruct (chat_rate_limit env_ok (fun _ => AiUnreachable) 1
                (mkRequest (Some "Bearer alice") false)
                (Some [mkChatMessage (Some "user") (Some "hello")]) busy Holder)
      as (_ & Hkeep & _).
    apply Hkeep. vm_compute. lia.
  - assert (Holder : (1 <= length (credits_ledger near))%nat) by (vm_compute; lia).
    destruct (chat_rate_limit env_ok (fun _ => AiUnreachable) 1
                (mkRequest (Some "Bearer alice") false)
                (Some [mkChatMessage (Some "user") (Some "hello")]) near Holder)
      as (_ & _ & Hrace).
    apply (Hrace "alice" [mkChatMessage (Some "user") (Some "hello")]
                 (fun _ => AiMessage "hi") [mkChatMessage (Some "user") (Some "again")]
                 (mkAccount (Some pro) (Some 5) None true));
      [split; reflexivity|discriminate|reflexivity|vm_compute; discriminate|reflexivity].
Defined.

(** X19. [POST /api/chat] charges first: for an authenticated user below
    the rate limit with a balance [b >= 1], on a database that answers, one
    credit is deducted whatever the messages are and whatever the AI provider
    does.  The request is answered with the message and
    [creditsRemaining = b - 1] when some message is valid and the provider
    delivers; with 400 when no message has both a role and a content; with
    the provider's status or 500 when the provider fails; the credit stays
    deducted in all of these. *)
Theorem chat_charges_first (E : Env) (ai : list ChatMessage -> AiOutcome) (older : nat)
    (req : Request) (msgs : list ChatMessage) (uid : string) (s : Store) (acct : Account)
    (b : Z) :
  healthy E ->
  authenticate E req = Authenticated uid -> uid <> "" ->
  (recent_chats uid older (credits_ledger s) < 20)%nat ->
  users s !! uid = Some acct -> credits_balance acct = Some b -> 1 <= b ->
  let charged := deducted uid 1 CHAT_DESCRIPTION None acct s in
  snd (chat_route E ai older req (Some msgs) s) = charged
  /\ balance_of charged uid = b - 1
  /\ (List.filter valid_message msgs = [] ->
      fst (chat_route E ai older req (Some msgs) s)
      = Ok (ChatError 400 "No valid messages provided."))
  /\ (List.filter valid_message msgs <> [] ->
      fst (chat_route E ai older req (Some msgs) s)
      = Ok (match ai (List.filter valid_message msgs) with
            | AiMessage text => ChatOk text (Some (b - 1))
            | AiHttpError status => ChatError status "AI Provider Error"
            | AiNoChoices | AiUnreachable => ChatError 500 "Failed to process chat request"
            end)).
Proof.
  intros [Hdb Hok] Hauth Huid Hbelow Hu Hb Hle charged.
  assert (Hrun : chat_route E ai older req (Some msgs) s =
            (Ok (if (length (List.filter valid_message msgs) =? 0)%nat
                 then ChatError 400 "No valid messages provided."
                 else match ai (List.filter valid_message msgs) with
                      | AiMessage text => ChatOk text (Some (b - 1))
                      | AiHttpError status => ChatError status "AI Provider Error"
                      | AiNoChoices | AiUnreachable =>
                          ChatError 500 "Failed to process chat request"
                      end), charged)).
  { unfold chat_route. rewrite Hauth, (truthy_Some uid Huid). simpl.
    unfold count_recent_chats, await, try_catch, bind, ret. rewrite Hdb, (Hok LedgerQuery).
    simpl.
    destruct (Nat.leb_spec 20 (recent_chats uid older (credits_ledger s))); [lia|].
    rewrite deductCredits_fresh by (exact Hdb || discriminate).
    rewrite (deduct_transaction_commits E uid 1 _ _ s acct (Hok _) (Hok _) Hu)
      by (rewrite Hb, num_or_Some_0; exact Hle).
    rewrite Hb, num_or_Some_0. simpl. unfold charged, deducted. rewrite Hb, num_or_Some_0.
    destruct (length (List.filter valid_message msgs) =? 0)%nat; [reflexivity|].
    destruct (ai (List.filter valid_message msgs)); reflexivity. }
  rewrite Hrun. simpl. split; [reflexivity|]. split; [|split].
  - unfold charged, deducted, balance_of. simpl. rewrite lookup_insert_eq. simpl.
    rewrite Hb, !num_or_Some_0. reflexivity.
  - intros ->. reflexivity.
  - intros Hvalid. destruct (List.filter valid_message msgs); [contradiction|reflexivity].
Qed.

Lemma chat_charges_first_witness :
  let charged := deducted "alice" 1 CHAT_DESCRIPTION None
                          (mkAccount (Some free) (Some 3) None false) alice_store in
  snd (chat_route env_ok (fun _ => AiUnreachable) 1 (mkRequest (Some "Bearer alice") false)
                  (Some [mkChatMessage (Some "user") None]) alice_store) = charged
  /\ balance_of charged "alice" = 3 - 1
  /\ (List.filter valid_message [mkChatMessage (Some "user") None] = [] ->
      fst (chat_route env_ok (fun _ => AiUnreachable) 1 (mkRequest (Some "Bearer alice") false)
                      (Some [mkChatMessage (Some "user") None]) alice_store)
      = Ok (ChatError 400 "No valid messages provided."))
  /\ (List.filter valid_message [mkChatMessage (Some "user") None] <> [] ->
      fst (chat_route env_ok (fun _ => AiUnreachable) 1 (mkRequest (Some "Bearer alice") false)
                      (Some [mkChatMessage (Some "user") None]) alice_store)
      = Ok (match (fun _ : list ChatMessage => AiUnreachable)
                    (List.filter valid_message [mkChatMessage (Some "user") None]) with
            | AiMessage text => ChatOk text (Some (3 - 1))
            | AiHttpError status => ChatError status "AI Provider Error"
            | AiNoChoices | AiUnreachable => ChatError 500 "Failed to process chat request"
            end)).
Proof.
  apply (chat_charges_first env_ok (fun _ => AiUnreachable) 1
           (mkRequest (Some "Bearer alice") false) [mkChatMessage (Some "user") None]
           "alice" alice_store (mkAccount (Some free) (Some 3) None false) 3);
    [split; reflexivity|reflexivity|discriminate|vm_compute; lia|reflexivity|reflexivity|lia].
Defined.

(** X20. [POST /api/chat] for a user without credits, or without an
    account, is answered 403 ['Insufficient credits'] whatever the provider
    would say, and changes nothing: unlike the balance query, it does not
    provision an account. *)
Theorem chat_without_credits (E : Env) (ai : list ChatMessage -> AiOutcome) (older : nat)
    (req : Request) (msgs : list ChatMessage) (uid : string) (s : Store) :
  healthy E ->
  authenticate E req = Authenticated uid -> uid <> "" ->
  (recent_chats uid older (credits_ledger s) < 20)%nat ->
  balance_of s uid < 1 ->
  chat_route E ai older req (Some msgs) s = (Ok (ChatError 403 "Insufficient credits"), s).
Proof.
  intros [Hdb Hok] Hauth Huid Hbelow Hbal.
  unfold chat_route. rewrite Hauth, (truthy_Some uid Huid). simpl.
  unfold count_recent_chats, await, try_catch, bind, ret. rewrite Hdb, (Hok LedgerQuery).
  simpl. destruct (Nat.leb_spec 20 (recent_chats uid older (credits_ledger s))); [lia|].
  rewrite deductCredits_fresh by (exact Hdb || discriminate).
  unfold deduct_transaction, deduct_body. run. rewrite Hok.
  unfold balance_of in Hbal. destruct (users s !! uid) as [acct|]; simpl; [|reflexivity].
  destruct (Z.ltb_spec (num_or (credits_balance acct) 0) 1); [reflexivity|lia].
Qed.

Lemma chat_without_credits_witness :
  chat_route env_ok (fun _ => AiMessage "hi") 1 (mkRequest (Some "Bearer bob") false)
             (Some [mkChatMessage (Some "user") (Some "hello")]) alice_store
  = (Ok (ChatError 403 "Insufficient credits"), alice_store).
Proof.
  apply (chat_without_credits env_ok (fun _ => AiMessage "hi") 1
           (mkRequest (Some "Bearer bob") false) [mkChatMessage (Some "user") (Some "hello")]
           "bob" alice_store);
    [split; reflexivity|reflexivity|discriminate|vm_compute; lia|reflexivity].
Defined.

(** ** Webhook signature verification *)

(** X21. Signature verification fails closed: [verifyPayPalWebhook] accepts
    an event only when the client id and the webhook id are configured and
    PayPal answers ['SUCCESS']; with a credential missing, a call to PayPal
    failing, or any other verdict, the webhook handler (given a database
    handle) answers 401 and writes nothing, whatever the event. *)
Theorem webhook_verification_fails_closed (cfg : PayPalConfig) (api : Res string) (E : Env)
    (ev : Event) (s : Store) :
  (verifyPayPalWebhook cfg api = true <->
   truthy (clientId cfg) = true /\ truthy (webhookId cfg) = true /\ api = Ok "SUCCESS")
  /\ (signatureValid E = verifyPayPalWebhook cfg api -> db E = true ->
      truthy (clientId cfg) = false \/ truthy (webhookId cfg) = false
      \/ api <> Ok "SUCCESS" ->
      paypal_webhook E ev s = (Ok (Respond 401 (Text "Invalid signature")), s)).
Proof.
  assert (Hiff : verifyPayPalWebhook cfg api = true <->
                 truthy (clientId cfg) = true /\ truthy (webhookId cfg) = true
                 /\ api = Ok "SUCCESS").
  { unfold verifyPayPalWebhook.
    destruct (truthy (clientId cfg)), (truthy (webhookId cfg)); simpl;
      try (split; [discriminate|intros (? & ? & ?); discriminate]).
    destruct api as [st|e]; [|split; [discriminate|intros (_ & _ & ?); discriminate]].
    split.
    - intros Hst. apply String.eqb_eq in Hst. subst st. repeat split.
    - intros (_ & _ & [= ->]). reflexivity. }
  split; [exact Hiff|].
  intros Hsig Hdb Hbad.
  assert (Hfalse : signatureValid E = false).
  { rewrite Hsig. destruct (verifyPayPalWebhook cfg api) eqn:Hv; [|reflexivity].
    destruct (proj1 Hiff eq_refl) as (Hc & Hw & Ha).
    destruct Hbad as [Hbad|[Hbad|Hbad]]; congruence. }
  unfold paypal_webhook, webhook_handler. rewrite Hdb, Hfalse. reflexivity.
Qed.

Lemma webhook_verification_fails_closed_witness :
  paypal_webhook (mkEnv true (fun _ => false) (fun token => Some token)
                        (verifyPayPalWebhook (mkPayPalConfig None None None) (Ok "SUCCESS")))
                 activation_event alice_store
  = (Ok (Respond 401 (Text "Invalid signature")), alice_store).
Proof.
  apply (webhook_verification_fails_closed (mkPayPalConfig None None None) (Ok "SUCCESS")
           (mkEnv true (fun _ => false) (fun token => Some token)
                  (verifyPayPalWebhook (mkPayPalConfig None None None) (Ok "SUCCESS")))
           activation_event alice_store);
    [reflexivity|reflexivity|left; reflexivity].
Defined.

(** ** Progress statistics *)

Lemma count_status_cons (st : string) (p : ProgressItem) (l : list ProgressItem) :
  count_status st (p :: l) =
    ((if String.eqb (progress_status p) st then 1 else 0) + count_status st l)%nat.
Proof.
  unfold count_status. simpl. destruct (String.eqb (progress_status p) st); reflexivity.
Qed.

Lemma status_indicator (st : string) :
  ((if String.eqb st "completed" then 1 else 0) + (if String.eqb st "missed" then 1 else 0)
   + (if String.eqb st "rescheduled" then 1 else 0)
   + (if String.eqb st "pending" then 1 else 0) <= 1)%nat
  /\ (valid_status st = true ->
      ((if String.eqb st "completed" then 1 else 0) + (if String.eqb st "missed" then 1 else 0)
       + (if String.eqb st "rescheduled" then 1 else 0)
       + (if String.eqb st "pending" then 1 else 0) = 1)%nat).
Proof.
  unfold valid_status, validStatuses. cbn [existsb].
  destruct (String.eqb_spec st "completed") as [->|_]; [split; [|intros _]; reflexivity|].
  destruct (String.eqb_spec st "missed") as [->|_]; [split; [|intros _]; reflexivity|].
  destruct (String.eqb_spec st "rescheduled") as [->|_]; [split; [|intros _]; reflexivity|].
  destruct (String.eqb_spec st "pending") as [->|_]; [split; [|intros _]; reflexivity|].
  split; [simpl; lia|discriminate].
Qed.

(** X22. [computeProgressStats] never counts an item twice: the four
    counters add up to at most [totalItems], and to exactly [totalItems] when
    every item has one of the four statuses the mark endpoint accepts; for an
    empty list every counter and the completion rate are 0, without a
    division. *)
Theorem computeProgressStats_counts {R} (zero : R) (round_ratio : nat -> nat -> R)
    (progressItems : list ProgressItem) :
  let stats := computeProgressStats zero round_ratio progressItems in
  (completed stats + missed stats + rescheduled stats + pending stats <= totalItems stats)%nat
  /\ (forallb (fun p => valid_status (progress_status p)) progressItems = true ->
      (completed stats + missed stats + rescheduled stats + pending stats
       = totalItems stats)%nat)
  /\ (progressItems = [] ->
      stats = mkProgressStats 0%nat 0%nat 0%nat 0%nat 0%nat zero).
Proof.
  unfold computeProgressStats. cbn [totalItems completed missed rescheduled pending].
  split; [|split].
  - induction progressItems as [|p l IH]; [reflexivity|].
    rewrite !count_status_cons. cbn [length].
    pose proof (proj1 (status_indicator (progress_status p))). lia.
  - induction progressItems as [|p l IH]; [reflexivity|].
    cbn [forallb]. intros Hvalid. apply andb_true_iff in Hvalid as [Hp Hl].
    specialize (IH Hl). rewrite !count_status_cons. cbn [length].
    pose proof (proj2 (status_indicator (progress_status p)) Hp). lia.
  - intros ->. reflexivity.
Qed.

Lemma computeProgressStats_counts_witness :
  let stats := computeProgressStats 0%Z (fun c t => (Z.of_nat c * 100 / Z.of_nat t)%Z)
                 [mkProgressItem "Limits" "Day 1" "completed";
                  mkProgressItem "Series" "Day 3" "pending"] in
  (completed stats + missed stats + rescheduled stats + pending stats = totalItems stats)%nat.
Proof.
  apply (computeProgressStats_counts 0%Z (fun c t => (Z.of_nat c * 100 / Z.of_nat t)%Z)
           [mkProgressItem "Limits" "Day 1" "completed";
            mkProgressItem "Series" "Day 3" "pending"]).
  reflexivity.
Defined.

(** ** Day labels *)

Lemma first_digit_run_skip (p s : string) :
  all_chars (fun c => negb (is_digit c)) p = true ->
  first_digit_run (p ++ s) = first_digit_run s.
Proof.
  induction p as [|c p IH]; simpl; [reflexivity|].
  intros Hp. apply andb_true_iff in Hp as [Hc Hp].
  apply negb_true_iff in Hc. rewrite Hc. apply IH. exact Hp.
Qed.

Lemma digit_run_app (ds r : string) :
  all_chars is_digit ds = true ->
  (r = "" \/ exists c r', r = String c r' /\ is_digit c = false) ->
  digit_run (ds ++ r) = ds.
Proof.
  intros Hds Hr. induction ds as [|c ds IH]; simpl in *.
  - destruct Hr as [->|(c & r' & -> & Hc)]; simpl; [reflexivity|]. rewrite Hc. reflexivity.
  - apply andb_true_iff in Hds as [Hc Hds]. rewrite Hc, (IH Hds). reflexivity.
Qed.

Lemma string_of_uint_digits (d : Decimal.uint) :
  all_chars is_digit (NilEmpty.string_of_uint d) = true.
Proof. induction d; simpl; [reflexivity|..]; exact IHd. Qed.

Lemma parse_digits_uint (d : Decimal.uint) (acc : N) :
  parse_digits acc (NilEmpty.string_of_uint d) = uint_value d acc.
Proof.
  revert acc. induction d; intros acc; simpl; [reflexivity|..];
    rewrite IHd; f_equal; lia.
Qed.

Lemma uint_value_pos (d : Decimal.uint) (acc : positive) :
  uint_value d (Npos acc) = Npos (Pos.of_uint_acc d acc).
Proof.
  revert acc. induction d; intros acc; simpl; [reflexivity|..];
    rewrite <- IHd; f_equal; lia.
Qed.

Lemma uint_value_0 (d : Decimal.uint) : uint_value d 0 = Pos.of_uint d.
Proof.
  induction d; simpl; [reflexivity|exact IHd|..];
    match goal with
    | |- uint_value _ ?n = _ => change n with (Npos (N.succ_pos (N.pred n)))
    end; rewrite uint_value_pos; reflexivity.
Qed.

Lemma decimal_digits (n : N) :
  decimal n = NilEmpty.string_of_uint (N.to_uint n) /\ decimal n <> "".
Proof.
  unfold decimal, NilZero.string_of_uint. destruct n as [|p]; [split; [reflexivity|discriminate]|].
  simpl. pose proof (DecimalPos.Unsigned.to_uint_nonnil p) as Hnil.
  destruct (Pos.to_uint p) eqn:Hp; [contradiction|..]; split; (reflexivity || discriminate).
Qed.

(** X23. [parseDayNumber] is 1 for a label without a digit, and otherwise
    reads the first number of the label and ignores what surrounds it: for
    text without digits, then the decimal numeral of [n] (below [2^53], where
    JavaScript numbers are exact), then nothing or text that starts with a
    non-digit, the result is [n].  So ["Day 12"] and ["Day 12: review"] both
    give 12, and ["Day 0"] gives 0, not the default. *)
Theorem parseDayNumber_reads_first_number :
  (forall s, all_chars (fun c => negb (is_digit c)) s = true -> parseDayNumber s = 1%N)
  /\ (forall p n r,
        (n < 2 ^ 53)%N ->
        all_chars (fun c => negb (is_digit c)) p = true ->
        (r = "" \/ exists c r', r = String c r' /\ is_digit c = false) ->
        parseDayNumber (p ++ decimal n ++ r)%string = n).
Proof.
  split.
  - intros s Hs. unfold parseDayNumber.
    replace (first_digit_run s) with (@None string); [reflexivity|].
    induction s as [|c s IH]; simpl in *; [reflexivity|].
    apply andb_true_iff in Hs as [Hc Hs]. apply negb_true_iff in Hc.
    rewrite Hc. apply IH. exact Hs.
  - intros p n r _ Hp Hr. unfold parseDayNumber. rewrite first_digit_run_skip by exact Hp.
    destruct (decimal_digits n) as [Hdec Hne].
    pose proof (string_of_uint_digits (N.to_uint n)) as Hdigits. rewrite <- Hdec in Hdigits.
    destruct (decimal n) as [|c ds] eqn:Hd; [contradiction|].
    simpl in Hdigits |- *. apply andb_true_iff in Hdigits as [Hc Hds].
    rewrite Hc, (digit_run_app ds r Hds Hr).
    change (parse_digits 0 (String c ds) = n). rewrite Hdec, parse_digits_uint.
    rewrite uint_value_0. apply DecimalN.Unsigned.of_to.
Qed.

Lemma parseDayNumber_reads_first_number_witness :
  parseDayNumber "Review day" = 1%N
  /\ parseDayNumber ("Day " ++ decimal 12 ++ ": review")%string = 12%N.
Proof.
  destruct parseDayNumber_reads_first_number as [Hdefault Hnumber].
  split.
  - apply Hdefault. reflexivity.
  - apply (Hnumber "Day " 12%N ": review"); [reflexivity|reflexivity|].
    right. exists ":"%char, " review". split; reflexivity.
Defined.

(** ** Mastery scores *)

(** X24. The mastery update of the quiz endpoint keeps its data in range,
    whatever score the weighting yields: a level between 1 and 3 stays
    between 1 and 3 and moves by at most one step; a history of at most 20
    answers stays at most 20 long and ends with the new answer; a correct
    answer resets the failure counter and never escalates; a wrong answer
    adds one to it, so that three wrong answers in a row always escalate. *)
Theorem update_mastery_in_range (weighted : Z -> bool -> Z) (correct : bool) (gen : string)
    (m : Mastery) :
  1 <= level m <= 3 ->
  (length (history m) <= 20)%nat ->
  0 <= num_or (consecutive_failures m) 0 ->
  let m' := update_mastery weighted correct gen m in
  1 <= level m' <= 3
  /\ level m - 1 <= level m' <= level m + 1
  /\ (length (history m') <= 20)%nat
  /\ last (history m') = Some (mkHistoryItem correct gen)
  /\ (correct = true -> consecutive_failures m' = Some 0 /\ escalates m' = false)
  /\ (correct = false ->
      consecutive_failures m' = Some (num_or (consecutive_failures m) 0 + 1))
  /\ (forall g2 g3,
        escalates (update_mastery weighted false g3
                     (update_mastery weighted false g2
                        (update_mastery weighted false gen m))) = true).
Proof.
  intros Hlevel Hhist Hfail. unfold update_mastery. cbn zeta.
  cbn [level history consecutive_failures score].
  assert (Hlev : forall sc lv, 1 <= lv <= 3 ->
            let lv1 := if (85 <? sc) && (lv <? 3) then lv + 1 else lv in
            let lv2 := if (sc <? 40) && (1 <? lv1) then lv1 - 1 else lv1 in
            1 <= lv2 <= 3 /\ lv - 1 <= lv2 <= lv + 1).
  { intros sc lv Hlv. simpl.
    destruct (Z.ltb_spec 85 sc), (Z.ltb_spec lv 3); simpl;
      destruct (Z.ltb_spec sc 40); simpl;
      try match goal with |- context [1 <? ?x] => destruct (Z.ltb_spec 1 x) end;
      simpl; lia. }
  destruct (Hlev (weighted (score m) correct) (level m) Hlevel) as [Hin Hstep].
  split; [exact Hin|]. split; [exact Hstep|]. split; [|split; [|split; [|split]]].
  - destruct (Nat.ltb_spec 20 (length (history m ++ [mkHistoryItem correct gen])));
      [|assumption].
    rewrite length_app in *. simpl in *.
    destruct (history m) as [|h0 hs]; simpl in *; [lia|]. rewrite length_app. simpl. lia.
  - destruct (Nat.ltb_spec 20 (length (history m ++ [mkHistoryItem correct gen])))
      as [Hlong|_]; [|apply last_snoc].
    rewrite length_app in Hlong. simpl in Hlong.
    destruct (history m) as [|h0 hs]; simpl in *; [lia|]. apply last_snoc.
  - intros ->. simpl. split; reflexivity.
  - intros ->. reflexivity.
  - intros g2 g3. unfold escalates. simpl. rewrite !num_or_Some_0.
    apply Z.leb_le. lia.
Qed.

Lemma update_mastery_in_range_witness :
  let m' := update_mastery (fun s c => (s * 7 + (if c then 300 else 0)) / 10) false "G1"
                           default_mastery in
  1 <= level m' <= 3
  /\ level default_mastery - 1 <= level m' <= level default_mastery + 1
  /\ (length (history m') <= 20)%nat
  /\ last (history m') = Some (mkHistoryItem false "G1")
  /\ (false = true -> consecutive_failures m' = Some 0 /\ escalates m' = false)
  /\ (false = false ->
      consecutive_failures m'
      = Some (num_or (consecutive_failures default_mastery) 0 + 1))
  /\ (forall g2 g3,
        escalates (update_mastery (fun s c => (s * 7 + (if c then 300 else 0)) / 10) false g3
                     (update_mastery (fun s c => (s * 7 + (if c then 300 else 0)) / 10)
                                     false g2
                        (update_mastery (fun s c => (s * 7 + (if c then 300 else 0)) / 10)
                                        false "G1" default_mastery))) = true).
Proof.
  apply (update_mastery_in_range (fun s c => (s * 7 + (if c then 300 else 0)) / 10) false "G1"
           default_mastery); [simpl; lia|simpl; lia|vm_compute; discriminate].
Defined.

(** ** Stored study plans *)

Lemma own_generation_Some (gens : gmap string Generation) (genId uid : string)
    (g : Generation) :
  own_generation gens genId uid = Some g <-> gens !! genId = Some g /\ owner g = uid.
Proof.
  unfold own_generation. destruct (gens !! genId) as [g0|]; [|split; [discriminate|intros [? _]; discriminate]].
  destruct (String.eqb_spec (owner g0) uid) as [Ho|Ho]; split.
  - intros [= <-]. split; [reflexivity|exact Ho].
  - intros [[= <-] _]. reflexivity.
  - discriminate.
  - intros [[= <-] Hg]. contradiction.
Qed.

(** X27. Whoever sends the request, and whichever database calls reject,
    [DELETE /api/generations/:id], [PUT /api/generations/:id] and
    [DELETE /api/account] leave every stored plan alone that does not
    belong to the authenticated user: a plan is only ever changed or
    removed by a request that carries a token of its owner. *)
Theorem generations_of_others_untouched (E : Env) (rejects : GenSite -> bool)
    (safeParse : string -> option string) (deleteUser : bool) (req : Request)
    (genId : string) (body : option string) (gens : gmap string Generation)
    (other : string) (g : Generation) :
  gens !! other = Some g ->
  authenticate E req <> Authenticated (owner g) ->
  snd (delete_generation E rejects req genId gens) !! other = Some g
  /\ snd (put_generation E rejects safeParse req genId body gens) !! other = Some g
  /\ snd (delete_account E rejects deleteUser req gens) !! other = Some g.
Proof.
  intros Hg Hauth.
  unfold delete_generation, put_generation, delete_account.
  destruct (authenticate E req) as [err|uid]; [repeat split; exact Hg|].
  assert (Hne : owner g <> uid) by (intros Ho; apply Hauth; rewrite Ho; reflexivity).
  assert (Hid : forall g0, own_generation gens genId uid = Some g0 -> genId <> other).
  { intros g0 H0 ->. apply own_generation_Some in H0 as [H0 Ho].
    rewrite Hg in H0. injection H0 as H0. subst g0. contradiction. }
  split; [|split].
  - destruct (negb (db E)); [exact Hg|]. destruct (rejects GenGet); [exact Hg|].
    destruct (own_generation gens genId uid) as [g0|] eqn:H0; [|exact Hg].
    destruct (rejects GenDelete); [exact Hg|]. simpl.
    rewrite lookup_delete_ne; [exact Hg|]. exact (Hid g0 eq_refl).
  - destruct (negb (db E)); [exact Hg|]. destruct (rejects GenGet); [exact Hg|].
    destruct (own_generation gens genId uid) as [g0|] eqn:H0; [|exact Hg].
    destruct (negb (truthy body)); [exact Hg|].
    destruct (body ≫= safeParse); [|exact Hg].
    destruct (rejects GenUpdate); [exact Hg|]. simpl.
    rewrite lookup_insert_ne; [exact Hg|]. exact (Hid g0 eq_refl).
  - destruct (negb deleteUser); [exact Hg|]. destruct (db E); [|exact Hg].
    destruct (rejects GenQuery); [exact Hg|]. destruct (rejects GenDelete); [exact Hg|].
    simpl. apply map_lookup_filter_Some. split; [exact Hg|exact Hne].
Qed.

Lemma generations_of_others_untouched_witness :
  snd (delete_generation env_ok never_rejects (mkRequest (Some "Bearer bob") true) "g1"
                         two_generations) !! "g1"
    = Some (mkGeneration "alice" "notes.pdf" (Some "{days:[1]}"))
  /\ snd (put_generation env_ok never_rejects Some (mkRequest (Some "Bearer bob") true) "g1"
                         (Some "{days:[]}") two_generations) !! "g1"
     = Some (mkGeneration "alice" "notes.pdf" (Some "{days:[1]}"))
  /\ snd (delete_account env_ok never_rejects true (mkRequest (Some "Bearer bob") true)
                         two_generations) !! "g1"
     = Some (mkGeneration "alice" "notes.pdf" (Some "{days:[1]}")).
Proof.
  apply (generations_of_others_untouched env_ok never_rejects Some true
           (mkRequest (Some "Bearer bob") true) "g1" (Some "{days:[]}") two_generations
           "g1" (mkGeneration "alice" "notes.pdf" (Some "{days:[1]}"))).
  - reflexivity.
  - vm_compute. discriminate.
Defined.

(** X28. A request for a plan of another user is answered exactly as a
    request for a plan that does not exist: [DELETE] and [PUT] on
    [/api/generations/:id] send the reply they would send had the document
    been absent, and leave the collection as it is, so the replies do not
    tell whether an identifier of someone else's plan is in use. *)
Theorem foreign_generation_looks_missing (E : Env) (rejects : GenSite -> bool)
    (safeParse : string -> option string) (req : Request) (genId : string)
    (body : option string) (gens : gmap string Generation) (uid : string)
    (g : Generation) :
  authenticate E req = Authenticated uid ->
  gens !! genId = Some g ->
  owner g <> uid ->
  delete_generation E rejects req genId gens
    = (fst (delete_generation E rejects req genId (delete genId gens)), gens)
  /\ put_generation E rejects safeParse req genId body gens
     = (fst (put_generation E rejects safeParse req genId body (delete genId gens)), gens).
Proof.
  intros Hauth Hg Hne.
  assert (H1 : own_generation gens genId uid = None).
  { unfold own_generation. rewrite Hg.
    destruct (String.eqb_spec (owner g) uid); [contradiction|reflexivity]. }
  assert (H2 : own_generation (delete genId gens) genId uid = None).
  { unfold own_generation. rewrite lookup_delete_eq. reflexivity. }
  unfold delete_generation, put_generation. rewrite Hauth, H1, H2.
  destruct (negb (db E)); [split; reflexivity|].
  destruct (rejects GenGet); split; reflexivity.
Qed.

Lemma foreign_generation_looks_missing_witness :
  delete_generation env_ok never_rejects (mkRequest (Some "Bearer bob") true) "g1"
                    two_generations
    = (fst (delete_generation env_ok never_rejects (mkRequest (Some "Bearer bob") true) "g1"
                              (delete "g1" two_generations)), two_generations)
  /\ put_generation env_ok never_rejects Some (mkRequest (Some "Bearer bob") true) "g1"
                    (Some "{days:[]}") two_generations
     = (fst (put_generation env_ok never_rejects Some (mkRequest (Some "Bearer bob") true)
                            "g1" (Some "{days:[]}") (delete "g1" two_generations)),
        two_generations).
Proof.
  apply (foreign_generation_looks_missing env_ok never_rejects Some
           (mkRequest (Some "Bearer bob") true) "g1" (Some "{days:[]}") two_generations
           "bob" (mkGeneration "alice" "notes.pdf" (Some "{days:[1]}"))).
  - reflexivity.
  - reflexivity.
  - simpl. discriminate.
Defined.

(** X29. The three routes report what they did.  When
    [DELETE /api/generations/:id] answers with success, the document
    belonged to the caller and is gone; when
    [PUT /api/generations/:id] answers with success, the document belonged
    to the caller and now holds the plan as the schema validated it, never
    the raw body; when [DELETE /api/account] answers with success on a
    server with a database, every plan of the caller is gone.  Whenever
    one of them answers with an error the collection is as it was. *)
Theorem generation_routes_all_or_nothing (E : Env) (rejects : GenSite -> bool)
    (safeParse : string -> option string) (deleteUser : bool) (req : Request)
    (genId : string) (body : option string) (gens : gmap string Generation) :
  match delete_generation E rejects req genId gens with
  | (Json _, gens') =>
      exists uid g, authenticate E req = Authenticated uid /\ gens !! genId = Some g
                    /\ owner g = uid /\ gens' = delete genId gens
  | (Failure _ _, gens') => gens' = gens
  end
  /\ match put_generation E rejects safeParse req genId body gens with
     | (Json _, gens') =>
         exists uid g raw plan,
           authenticate E req = Authenticated uid /\ gens !! genId = Some g
           /\ owner g = uid /\ body = Some raw /\ safeParse raw = Some plan
           /\ gens' = <[genId := mkGeneration uid (fileName g) (Some plan)]> gens
     | (Failure _ _, gens') => gens' = gens
     end
  /\ match delete_account E rejects deleteUser req gens with
     | (Json _, gens') =>
         exists uid, authenticate E req = Authenticated uid
                     /\ (db E = true ->
                         forall i g, gens' !! i = Some g -> owner g <> uid)
     | (Failure _ _, gens') => gens' = gens
     end.
Proof.
  unfold delete_generation, put_generation, delete_account.
  destruct (authenticate E req) as [err|uid]; [repeat split|].
  split; [|split].
  - destruct (negb (db E)); [reflexivity|]. destruct (rejects GenGet); [reflexivity|].
    destruct (own_generation gens genId uid) as [g|] eqn:Hown; [|reflexivity].
    destruct (rejects GenDelete); [reflexivity|].
    apply own_generation_Some in Hown as [Hg Ho].
    exists uid, g. repeat split; assumption.
  - destruct (negb (db E)); [reflexivity|]. destruct (rejects GenGet); [reflexivity|].
    destruct (own_generation gens genId uid) as [g|] eqn:Hown; [|reflexivity].
    destruct (negb (truthy body)); [reflexivity|].
    destruct body as [raw|]; simpl; [|reflexivity].
    destruct (safeParse raw) as [plan|] eqn:Hparse; [|reflexivity].
    destruct (rejects GenUpdate); [reflexivity|].
    apply own_generation_Some in Hown as [Hg Ho].
    exists uid, g, raw, plan. rewrite Ho. repeat split; assumption.
  - destruct (negb deleteUser); [reflexivity|].
    destruct (db E); [|exists uid; split; [reflexivity|discriminate]].
    destruct (rejects GenQuery); [reflexivity|]. destruct (rejects GenDelete); [reflexivity|].
    exists uid. split; [reflexivity|]. intros _ i g Hi.
    apply map_lookup_filter_Some in Hi as [_ Hi]. exact Hi.
Qed.

(** X30. None of the three routes creates a document or hands one over:
    every plan in the collection after the request was there before it,
    under the same identifier, with the same owner and file name. *)
Theorem generation_owner_fixed (E : Env) (rejects : GenSite -> bool)
    (safeParse : string -> option string) (deleteUser : bool) (req : Request)
    (genId : string) (body : option string) (gens : gmap string Generation)
    (i : string) (g' : Generation) :
  snd (delete_generation E rejects req genId gens) !! i = Some g'
  \/ snd (put_generation E rejects safeParse req genId body gens) !! i = Some g'
  \/ snd (delete_account E rejects deleteUser req gens) !! i = Some g' ->
  exists g, gens !! i = Some g /\ owner g = owner g' /\ fileName g = fileName g'.
Proof.
  assert (Hsame : gens !! i = Some g' ->
                  exists g, gens !! i = Some g /\ owner g = owner g' /\ fileName g = fileName g').
  { intros H. exists g'. repeat split. exact H. }
  unfold delete_generation, put_generation, delete_account.
  destruct (authenticate E req) as [err|uid]; [intros [H|[H|H]]; exact (Hsame H)|].
  intros [H|[H|H]].
  - destruct (negb (db E)); [exact (Hsame H)|]. destruct (rejects GenGet); [exact (Hsame H)|].
    destruct (own_generation gens genId uid) as [g|] eqn:Hown; [|exact (Hsame H)].
    destruct (rejects GenDelete); [exact (Hsame H)|]. simpl in H.
    apply lookup_delete_Some in H as [_ H]. exact (Hsame H).
  - destruct (negb (db E)); [exact (Hsame H)|]. destruct (rejects GenGet); [exact (Hsame H)|].
    destruct (own_generation gens genId uid) as [g|] eqn:Hown; [|exact (Hsame H)].
    destruct (negb (truthy body)); [exact (Hsame H)|].
    destruct (body ≫= safeParse) as [plan|]; [|exact (Hsame H)].
    destruct (rejects GenUpdate); [exact (Hsame H)|]. simpl in H.
    apply own_generation_Some in Hown as [Hg Ho].
    apply lookup_insert_Some in H as [[<- <-]|[_ H]]; [|exact (Hsame H)].
    exists g. repeat split. exact Hg.
  - destruct (negb deleteUser); [exact (Hsame H)|]. destruct (db E); [|exact (Hsame H)].
    destruct (rejects GenQuery); [exact (Hsame H)|].
    destruct (rejects GenDelete); [exact (Hsame H)|]. simpl in H.
    apply map_lookup_filter_Some in H as [H _]. exact (Hsame H).
Qed.

Lemma generation_owner_fixed_witness :
  exists g, two_generations !! "g1" = Some g
            /\ owner g = owner (mkGeneration "alice" "notes.pdf" (Some "{days:[]}"))
            /\ fileName g = fileName (mkGeneration "alice" "notes.pdf" (Some "{days:[]}")).
Proof.
  apply (generation_owner_fixed env_ok never_rejects Some true
           (mkRequest (Some "Bearer alice") true) "g1" (Some "{days:[]}") two_generations
           "g1" (mkGeneration "alice" "notes.pdf" (Some "{days:[]}"))).
  right. left. reflexivity.
Defined.
